(** * The multimodal orchestrator ([server/app_orchestrator_v1.py])

    A shallow embedding of the verification pipeline: the policy resolver,
    the retrying module client, the [/api/multimodal/verify] handler with
    its flag accumulation and short-circuit behaviour, the streaming
    file digest, the [/api/challenge/start] proxy and the reading of
    settings from the environment.

    Conventions of the embedding.
    - Python values that travel through JSON are the inductive [json];
      Python's [int] and [float] are kept apart ([JInt] over [Z], [JFloat]
      over [Q]), because both occur in module responses and both are falsy
      at zero.
    - The handler is a computation in a small state-and-exit monad [M]: a
      step yields a value, returns an HTTP response early ([Done]) or
      raises ([Raised]).  The state carries the ordered log of disk and
      network operations, the files written so far and the counters of the
      clock and of the random source.
    - The outside world is an oracle [world]: what each upload contains is
      part of the request, what each downstream module answers at each
      attempt is [net], the clock is [clock], the random source is
      [uuid4_hex].
    - Library functions the handler calls but does not define
      ([json.dumps], [str.encode], [pathlib.PurePath.suffix],
      [time.strftime], [hashlib.sha256]) are parameters. *)

From Stdlib Require Import List String Ascii ZArith QArith Bool Lia Arith DecimalString.
From Stdlib Require Import Strings.Byte.
From Equations Require Import Equations.
Import ListNotations.

Local Open Scope string_scope.
Local Open Scope Z_scope.

Set Implicit Arguments.
Set Warnings "-register-all".
Generalizable All Variables.

(* ================================================================== *)
(** * Python values *)
(* ================================================================== *)

Definition bytes := list byte.

Inductive json : Type :=
| JNull
| JBool (b : bool)
| JInt (z : Z)
| JFloat (q : Q)
| JStr (s : string)
| JArr (l : list json)
| JObj (d : list (string * json)).

Module Py.

(** [bool(x)]: [None], [False], zero, the empty string, the empty list
    and the empty dict are falsy. *)
Definition truthy (j : json) : bool :=
  match j with
  | JNull => false
  | JBool b => b
  | JInt z => negb (z =? 0)
  | JFloat q => negb (Qnum q =? 0)
  | JStr s => negb (String.eqb s "")
  | JArr l => match l with [] => false | _ => true end
  | JObj d => match d with [] => false | _ => true end
  end.

(** [a or b] *)
Definition or (a b : json) : json := if truthy a then a else b.

(** [d.get(k)] on a dict: [None] when the key is absent. *)
Fixpoint get (d : list (string * json)) (k : string) : json :=
  match d with
  | [] => JNull
  | (k', v) :: t => if String.eqb k' k then v else get t k
  end.

(** [d.get(k, default)] *)
Fixpoint get_default (d : list (string * json)) (k : string) (dflt : json) : json :=
  match d with
  | [] => dflt
  | (k', v) :: t => if String.eqb k' k then v else get_default t k dflt
  end.

(** [d[k] = v]: an existing key keeps its place. *)
Fixpoint set (d : list (string * json)) (k : string) (v : json) : list (string * json) :=
  match d with
  | [] => [(k, v)]
  | (k', v') :: t => if String.eqb k' k then (k', v) :: t else (k', v') :: set t k v
  end.

(** [str(n)] for an [int]. *)
Definition str_of_int (n : Z) : string := NilZero.string_of_int (Z.to_int n).

(** [k in d] *)
Definition has_key (d : list (string * json)) (k : string) : bool :=
  existsb (fun kv => String.eqb (fst kv) k) d.

(** [needle in s] for strings. *)
Fixpoint contains (needle s : string) : bool :=
  if String.prefix needle s then true
  else match s with
       | EmptyString => false
       | String _ t => contains needle t
       end.

(** [s.startswith(p)] *)
Definition startswith (s p : string) : bool := String.prefix p s.

(** [s.rstrip("/")] *)
Fixpoint rstrip_slash (s : string) : string :=
  match s with
  | EmptyString => EmptyString
  | String c t =>
      let t' := rstrip_slash t in
      if (String.eqb t' "" && Ascii.eqb c "/"%char)%bool then EmptyString
      else String c t'
  end.

(** [s[:n]] *)
Definition prefix_of (n : nat) (s : string) : string := String.substring 0 n s.

(** [s.upper()] on the characters a hex digest contains. *)
Definition upper_char (c : ascii) : ascii :=
  let n := nat_of_ascii c in
  if ((97 <=? n)%nat && (n <=? 122)%nat)%bool then ascii_of_nat (n - 32) else c.

Fixpoint upper (s : string) : string :=
  match s with
  | EmptyString => EmptyString
  | String c t => String (upper_char c) (upper t)
  end.

(** The characters of a string, as the one-character strings that
    iterating a [str] yields. *)
Fixpoint chars (s : string) : list json :=
  match s with
  | EmptyString => []
  | String c t => JStr (String c EmptyString) :: chars t
  end.

(** Hashable values: everything JSON can carry except lists and dicts. *)
Definition hashable (j : json) : bool :=
  match j with
  | JArr _ | JObj _ => false
  | _ => true
  end.

Definition num_of (j : json) : option Q :=
  match j with
  | JBool b => Some (if b then 1%Q else 0%Q)
  | JInt z => Some (inject_Z z)
  | JFloat q => Some q
  | _ => None
  end.

(** [a == b] on hashable values, as a dict compares its keys: [None]
    only equals [None], strings compare by content, and [bool], [int]
    and [float] compare by numeric value ([True == 1 == 1.0]). *)
Definition key_eqb (a b : json) : bool :=
  match a, b with
  | JNull, JNull => true
  | JStr s, JStr t => String.eqb s t
  | _, _ =>
      match num_of a, num_of b with
      | Some x, Some y => Qeq_bool x y
      | _, _ => false
      end
  end.

(** One insertion of [dict.fromkeys]: a key already present keeps its
    place (and its first spelling), a new key goes to the end. *)
Definition insert_key (keys : list json) (x : json) : list json :=
  if existsb (key_eqb x) keys then keys else (keys ++ [x])%list.

(** [list(dict.fromkeys(l))] for a list of hashable values. *)
Definition fromkeys (l : list json) : list json :=
  fold_left insert_key l [].

End Py.

(* ================================================================== *)
(** * Configuration (module globals read from the environment) *)
(* ================================================================== *)

Record config := {
  PROOFS_DIR : string;
  SESSIONS_DIR : string;
  CHALLENGE_BASE_URL : string;
  VOICE_BASE_URL : string;
  FACE_BASE_URL : string;
  LIPSYNC_BASE_URL : string;
  VSR_BASE_URL : string;
  FUSION_BASE_URL : string;
  CHALLENGE_START_PATH : string;
  CHALLENGE_VALIDATE_PATH : string;
  VOICE_VERIFY_PATH : string;
  FACE_VERIFY_PATH : string;
  LIPSYNC_VALIDATE_PATH : string;
  VSR_VALIDATE_PATH : string;
  FUSION_EVALUATE_PATH : string;
  HTTP_RETRIES : Z;
  MAX_VIDEO_MB : Z;
  MAX_AUDIO_MB : Z
}.

(** The defaults of the source, with the evidence roots under ["."]. *)
Definition default_config : config := {|
  PROOFS_DIR := "./proofs";
  SESSIONS_DIR := "./sessions";
  CHALLENGE_BASE_URL := "http://127.0.0.1:5012";
  VOICE_BASE_URL := "http://127.0.0.1:5011";
  FACE_BASE_URL := "http://127.0.0.1:5011";
  LIPSYNC_BASE_URL := "http://127.0.0.1:5013";
  VSR_BASE_URL := "http://127.0.0.1:5014";
  FUSION_BASE_URL := "http://127.0.0.1:5015";
  CHALLENGE_START_PATH := "/api/challenge/start";
  CHALLENGE_VALIDATE_PATH := "/api/challenge/validate";
  VOICE_VERIFY_PATH := "/api/voice/verify";
  FACE_VERIFY_PATH := "/api/face/verify";
  LIPSYNC_VALIDATE_PATH := "/api/lipsync/validate";
  VSR_VALIDATE_PATH := "/api/vsr/validate";
  FUSION_EVALUATE_PATH := "/api/fusion/evaluate";
  HTTP_RETRIES := 1;
  MAX_VIDEO_MB := 50;
  MAX_AUDIO_MB := 15
|}.

(* ================================================================== *)
(** * Helpers *)
(* ================================================================== *)

Inductive exn : Type :=
| ValueError (msg : string)
| AttributeError
| TypeError
| FileNotFoundError
| RuntimeError (msg : string).

(** [_policy_to_mode] *)
Definition _policy_to_mode (policy_id : string) : exn + string :=
  if String.eqb policy_id "STRICT_STANDARD" then inr "SPOKEN"
  else if String.eqb policy_id "STRICT_SILENT" then inr "SILENT"
  else inl (ValueError "INVALID_POLICY").

(** [_join] *)
Definition _join (base path : string) : string :=
  let base := Py.rstrip_slash base in
  let path := if Py.startswith path "/" then path else "/" ++ path in
  base ++ path.

Inductive response : Type :=
| JSONResponse (status_code : json) (content : json).

(** [_err]; [flags=None] is [JNull]. *)
Definition _err (status : json) (code msg : string) (flags : json) : response :=
  JSONResponse status
    (JObj [ ("ok", JBool false);
            ("error_code", JStr code);
            ("error_message", JStr msg);
            ("flags_summary", Py.or flags (JArr [])) ]).

(* ================================================================== *)
(** * Module client *)
(* ================================================================== *)

Inductive module_id : Type :=
| Challenge | Face | Voice | Lipsync | Vsr | Fusion.

Inductive payload : Type :=
| Multipart (data : list (string * json))
            (files : list (string * (string * bytes * string)))
| JsonBody (body : json).

Record http_request := {
  url : string;
  body : payload;
  headers : list (string * string)
}.

(** What one [client.post] does.  [Fail e]: the call raised (connection
    error, timeout), [e] being the text of the exception.  [Reply]: an
    HTTP exchange took place; [r_json] is what [r.json()] yields, [None]
    when the body does not parse (then [r.json()] raises). *)
Inductive attempt : Type :=
| Fail (exc : string)
| Reply (status : Z) (content_type : string) (text : string) (r_json : option json).

Definition decode_error : string := "JSONDecodeError".

(** The body of the [try] of [_post_json] and [_post_multipart]: what the
    attempt returns, or the text of the exception it raises. *)
Definition classify (a : attempt) : string + json :=
  match a with
  | Fail e => inl e
  | Reply status ct text rj =>
      if status >=? 400 then
        if Py.contains "application/json" ct then
          match rj with
          | Some j => inr (JObj [ ("__http_error__", JBool true);
                                  ("__status__", JInt status);
                                  ("__json__", j) ])
          | None => inl decode_error
          end
        else inr (JObj [ ("__http_error__", JBool true);
                         ("__status__", JInt status);
                         ("__text__", JStr (Py.prefix_of 500 text)) ])
      else if Py.contains "application/json" ct then
        match rj with
        | Some j => inr j
        | None => inl decode_error
        end
      else inr (JObj [ ("raw", JStr text) ])
  end.

(** The retry loop: [n] attempts left, the next one being attempt number
    [i]; [last_exc] is the text of the last exception caught.  (The
    back-off sleep between attempts changes no value.) *)
Fixpoint post_loop (prefix url : string) (stream : nat -> attempt)
         (n i : nat) (last_exc : string) : exn + json :=
  match n with
  | O => inl (RuntimeError (prefix ++ url ++ " :: " ++ last_exc))
  | S n' =>
      match classify (stream i) with
      | inr res => inr res
      | inl e => post_loop prefix url stream n' (S i) e
      end
  end.

Definition attempts (cfg : config) : nat :=
  Z.to_nat (Z.max 1 (HTTP_RETRIES cfg + 1)).

(** [_post_json] *)
Definition _post_json (cfg : config) (rq : http_request)
           (stream : nat -> attempt) : exn + json :=
  post_loop "HTTP_POST_JSON_FAILED: " (url rq) stream (attempts cfg) 0 "None".

(** [_post_multipart] *)
Definition _post_multipart (cfg : config) (rq : http_request)
           (stream : nat -> attempt) : exn + json :=
  post_loop "HTTP_POST_MULTIPART_FAILED: " (url rq) stream (attempts cfg) 0 "None".

(* ================================================================== *)
(** * The streaming digest *)
(* ================================================================== *)

(** [hashlib]'s hash objects, by their documented contract: feeding data
    in several [update] calls is the same as feeding the concatenation in
    one call. *)
Class Hashlib := {
  hasher : Type;
  sha256_new : hasher;
  update : hasher -> bytes -> hasher;
  hexdigest : hasher -> string;
  update_nil : forall h, update h [] = h;
  update_app : forall h a b, update (update h a) b = update h (a ++ b)%list
}.

(** [f.read(n)] on a file object whose unread part is [rest]: the bytes
    returned and the unread part left. *)
Fixpoint take (n : N) (l : bytes) : bytes :=
  match l with
  | [] => []
  | x :: t => if (n =? 0)%N then [] else x :: take (N.pred n) t
  end.

Fixpoint drop (n : N) (l : bytes) : bytes :=
  match l with
  | [] => []
  | x :: t => if (n =? 0)%N then l else drop (N.pred n) t
  end.

Definition CHUNK : N := 1024 * 1024.

(** Matching on a value while remembering where it came from. *)
Definition inspect {A} (a : A) : {b | a = b} := exist _ a eq_refl.

Section Digest.
Context `{HL : Hashlib}.

(** [_sha256_bytes] *)
Definition _sha256_bytes (data : bytes) : string :=
  hexdigest (update sha256_new data).

(** The loop of [_sha256_file]:
    [for chunk in iter(lambda: f.read(1024 * 1024), b""): h.update(chunk)],
    [rest] being the unread part of the file.  The loop ends at the
    first empty read. *)
Equations? hash_chunks (h : hasher) (rest : bytes) : hasher
  by wf (List.length rest) lt :=
  hash_chunks h rest with inspect (take CHUNK rest) => {
    | exist _ [] _ := h;
    | exist _ (x :: t) E := hash_chunks (update h (x :: t)) (drop CHUNK rest) }.
Proof.
  assert (G0 : forall l (m : N), (List.length (drop m l) <= List.length l)%nat).
  { induction l as [|y l IH]; intros m; simpl; [lia|].
    destruct (m =? 0)%N; simpl; [lia|]. specialize (IH (N.pred m)). lia. }
  destruct rest as [|y l]; simpl in *; [discriminate E|].
  apply Nat.lt_succ_r, G0.
Qed.

(** [_sha256_file], on the content of the file at [path]. *)
Definition _sha256_file (content : bytes) : string :=
  hexdigest (hash_chunks sha256_new content).

End Digest.

(* ================================================================== *)
(** * The world, the log and the monad of the handler *)
(* ================================================================== *)

Record upload := {
  filename : option string;
  content_type : option string;
  content : bytes
}.

(** The form of [/api/multimodal/verify]. *)
Record verify_request := {
  policy_id : string;
  enrollment_id_face : string;
  enrollment_id_voice : option string;
  challenge_id : string;
  accept_face : Q;
  reject_face : Q;
  accept_voice : Q;
  reject_voice : Q;
  clip_video : upload;
  clip_audio : option upload
}.

(** The request [r] with another audio upload, or none. *)
Definition with_audio (r : verify_request) (a : option upload) : verify_request := {|
  policy_id := policy_id r;
  enrollment_id_face := enrollment_id_face r;
  enrollment_id_voice := enrollment_id_voice r;
  challenge_id := challenge_id r;
  accept_face := accept_face r;
  reject_face := reject_face r;
  accept_voice := accept_voice r;
  reject_voice := reject_voice r;
  clip_video := clip_video r;
  clip_audio := a
|}.

Record world := {
  (** what module [m] answers to request [rq] at its [i]-th attempt *)
  net : module_id -> http_request -> nat -> attempt;
  (** the [i]-th reading of the clock, in milliseconds *)
  clock : nat -> Z;
  (** the [i]-th [uuid.uuid4().hex] *)
  uuid4_hex : nat -> string
}.

Inductive upload_kind : Type := ClipVideo | ClipAudio.

(** Disk and network operations, in the order they happen.  [EvPost]
    records one call of the module client with what it gave back. *)
Inductive event : Type :=
| EvReadUpload (k : upload_kind)
| EvMkdir (dir : string)
| EvWriteBytes (path : string) (data : bytes)
| EvWriteText (path : string) (text : string)
| EvReadFile (path : string)
| EvPost (m : module_id) (rq : http_request) (res : exn + json).

Record state := {
  trace : list event;
  files : list (string * bytes);
  ticks : nat;
  draws : nat
}.

Definition init_state : state :=
  {| trace := []; files := []; ticks := 0; draws := 0 |}.

Definition log (e : event) (s : state) : state :=
  {| trace := (trace s ++ [e])%list; files := files s; ticks := ticks s; draws := draws s |}.

Definition store (path : string) (data : bytes) (s : state) : state :=
  {| trace := trace s; files := (path, data) :: files s; ticks := ticks s; draws := draws s |}.

Fixpoint lookup_file (fs : list (string * bytes)) (path : string) : option bytes :=
  match fs with
  | [] => None
  | (p, d) :: t => if String.eqb p path then Some d else lookup_file t path
  end.

Inductive res (A : Type) : Type :=
| Val (a : A)
| Done (r : response)
| Raised (e : exn).
Arguments Val {A} a.
Arguments Done {A} r.
Arguments Raised {A} e.

Definition M (A : Type) : Type := state -> res A * state.

Definition ret {A} (a : A) : M A := fun s => (Val a, s).
Definition done {A} (r : response) : M A := fun s => (Done r, s).
Definition raise {A} (e : exn) : M A := fun s => (Raised e, s).

Definition bind {A B} (m : M A) (k : A -> M B) : M B :=
  fun s =>
    match m s with
    | (Val a, s') => k a s'
    | (Done r, s') => (Done r, s')
    | (Raised e, s') => (Raised e, s')
    end.

Notation "x <- m ;; k" := (bind m (fun x => k))
  (at level 61, m at next level, right associativity).
Notation "' p <- m ;; k" := (bind m (fun x => let 'p := x in k))
  (at level 61, p pattern, m at next level, right associativity).

Definition lift {A} (r : exn + A) : M A :=
  match r with
  | inl e => raise e
  | inr a => ret a
  end.

(** [x.get]: an attribute only dicts have. *)
Definition dict_of (j : json) : M (list (string * json)) :=
  match j with
  | JObj d => ret d
  | _ => raise AttributeError
  end.

(** [l + list(x)]: a list yields its items, a string its characters, a
    dict its keys; anything else is not iterable. *)
Definition extend (l : list json) (x : json) : option (list json) :=
  match x with
  | JArr xs => Some (l ++ xs)%list
  | JStr s => Some (l ++ Py.chars s)%list
  | JObj d => Some (l ++ map (fun kv => JStr (fst kv)) d)%list
  | _ => None
  end.

(** [l += x] on a list [l]. *)
Definition iadd (l : list json) (x : json) : M (list json) :=
  match extend l x with
  | Some l' => ret l'
  | None => raise TypeError
  end.

(** [list(dict.fromkeys(l))[:20]] *)
Definition unique_first_20 (l : list json) : M (list json) :=
  if forallb Py.hashable l then ret (firstn 20 (Py.fromkeys l))
  else raise TypeError.

(** [x or d] for an optional string. *)
Definition str_or (x : option string) (d : string) : string :=
  match x with
  | Some s => if String.eqb s "" then d else s
  | None => d
  end.

Definition opt_str (x : option string) : json :=
  match x with
  | Some s => JStr s
  | None => JNull
  end.

(** A [Path] made of a directory and a file name. *)
Record path := { parent : string; name : string }.
Definition path_str (p : path) : string := parent p ++ "/" ++ name p.

(* ================================================================== *)
(** * The handler of [/api/multimodal/verify] *)
(* ================================================================== *)

Definition octet_stream : string := "application/octet-stream".

(** What step 3 leaves for the later steps. *)
Record session := {
  session_id : string;
  ses_dir : string;
  video_path : path;
  audio_path : option path;
  headers_of : list (string * string)
}.

(** What the client of the endpoint gets: a response (the dict returned
    at the end is sent as a 200 JSON response), or an exception that
    left the handler. *)
Inductive outcome : Type :=
| Responded (r : response)
| Failed (e : exn).

Section Handler.

(** [json.dumps(., indent=2)], [str.encode("utf-8")],
    [Path(.).suffix] and [time.strftime] on a clock reading. *)
Variable json_dumps : json -> string.
Variable encode_utf8 : string -> bytes.
Variable path_suffix : string -> string.
Variable strftime_utc : Z -> string.
Context `{HL : Hashlib}.

Variable cfg : config.
Variable w : world.
Variable req : verify_request.

(** ** Effects *)

Definition time_time : M Z :=
  fun s => (Val (clock w (ticks s)),
            {| trace := trace s; files := files s; ticks := S (ticks s); draws := draws s |}).

(** [_now_utc_iso] *)
Definition _now_utc_iso : M string :=
  t <- time_time ;; ret (strftime_utc t).

Definition uuid4 : M string :=
  fun s => (Val (uuid4_hex w (draws s)),
            {| trace := trace s; files := files s; ticks := ticks s; draws := S (draws s) |}).

(** [_new_session_id] *)
Definition _new_session_id : M string :=
  h <- uuid4 ;; ret ("SES-" ++ Py.upper (Py.prefix_of 16 h)).

(** [_new_proof_id] *)
Definition _new_proof_id : M string :=
  h <- uuid4 ;; ret ("PROOF-" ++ Py.upper (Py.prefix_of 16 h)).

(** [await clip.read()] *)
Definition read_upload (k : upload_kind) (u : upload) : M bytes :=
  fun s => (Val (content u), log (EvReadUpload k) s).

Definition mkdir (dir : string) : M unit :=
  fun s => (Val tt, log (EvMkdir dir) s).

Definition write_bytes (p : string) (data : bytes) : M unit :=
  fun s => (Val tt, store p data (log (EvWriteBytes p data) s)).

Definition write_text (p : string) (text : string) : M unit :=
  fun s => (Val tt, store p (encode_utf8 text) (log (EvWriteText p text) s)).

(** [_sha256_file(p)], the file being one this run wrote. *)
Definition sha256_file (p : string) : M string :=
  fun s =>
    match lookup_file (files s) p with
    | Some data => (Val (_sha256_file data), log (EvReadFile p) s)
    | None => (Raised FileNotFoundError, s)
    end.

(** [await _post_multipart(...)] and [await _post_json(...)] against
    module [m]. *)
Definition post_multipart (m : module_id) (rq : http_request) : M json :=
  fun s =>
    let r := _post_multipart cfg rq (net w m rq) in
    lift r (log (EvPost m rq r) s).

Definition post_json (m : module_id) (rq : http_request) : M json :=
  fun s =>
    let r := _post_json cfg rq (net w m rq) in
    lift r (log (EvPost m rq r) s).

Definition is_standard : bool := String.eqb (policy_id req) "STRICT_STANDARD".
Definition is_silent : bool := String.eqb (policy_id req) "STRICT_SILENT".

Definition video_part (ses : session) (video_bytes : bytes)
  : string * (string * bytes * string) :=
  ("clip_video",
   (name (video_path ses), video_bytes,
    str_or (content_type (clip_video req)) octet_stream)).

(** [(audio_path.name, audio_bytes, clip_audio.content_type or ...)] *)
Definition audio_part (ap : path) (audio_bytes : bytes)
  : M (string * (string * bytes * string)) :=
  match clip_audio req with
  | Some ca => ret ("clip_audio",
                    (name ap, audio_bytes, str_or (content_type ca) octet_stream))
  | None => raise AttributeError
  end.

(** ** 1) Validate policy and required fields (lines 219-238) *)
Definition step_validate : M (Z * string * list json) :=
  t0 <- time_time ;;
  let flags_summary : list json := [] in
  mode <- match _policy_to_mode (policy_id req) with
          | inr m => ret m
          | inl (ValueError _) =>
              done (_err (JInt 400) "INVALID_POLICY" "policy_id not supported" JNull)
          | inl e => raise e
          end ;;
  if String.eqb (enrollment_id_face req) "" then
    done (_err (JInt 400) "MISSING_FIELD" "enrollment_id_face required" JNull)
  else if (is_standard && String.eqb (str_or (enrollment_id_voice req) "") "")%bool then
    done (_err (JInt 400) "MISSING_FIELD"
               "enrollment_id_voice required for STRICT_STANDARD" JNull)
  else if (is_standard && match clip_audio req with None => true | _ => false end)%bool then
    done (_err (JInt 400) "MISSING_FIELD" "clip_audio required for STRICT_STANDARD" JNull)
  else
    let flags_summary :=
      if (is_silent && match clip_audio req with Some _ => true | None => false end)%bool
      then (flags_summary ++ [JStr "AUDIO_IGNORED_SILENT"])%list
      else flags_summary in
    ret (t0, mode, flags_summary).

(** ** 2) Read and size guard (lines 241-249) *)
Definition step_read : M (bytes * option bytes) :=
  video_bytes <- read_upload ClipVideo (clip_video req) ;;
  if Z.of_nat (List.length video_bytes) >? MAX_VIDEO_MB cfg * 1024 * 1024 then
    done (_err (JInt 413) "VIDEO_TOO_LARGE"
               ("clip_video exceeds " ++ Py.str_of_int (MAX_VIDEO_MB cfg) ++ "MB") JNull)
  else
    match clip_audio req with
    | Some ca =>
        if is_standard then
          audio_bytes <- read_upload ClipAudio ca ;;
          if Z.of_nat (List.length audio_bytes) >? MAX_AUDIO_MB cfg * 1024 * 1024 then
            done (_err (JInt 413) "AUDIO_TOO_LARGE"
                       ("clip_audio exceeds " ++ Py.str_of_int (MAX_AUDIO_MB cfg) ++ "MB")
                       JNull)
          else ret (video_bytes, Some audio_bytes)
        else ret (video_bytes, None)
    | None => ret (video_bytes, None)
    end.

(** ** 3) Persist raw media (lines 252-283) *)
Definition step_persist (mode : string) (video_bytes : bytes)
           (audio_bytes : option bytes) : M session :=
  sid <- _new_session_id ;;
  let dir := SESSIONS_DIR cfg ++ "/" ++ sid ++ "/raw" in
  _ <- mkdir dir ;;
  let video_ext :=
    str_or (Some (path_suffix (str_or (filename (clip_video req)) "clip_video.bin")))
           ".bin" in
  let vpath := {| parent := dir; name := "clip_video" ++ video_ext |} in
  _ <- write_bytes (path_str vpath) video_bytes ;;
  apath <- match audio_bytes with
           | Some ab =>
               if is_standard then
                 let fname :=
                   match clip_audio req with
                   | Some ca => str_or (filename ca) "clip_audio.bin"
                   | None => "clip_audio.bin"
                   end in
                 let audio_ext := str_or (Some (path_suffix fname)) ".bin" in
                 let ap := {| parent := dir; name := "clip_audio" ++ audio_ext |} in
                 _ <- write_bytes (path_str ap) ab ;;
                 ret (Some ap)
               else ret None
           | None => ret None
           end ;;
  now <- _now_utc_iso ;;
  let metadata :=
    JObj [ ("session_id", JStr sid);
           ("time_utc", JStr now);
           ("policy_id", JStr (policy_id req));
           ("mode", JStr mode);
           ("challenge_id", JStr (challenge_id req));
           ("enrollment_id_face", JStr (enrollment_id_face req));
           ("enrollment_id_voice", opt_str (enrollment_id_voice req));
           ("input_files",
            JObj [ ("clip_video", JStr (name vpath));
                   ("clip_audio",
                    match apath with Some ap => JStr (name ap) | None => JNull end) ]) ] in
  _ <- write_text (dir ++ "/metadata.json") (json_dumps metadata) ;;
  ret {| session_id := sid; ses_dir := dir; video_path := vpath; audio_path := apath;
         headers_of := [("X-Veritas-Session", sid)] |}.

Definition timings0 : list (string * json) :=
  [ ("total", JInt 0); ("challenge", JInt 0); ("voice", JInt 0); ("face", JInt 0);
    ("lipsync", JInt 0); ("vsr", JInt 0); ("fusion", JInt 0) ].

(** ** 4) Challenge validate (lines 286-304) *)
Definition step_challenge (mode : string) (ses : session) (video_bytes : bytes)
           (audio_bytes : option bytes) (flags_summary : list json)
           (timings : list (string * json))
  : M (json * json * list json * list (string * json)) :=
  t_ch0 <- time_time ;;
  let ch_url := _join (CHALLENGE_BASE_URL cfg) (CHALLENGE_VALIDATE_PATH cfg) in
  let ch_files := [video_part ses video_bytes] in
  let ch_data := [("challenge_id", JStr (challenge_id req)); ("mode", JStr mode)] in
  ch_files <- match audio_bytes, audio_path ses with
              | Some ab, Some ap =>
                  if is_standard then
                    a <- audio_part ap ab ;; ret (ch_files ++ [a])%list
                  else ret ch_files
              | _, _ => ret ch_files
              end ;;
  ch_res <- post_multipart Challenge
              {| url := ch_url; body := Multipart ch_data ch_files;
                 headers := headers_of ses |} ;;
  t <- time_time ;;
  let timings := Py.set timings "challenge" (JInt (t - t_ch0)) in
  ch <- dict_of ch_res ;;
  if Py.truthy (Py.get ch "__http_error__") then
    j <- dict_of (Py.or (Py.get ch "__json__") (JObj [])) ;;
    done (_err (Py.get_default ch "__status__" (JInt 500)) "CHALLENGE_ERROR"
               "challenge validate failed"
               (Py.or (Py.get j "flags_summary") (JArr [])))
  else
    let challenge_score := Py.get ch "score_challenge" in
    let challenge_decision := Py.get ch "decision_challenge" in
    flags_summary <- iadd flags_summary
                       (Py.or (Py.or (Py.get ch "flags_challenge") (Py.get ch "flags"))
                              (JArr [])) ;;
    ret (challenge_score, challenge_decision, flags_summary, timings).

(** ** 5A) Face verify (lines 313-328) *)
Definition step_face (ses : session) (video_bytes : bytes)
           (flags_summary : list json) (timings : list (string * json))
  : M (json * list json * list (string * json)) :=
  t_f0 <- time_time ;;
  let face_url := _join (FACE_BASE_URL cfg) (FACE_VERIFY_PATH cfg) in
  face_res <- post_multipart Face
                {| url := face_url;
                   body := Multipart
                             [("enrollment_id_face", JStr (enrollment_id_face req))]
                             [video_part ses video_bytes];
                   headers := headers_of ses |} ;;
  t <- time_time ;;
  let timings := Py.set timings "face" (JInt (t - t_f0)) in
  fr <- dict_of face_res ;;
  if Py.truthy (Py.get fr "__http_error__") then
    j <- dict_of (Py.or (Py.get fr "__json__") (JObj [])) ;;
    done (_err (Py.get_default fr "__status__" (JInt 500)) "FACE_ERROR"
               "face verify failed"
               (Py.or (Py.or (Py.get j "flags_face") (Py.get j "flags_summary"))
                      (JArr [])))
  else
    let face_score := Py.or (Py.get fr "score_face_match") (Py.get fr "face_score") in
    flags_summary <- iadd flags_summary
                       (Py.or (Py.or (Py.get fr "flags_face") (Py.get fr "flags"))
                              (JArr [])) ;;
    ret (face_score, flags_summary, timings).

(** ** 5B) Voice verify and lip-sync, STRICT_STANDARD (lines 331-367) *)

(** Lines 332-347. *)
Definition step_voice (ses : session) (ap : path) (ab : bytes)
           (flags_summary : list json) (timings : list (string * json))
  : M (json * list json * list (string * json)) :=
  t_v0 <- time_time ;;
  let voice_url := _join (VOICE_BASE_URL cfg) (VOICE_VERIFY_PATH cfg) in
  a <- audio_part ap ab ;;
  voice_res <- post_multipart Voice
                 {| url := voice_url;
                    body := Multipart
                              [("enrollment_id_voice", opt_str (enrollment_id_voice req))]
                              [a];
                    headers := headers_of ses |} ;;
  t <- time_time ;;
  let timings := Py.set timings "voice" (JInt (t - t_v0)) in
  vr <- dict_of voice_res ;;
  if Py.truthy (Py.get vr "__http_error__") then
    j <- dict_of (Py.or (Py.get vr "__json__") (JObj [])) ;;
    done (_err (Py.get_default vr "__status__" (JInt 500)) "VOICE_ERROR"
               "voice verify failed"
               (Py.or (Py.or (Py.get j "flags_voice") (Py.get j "flags_summary"))
                      (JArr [])))
  else
    let voice_score := Py.or (Py.get vr "score_voice_match") (Py.get vr "voice_score") in
    flags_summary <- iadd flags_summary
                       (Py.or (Py.or (Py.get vr "flags_voice") (Py.get vr "flags"))
                              (JArr [])) ;;
    ret (voice_score, flags_summary, timings).

(** Lines 349-367. *)
Definition step_lipsync (ses : session) (video_bytes : bytes) (ap : path) (ab : bytes)
           (flags_summary : list json) (timings : list (string * json))
  : M (json * list json * list (string * json)) :=
  t_l0 <- time_time ;;
  let lipsync_url := _join (LIPSYNC_BASE_URL cfg) (LIPSYNC_VALIDATE_PATH cfg) in
  a <- audio_part ap ab ;;
  lipsync_res <- post_multipart Lipsync
                   {| url := lipsync_url;
                      body := Multipart
                                [("challenge_id", JStr (challenge_id req))]
                                [video_part ses video_bytes; a];
                      headers := headers_of ses |} ;;
  t <- time_time ;;
  let timings := Py.set timings "lipsync" (JInt (t - t_l0)) in
  lr <- dict_of lipsync_res ;;
  if Py.truthy (Py.get lr "__http_error__") then
    j <- dict_of (Py.or (Py.get lr "__json__") (JObj [])) ;;
    done (_err (Py.get_default lr "__status__" (JInt 500)) "LIPSYNC_ERROR"
               "lipsync failed"
               (Py.or (Py.or (Py.get j "flags_lipsync") (Py.get j "flags_summary"))
                      (JArr [])))
  else
    let lipsync_score := Py.or (Py.get lr "score_lipsync") (Py.get lr "lipsync_score") in
    flags_summary <- iadd flags_summary
                       (Py.or (Py.or (Py.get lr "flags_lipsync") (Py.get lr "flags"))
                              (JArr [])) ;;
    ret (lipsync_score, flags_summary, timings).

(** The block guarded by line 331; both scores stay [None] when it is
    skipped. *)
Definition step_voice_lipsync (ses : session) (video_bytes : bytes)
           (audio_bytes : option bytes) (flags_summary : list json)
           (timings : list (string * json))
  : M (json * json * list json * list (string * json)) :=
  match audio_bytes, audio_path ses with
  | Some ab, Some ap =>
      if is_standard then
        '(voice_score, flags_summary, timings) <-
          step_voice ses ap ab flags_summary timings ;;
        '(lipsync_score, flags_summary, timings) <-
          step_lipsync ses video_bytes ap ab flags_summary timings ;;
        ret (voice_score, lipsync_score, flags_summary, timings)
      else ret (JNull, JNull, flags_summary, timings)
  | _, _ => ret (JNull, JNull, flags_summary, timings)
  end.

(** ** 5C) VSR, STRICT_SILENT (lines 370-386) *)
Definition step_vsr (ses : session) (video_bytes : bytes)
           (flags_summary : list json) (timings : list (string * json))
  : M (json * list json * list (string * json)) :=
  if is_silent then
    t_s0 <- time_time ;;
    let vsr_url := _join (VSR_BASE_URL cfg) (VSR_VALIDATE_PATH cfg) in
    vsr_res <- post_multipart Vsr
                 {| url := vsr_url;
                    body := Multipart
                              [("challenge_id", JStr (challenge_id req))]
                              [video_part ses video_bytes];
                    headers := headers_of ses |} ;;
    t <- time_time ;;
    let timings := Py.set timings "vsr" (JInt (t - t_s0)) in
    sr <- dict_of vsr_res ;;
    if Py.truthy (Py.get sr "__http_error__") then
      j <- dict_of (Py.or (Py.get sr "__json__") (JObj [])) ;;
      done (_err (Py.get_default sr "__status__" (JInt 500)) "VSR_ERROR" "vsr failed"
                 (Py.or (Py.or (Py.get j "flags_vsr") (Py.get j "flags_summary"))
                        (JArr [])))
    else
      let vsr_score := Py.or (Py.get sr "score_vsr") (Py.get sr "vsr_score") in
      flags_summary <- iadd flags_summary
                         (Py.or (Py.or (Py.get sr "flags_vsr") (Py.get sr "flags"))
                                (JArr [])) ;;
      ret (vsr_score, flags_summary, timings)
  else ret (JNull, flags_summary, timings).

Definition breakdown (voice_score face_score lipsync_score challenge_score vsr_score : json)
  : json :=
  JObj [ ("voice_score", voice_score);
         ("face_score", face_score);
         ("lipsync_score", lipsync_score);
         ("challenge_score", challenge_score);
         ("vsr_score", vsr_score) ].

(** ** 6) Fusion evaluate (lines 389-417) *)
Definition step_fusion (ses : session)
           (challenge_score challenge_decision face_score voice_score
            lipsync_score vsr_score : json)
           (flags_summary : list json) (timings : list (string * json))
  : M (json * list json * list (string * json)) :=
  t_fu0 <- time_time ;;
  let fusion_url := _join (FUSION_BASE_URL cfg) (FUSION_EVALUATE_PATH cfg) in
  let fusion_payload :=
    JObj [ ("policy_id", JStr (policy_id req));
           ("thresholds",
            JObj [ ("accept_face", JFloat (accept_face req));
                   ("reject_face", JFloat (reject_face req));
                   ("accept_voice", JFloat (accept_voice req));
                   ("reject_voice", JFloat (reject_voice req)) ]);
           ("inputs",
            JObj [ ("challenge", JObj [ ("score", challenge_score);
                                        ("decision", challenge_decision) ]);
                   ("face", JObj [ ("score", face_score) ]);
                   ("voice", JObj [ ("score", voice_score) ]);
                   ("lipsync", JObj [ ("score", lipsync_score) ]);
                   ("vsr", JObj [ ("score", vsr_score) ]) ]) ] in
  fusion_res <- post_json Fusion
                  {| url := fusion_url; body := JsonBody fusion_payload;
                     headers := headers_of ses |} ;;
  t <- time_time ;;
  let timings := Py.set timings "fusion" (JInt (t - t_fu0)) in
  fu <- dict_of fusion_res ;;
  if Py.truthy (Py.get fu "__http_error__") then
    j <- dict_of (Py.or (Py.get fu "__json__") (JObj [])) ;;
    done (_err (Py.get_default fu "__status__" (JInt 500)) "FUSION_ERROR"
               "fusion evaluate failed"
               (Py.or (Py.get j "flags_summary") (JArr [])))
  else
    let final_decision :=
      Py.or (Py.or (Py.get fu "final_decision") (Py.get fu "decision"))
            (JStr "INCONCLUSIVE") in
    flags_summary <- iadd flags_summary
                       (Py.or (Py.or (Py.get fu "flags_summary") (Py.get fu "flags"))
                              (JArr [])) ;;
    flags_summary <- unique_first_20 flags_summary ;;
    ret (final_decision, flags_summary, timings).

Definition module_refs : json :=
  JObj [ ("challenge", JObj [ ("base_url", JStr (CHALLENGE_BASE_URL cfg));
                              ("start_path", JStr (CHALLENGE_START_PATH cfg));
                              ("validate_path", JStr (CHALLENGE_VALIDATE_PATH cfg)) ]);
         ("voice", JObj [ ("base_url", JStr (VOICE_BASE_URL cfg));
                          ("verify_path", JStr (VOICE_VERIFY_PATH cfg)) ]);
         ("face", JObj [ ("base_url", JStr (FACE_BASE_URL cfg));
                         ("verify_path", JStr (FACE_VERIFY_PATH cfg)) ]);
         ("lipsync", JObj [ ("base_url", JStr (LIPSYNC_BASE_URL cfg));
                            ("validate_path", JStr (LIPSYNC_VALIDATE_PATH cfg)) ]);
         ("vsr", JObj [ ("base_url", JStr (VSR_BASE_URL cfg));
                        ("validate_path", JStr (VSR_VALIDATE_PATH cfg)) ]);
         ("fusion", JObj [ ("base_url", JStr (FUSION_BASE_URL cfg));
                           ("evaluate_path", JStr (FUSION_EVALUATE_PATH cfg)) ]) ].

(** The record written to the proof file.  [timings] is the dict as it
    stands when the file is written: its ["total"] is still 0. *)
Definition proof_obj (proof_id now mode : string) (ses : session)
           (final_decision bd : json) (flags_summary : list json)
           (sha_video : string) (sha_audio : json) (timings : list (string * json))
  : json :=
  JObj [ ("proof_version", JStr "proof_multimodal_v1");
         ("proof_id", JStr proof_id);
         ("time_utc", JStr now);
         ("policy_id", JStr (policy_id req));
         ("mode", JStr mode);
         ("session_id", JStr (session_id ses));
         ("inputs",
          JObj [ ("enrollment_id_face", JStr (enrollment_id_face req));
                 ("enrollment_id_voice", opt_str (enrollment_id_voice req));
                 ("challenge_id", JStr (challenge_id req)) ]);
         ("results",
          JObj [ ("final_decision", final_decision);
                 ("breakdown", bd);
                 ("flags_summary", JArr flags_summary) ]);
         ("evidence_refs",
          JObj [ ("video", JObj [ ("path", JStr (path_str (video_path ses)));
                                  ("sha256", JStr sha_video) ]);
                 ("audio",
                  match audio_path ses with
                  | Some ap => JObj [ ("path", JStr (path_str ap));
                                      ("sha256", sha_audio) ]
                  | None => JNull
                  end) ]);
         ("module_refs", module_refs);
         ("timings_ms", JObj timings) ].

(** ** 7) Proof and evidence hashes (lines 420-491) *)
Definition step_proof (t0 : Z) (mode : string) (ses : session)
           (final_decision bd : json) (flags_summary : list json)
           (timings : list (string * json)) : M response :=
  proof_id <- _new_proof_id ;;
  let proof_path := {| parent := PROOFS_DIR cfg; name := proof_id ++ ".json" |} in
  sha_video <- sha256_file (path_str (video_path ses)) ;;
  sha_audio <- match audio_path ses with
               | Some ap => x <- sha256_file (path_str ap) ;; ret (JStr x)
               | None => ret JNull
               end ;;
  now <- _now_utc_iso ;;
  _ <- write_text (path_str proof_path)
         (json_dumps (proof_obj proof_id now mode ses final_decision bd flags_summary
                                sha_video sha_audio timings)) ;;
  sha_proof <- sha256_file (path_str proof_path) ;;
  _ <- write_text (ses_dir ses ++ "/sha256.json")
         (json_dumps (JObj [ ("clip_video_sha256", JStr sha_video);
                             ("clip_audio_sha256", sha_audio);
                             ("proof_sha256", JStr sha_proof) ])) ;;
  t <- time_time ;;
  let timings := Py.set timings "total" (JInt (t - t0)) in
  ret (JSONResponse (JInt 200)
         (JObj [ ("ok", JBool true);
                 ("final_decision", final_decision);
                 ("proof_id", JStr proof_id);
                 ("proof_file", JStr (path_str proof_path));
                 ("breakdown", bd);
                 ("flags_summary", JArr flags_summary);
                 ("timings_ms", JObj timings) ])).

(** ** The handler *)
Definition handler : M response :=
  '(t0, mode, flags_summary) <- step_validate ;;
  '(video_bytes, audio_bytes) <- step_read ;;
  ses <- step_persist mode video_bytes audio_bytes ;;
  '(challenge_score, challenge_decision, flags_summary, timings) <-
    step_challenge mode ses video_bytes audio_bytes flags_summary timings0 ;;
  '(face_score, flags_summary, timings) <-
    step_face ses video_bytes flags_summary timings ;;
  '(voice_score, lipsync_score, flags_summary, timings) <-
    step_voice_lipsync ses video_bytes audio_bytes flags_summary timings ;;
  '(vsr_score, flags_summary, timings) <-
    step_vsr ses video_bytes flags_summary timings ;;
  '(final_decision, flags_summary, timings) <-
    step_fusion ses challenge_score challenge_decision face_score voice_score
                lipsync_score vsr_score flags_summary timings ;;
  step_proof t0 mode ses final_decision
             (breakdown voice_score face_score lipsync_score challenge_score vsr_score)
             flags_summary timings.

Definition multimodal_verify : outcome * state :=
  match handler init_state with
  | (Val r, s) => (Responded r, s)
  | (Done r, s) => (Responded r, s)
  | (Raised e, s) => (Failed e, s)
  end.

End Handler.

(* ================================================================== *)
(** * The module steps, uniformly *)
(* ================================================================== *)

(** The six module steps of the handler are written out one by one in the
    source; they differ in the names below.  [judge] is the decision each
    of them takes on what the module client gave back; the lemmas
    [step_*_judge] show that every step of the handler is an instance. *)

Definition error_code (m : module_id) : string :=
  match m with
  | Challenge => "CHALLENGE_ERROR"
  | Face => "FACE_ERROR"
  | Voice => "VOICE_ERROR"
  | Lipsync => "LIPSYNC_ERROR"
  | Vsr => "VSR_ERROR"
  | Fusion => "FUSION_ERROR"
  end.

Definition error_message (m : module_id) : string :=
  match m with
  | Challenge => "challenge validate failed"
  | Face => "face verify failed"
  | Voice => "voice verify failed"
  | Lipsync => "lipsync failed"
  | Vsr => "vsr failed"
  | Fusion => "fusion evaluate failed"
  end.

(** The flags taken from the JSON body [j] of a module's error reply. *)
Definition error_flags (m : module_id) (j : list (string * json)) : json :=
  match m with
  | Challenge => Py.or (Py.get j "flags_summary") (JArr [])
  | Face => Py.or (Py.or (Py.get j "flags_face") (Py.get j "flags_summary")) (JArr [])
  | Voice => Py.or (Py.or (Py.get j "flags_voice") (Py.get j "flags_summary")) (JArr [])
  | Lipsync => Py.or (Py.or (Py.get j "flags_lipsync") (Py.get j "flags_summary")) (JArr [])
  | Vsr => Py.or (Py.or (Py.get j "flags_vsr") (Py.get j "flags_summary")) (JArr [])
  | Fusion => Py.or (Py.get j "flags_summary") (JArr [])
  end.

(** The flags taken from a module's success reply [d]. *)
Definition reported_flags (m : module_id) (d : list (string * json)) : json :=
  match m with
  | Challenge => Py.or (Py.or (Py.get d "flags_challenge") (Py.get d "flags")) (JArr [])
  | Face => Py.or (Py.or (Py.get d "flags_face") (Py.get d "flags")) (JArr [])
  | Voice => Py.or (Py.or (Py.get d "flags_voice") (Py.get d "flags")) (JArr [])
  | Lipsync => Py.or (Py.or (Py.get d "flags_lipsync") (Py.get d "flags")) (JArr [])
  | Vsr => Py.or (Py.or (Py.get d "flags_vsr") (Py.get d "flags")) (JArr [])
  | Fusion => Py.or (Py.or (Py.get d "flags_summary") (Py.get d "flags")) (JArr [])
  end.

(** The score (for Fusion: the decision) taken from a success reply. *)
Definition score_of (m : module_id) (d : list (string * json)) : json :=
  match m with
  | Challenge => Py.get d "score_challenge"
  | Face => Py.or (Py.get d "score_face_match") (Py.get d "face_score")
  | Voice => Py.or (Py.get d "score_voice_match") (Py.get d "voice_score")
  | Lipsync => Py.or (Py.get d "score_lipsync") (Py.get d "lipsync_score")
  | Vsr => Py.or (Py.get d "score_vsr") (Py.get d "vsr_score")
  | Fusion => Py.or (Py.or (Py.get d "final_decision") (Py.get d "decision"))
                    (JStr "INCONCLUSIVE")
  end.

Inductive verdict : Type :=
| Continue (d : list (string * json)) (flags : list json)
| Stop (o : outcome).

Definition judge (m : module_id) (res : exn + json) (flags : list json) : verdict :=
  match res with
  | inl e => Stop (Failed e)
  | inr (JObj d) =>
      if Py.truthy (Py.get d "__http_error__") then
        match Py.or (Py.get d "__json__") (JObj []) with
        | JObj j =>
            Stop (Responded (_err (Py.get_default d "__status__" (JInt 500))
                                  (error_code m) (error_message m) (error_flags m j)))
        | _ => Stop (Failed AttributeError)
        end
      else
        match extend flags (reported_flags m d) with
        | Some flags' => Continue d flags'
        | None => Stop (Failed TypeError)
        end
  | inr _ => Stop (Failed AttributeError)
  end.

(** The module calls of a log, in order. *)
Fixpoint calls (tr : list event) : list (module_id * (exn + json)) :=
  match tr with
  | [] => []
  | EvPost m _ res :: t => (m, res) :: calls t
  | _ :: t => calls t
  end.

(** The modules a policy calls, in order. *)
Definition plan (standard : bool) : list module_id :=
  if standard then [Challenge; Face; Voice; Lipsync; Fusion]
  else [Challenge; Face; Vsr; Fusion].

(** [Walk flags cs ds v]: starting with [flags], the calls [cs] were
    judged one after the other; [ds] are the replies that let the
    pipeline continue; [v] is the flag list after the last call when all
    of them did, or the outcome of the call that stopped it -- which is
    then the last call made. *)
Inductive Walk : list json -> list (module_id * (exn + json)) ->
                 list (module_id * list (string * json)) ->
                 list json + outcome -> Prop :=
| Walk_nil flags : Walk flags [] [] (inl flags)
| Walk_continue flags m res d flags' cs ds v :
    judge m res flags = Continue d flags' ->
    Walk flags' cs ds v ->
    Walk flags ((m, res) :: cs) ((m, d) :: ds) v
| Walk_stop flags m res o :
    judge m res flags = Stop o ->
    Walk flags [(m, res)] [] (inr o).

(** The reply of module [m] among [ds]. *)
Fixpoint reply_of (m : module_id) (ds : list (module_id * list (string * json)))
  : option (list (string * json)) :=
  match ds with
  | [] => None
  | (m', d) :: t =>
      match m, m' with
      | Challenge, Challenge | Face, Face | Voice, Voice
      | Lipsync, Lipsync | Vsr, Vsr | Fusion, Fusion => Some d
      | _, _ => reply_of m t
      end
  end.

(** The score of module [m]: [None] when the module was not called. *)
Definition score (m : module_id) (ds : list (module_id * list (string * json))) : json :=
  match reply_of m ds with
  | Some d => score_of m d
  | None => JNull
  end.

(** The flags appended by the calls of a log: what each success reply
    contributed, in call order. *)
Definition flags_of_reply (m : module_id) (res : exn + json) : list json :=
  match res with
  | inr (JObj d) =>
      match extend [] (reported_flags m d) with
      | Some l => l
      | None => []
      end
  | _ => []
  end.

Fixpoint appended (cs : list (module_id * (exn + json))) : list json :=
  match cs with
  | [] => []
  | (m, res) :: t => (flags_of_reply m res ++ appended t)%list
  end.

(** Deduplication as the specification words it: every flag stays where
    it is first seen, and its later repetitions are dropped. *)
Fixpoint first_seen (l : list json) : list json :=
  match l with
  | [] => []
  | x :: t => x :: filter (fun y => negb (Py.key_eqb x y)) (first_seen t)
  end.

(** No two entries of the list are equal as keys. *)
Definition distinct_keys (l : list json) : Prop :=
  ForallOrdPairs (fun a b => Py.key_eqb a b = false) l.

(** The response is the one returned at the end of the handler. *)
Definition succeeded (out : outcome) (c : list (string * json)) : Prop :=
  exists st, out = Responded (JSONResponse st (JObj c)) /\ Py.get c "ok" = JBool true.

(** The two field names under which a module reports its score, and the
    key of the breakdown the score goes to. *)
Definition primary_field (m : module_id) : string :=
  match m with
  | Face => "score_face_match"
  | Voice => "score_voice_match"
  | Lipsync => "score_lipsync"
  | Vsr => "score_vsr"
  | Challenge => "score_challenge"
  | Fusion => "final_decision"
  end.

Definition alternate_field (m : module_id) : string :=
  match m with
  | Face => "face_score"
  | Voice => "voice_score"
  | Lipsync => "lipsync_score"
  | Vsr => "vsr_score"
  | Challenge => "score_challenge"
  | Fusion => "decision"
  end.

Definition breakdown_key (m : module_id) : string :=
  match m with
  | Face => "face_score"
  | Voice => "voice_score"
  | Lipsync => "lipsync_score"
  | Vsr => "vsr_score"
  | Challenge => "challenge_score"
  | Fusion => "final_decision"
  end.

(** The modules whose score is taken with an [or] over two field names. *)
Definition two_names (m : module_id) : bool :=
  match m with
  | Face | Voice | Lipsync | Vsr => true
  | Challenge | Fusion => false
  end.

Definition success_content (final_decision bd : json) (proof_id proof_file : string)
           (flags : list json) (tms : list (string * json)) : json :=
  JObj [ ("ok", JBool true);
         ("final_decision", final_decision);
         ("proof_id", JStr proof_id);
         ("proof_file", JStr proof_file);
         ("breakdown", bd);
         ("flags_summary", JArr flags);
         ("timings_ms", JObj tms) ].

Definition finish (r : res response) : outcome :=
  match r with
  | Val x => Responded x
  | Done x => Responded x
  | Raised e => Failed e
  end.

(** Every file part of the request is the video clip. *)
Definition carries_video_only (vb : bytes) (rq : http_request) : Prop :=
  match body rq with
  | Multipart _ fs =>
      forall k n b ct, In (k, (n, b, ct)) fs -> k = "clip_video" /\ b = vb
  | JsonBody _ => True
  end.

(** An operation that touches no audio: it reads the video upload, writes
    the video bytes, or posts the video only. *)
Definition audio_free (vb : bytes) (e : event) : Prop :=
  match e with
  | EvReadUpload k => k = ClipVideo
  | EvWriteBytes _ data => data = vb
  | EvPost _ rq _ => carries_video_only vb rq
  | _ => True
  end.

Section Summary.

Variable json_dumps : json -> string.
Variable cfg : config.
Variable w : world.
Variable req : verify_request.

(** What the module client gives back for request [rq] to module [m]. *)
Definition post_result (m : module_id) (rq : http_request) : exn + json :=
  match m with
  | Fusion => _post_json cfg rq (net w m rq)
  | _ => _post_multipart cfg rq (net w m rq)
  end.

(** The step [st], run from [s] with the flags [fl], calls module [m]
    once, with a request that satisfies [P], and does what [judge] says. *)
Definition calls_module {A} (m : module_id) (P : http_request -> Prop) (st : M A)
           (s : state) (fl : list json)
           (f : list (string * json) -> list json -> res A -> Prop) : Prop :=
  exists rq,
    P rq /\
    let res := post_result m rq in
    exists s',
      match judge m res fl with
      | Continue d fl' => exists r, st s = (r, s') /\ f d fl' r
      | Stop (Responded x) => st s = (Done x, s')
      | Stop (Failed e) => st s = (Raised e, s')
      end /\
      trace s' = (trace s ++ [EvPost m rq res])%list /\
      files s' = files s /\ draws s' = draws s.

Definition scored (m : module_id) (d : list (string * json)) (fl' : list json)
           (r : res (json * list json * list (string * json))) : Prop :=
  exists tm', r = Val (score_of m d, fl', tm').

Definition challenged (d : list (string * json)) (fl' : list json)
           (r : res (json * json * list json * list (string * json))) : Prop :=
  exists tm', r = Val (Py.get d "score_challenge", Py.get d "decision_challenge", fl', tm').

Definition fused (d : list (string * json)) (fl' : list json)
           (r : res (json * list json * list (string * json))) : Prop :=
  if forallb Py.hashable fl'
  then exists tm', r = Val (score_of Fusion d, firstn 20 (Py.fromkeys fl'), tm')
  else r = Raised TypeError.

(** The flags the handler starts the module calls with. *)
Definition initial_flags : list json :=
  if (is_silent req && match clip_audio req with Some _ => true | None => false end)%bool
  then [JStr "AUDIO_IGNORED_SILENT"] else [].

(** The rejections of a request, before any module is called. *)
Definition front_errors : list (Z * string * string) :=
  [ (400, "INVALID_POLICY", "policy_id not supported");
    (400, "MISSING_FIELD", "enrollment_id_face required");
    (400, "MISSING_FIELD", "enrollment_id_voice required for STRICT_STANDARD");
    (400, "MISSING_FIELD", "clip_audio required for STRICT_STANDARD");
    (413, "VIDEO_TOO_LARGE",
     "clip_video exceeds " ++ Py.str_of_int (MAX_VIDEO_MB cfg) ++ "MB");
    (413, "AUDIO_TOO_LARGE",
     "clip_audio exceeds " ++ Py.str_of_int (MAX_AUDIO_MB cfg) ++ "MB") ].

Definition rejected (x : response) : Prop :=
  exists st code msg,
    In (st, code, msg) front_errors /\ x = _err (JInt st) code msg JNull /\
    (code = "AUDIO_TOO_LARGE" -> is_standard req = true).

(** The codes and messages an error response can carry. *)
Definition error_table : list (string * string) :=
  (map (fun e => (snd (fst e), snd e)) front_errors ++
   map (fun m => (error_code m, error_message m))
       [Challenge; Face; Voice; Lipsync; Vsr; Fusion])%list.

(** The log [tr] holds the writing of a proof file whose results are the
    decision, the breakdown and the flags given. *)
Definition proof_written (tr : list event) (proof_file : string)
           (final_decision bd : json) (flags : list json) : Prop :=
  exists po,
    In (EvWriteText proof_file (json_dumps (JObj po))) tr /\
    Py.get po "results" =
      JObj [ ("final_decision", final_decision);
             ("breakdown", bd);
             ("flags_summary", JArr flags) ].

Definition breakdown_of (ds : list (module_id * list (string * json))) : json :=
  breakdown (score Voice ds) (score Face ds) (score Lipsync ds)
            (score Challenge ds) (score Vsr ds).

(** The run went through every module of the plan: the flags [fl]
    gathered are made unique and cut, the proof is written and the
    success response returned -- unless a flag is not hashable. *)
Definition completed (out : outcome) (tr : list event)
           (ds : list (module_id * list (string * json))) (fl : list json) : Prop :=
  if forallb Py.hashable fl then
    exists pid file tms,
      let flags := firstn 20 (Py.fromkeys fl) in
      out = Responded (JSONResponse (JInt 200)
                         (success_content (score Fusion ds) (breakdown_of ds)
                                          pid file flags tms)) /\
      proof_written tr file (score Fusion ds) (breakdown_of ds) flags
  else out = Failed TypeError.

(** The shape of every run: its module calls form a walk along the plan
    of the policy, and its outcome is the one of the call that stopped
    the walk, a rejection before the first call, or the completion. *)
Definition walked (out : outcome) (tr : list event) : Prop :=
  exists ds v,
    Walk initial_flags (calls tr) ds v /\
    (exists rest, plan (is_standard req) = (map fst (calls tr) ++ rest)%list) /\
    (is_standard req = false -> Forall (audio_free (content (clip_video req))) tr) /\
    match v with
    | inr o => out = o
    | inl fl =>
        (calls tr = [] /\ exists x, out = Responded x /\ rejected x) \/
        (map fst ds = plan (is_standard req) /\ completed out tr ds fl)
    end.

End Summary.

(* ================================================================== *)
(** * Reading a setting from the environment *)
(* ================================================================== *)

(** The white space [str.strip()] removes, among the characters below
    256: tab to carriage return, the four separators 28 to 31, the
    space, next line (133) and the no-break space (160). *)
Definition is_space (c : ascii) : bool :=
  let n := nat_of_ascii c in
  (((9 <=? n)%nat && (n <=? 13)%nat) || ((28 <=? n)%nat && (n <=? 32)%nat) ||
   (n =? 133)%nat || (n =? 160)%nat)%bool.

Fixpoint lstrip (s : string) : string :=
  match s with
  | EmptyString => EmptyString
  | String c t => if is_space c then lstrip t else s
  end.

Fixpoint rstrip (s : string) : string :=
  match s with
  | EmptyString => EmptyString
  | String c t =>
      let t' := rstrip t in
      if (String.eqb t' "" && is_space c)%bool then EmptyString else String c t'
  end.

(** [s.strip()] *)
Definition strip (s : string) : string := rstrip (lstrip s).

(** [_env] (lines 28-30); [environ] is [os.getenv]. *)
Definition _env (environ : string -> option string) (name default : string) : string :=
  match environ name with
  | Some v =>
      if (negb (String.eqb v "") && negb (String.eqb (strip v) ""))%bool
      then strip v else default
  | None => default
  end.

(** Every character of the string is white space. *)
Definition blank (s : string) : Prop :=
  forall c, In c (list_ascii_of_string s) -> is_space c = true.

(* ================================================================== *)
(** * The proxy of [/api/challenge/start] *)
(* ================================================================== *)

Section Proxy.

Variable cfg : config.
Variable w : world.

(** [challenge_start_proxy] (lines 196-203).  The client is called
    without headers; the dict returned at the end is sent as a 200 JSON
    response. *)
Definition challenge_start_proxy (payload : list (string * json)) : M response :=
  let url := _join (CHALLENGE_BASE_URL cfg) (CHALLENGE_START_PATH cfg) in
  res <- post_json cfg w Challenge
           {| url := url; body := JsonBody (JObj payload); headers := [] |} ;;
  r <- dict_of res ;;
  if Py.truthy (Py.get r "__http_error__") then
    j <- dict_of (Py.or (Py.get r "__json__") (JObj [])) ;;
    done (_err (Py.get_default r "__status__" (JInt 500)) "CHALLENGE_START_ERROR"
               "challenge start failed"
               (Py.or (Py.get j "flags_summary") (JArr [])))
  else ret (JSONResponse (JInt 200) res).

(** One request to the proxy, served from the initial state. *)
Definition challenge_start (payload : list (string * json)) : outcome * state :=
  match challenge_start_proxy payload init_state with
  | (r, s) => (finish r, s)
  end.

(** The request the proxy sends on. *)
Definition start_request (payload : list (string * json)) : http_request :=
  {| url := _join (CHALLENGE_BASE_URL cfg) (CHALLENGE_START_PATH cfg);
     body := JsonBody (JObj payload);
     headers := [] |}.

End Proxy.

(* ================================================================== *)
(** * What a run may touch, and what a success leaves behind *)
(* ================================================================== *)

Section Expected.

Variable json_dumps : json -> string.
Variable encode_utf8 : string -> bytes.
Context `{HL : Hashlib}.
Variable cfg : config.
Variable w : world.
Variable req : verify_request.

(** The identifiers of a run that starts from [init_state]: the session
    takes the first [uuid4], the proof the second. *)
Definition the_session_id : string :=
  "SES-" ++ Py.upper (Py.prefix_of 16 (uuid4_hex w 0)).

Definition the_session_dir : string :=
  SESSIONS_DIR cfg ++ "/" ++ the_session_id ++ "/raw".

Definition the_proof_id : string :=
  "PROOF-" ++ Py.upper (Py.prefix_of 16 (uuid4_hex w 1)).

Definition the_proof_file : string :=
  PROOFS_DIR cfg ++ "/" ++ the_proof_id ++ ".json".

(** The URL the handler calls module [m] at. *)
Definition endpoint (m : module_id) : string :=
  match m with
  | Challenge => _join (CHALLENGE_BASE_URL cfg) (CHALLENGE_VALIDATE_PATH cfg)
  | Face => _join (FACE_BASE_URL cfg) (FACE_VERIFY_PATH cfg)
  | Voice => _join (VOICE_BASE_URL cfg) (VOICE_VERIFY_PATH cfg)
  | Lipsync => _join (LIPSYNC_BASE_URL cfg) (LIPSYNC_VALIDATE_PATH cfg)
  | Vsr => _join (VSR_BASE_URL cfg) (VSR_VALIDATE_PATH cfg)
  | Fusion => _join (FUSION_BASE_URL cfg) (FUSION_EVALUATE_PATH cfg)
  end.

(** The path is the one of a clip stored in the session directory. *)
Definition clip_path (p : string) : Prop :=
  exists ext, p = the_session_dir ++ "/clip_video" ++ ext \/
              p = the_session_dir ++ "/clip_audio" ++ ext.

(** The operations a run may do. *)
Definition expected (e : event) : Prop :=
  match e with
  | EvReadUpload _ => True
  | EvMkdir d => d = the_session_dir
  | EvWriteBytes p _ => clip_path p
  | EvWriteText p _ =>
      p = the_session_dir ++ "/metadata.json" \/
      p = the_session_dir ++ "/sha256.json" \/
      p = the_proof_file
  | EvReadFile p => clip_path p \/ p = the_proof_file
  | EvPost m rq res =>
      url rq = endpoint m /\
      headers rq = [("X-Veritas-Session", the_session_id)] /\
      res = post_result cfg w m rq
  end.

(** The session of the run keeps its clips under the names [ext] and
    [aext] give them. *)
Definition the_session (ext : string) (aext : option string) : session :=
  {| session_id := the_session_id;
     ses_dir := the_session_dir;
     video_path := {| parent := the_session_dir; name := "clip_video" ++ ext |};
     audio_path :=
       match aext with
       | Some e => Some {| parent := the_session_dir; name := "clip_audio" ++ e |}
       | None => None
       end;
     headers_of := [("X-Veritas-Session", the_session_id)] |}.

(** The body of the Fusion request that carries the scores given. *)
Definition carries_scores (rq : http_request)
           (cs cd fs vs ls ss : json) : Prop :=
  exists p,
    body rq = JsonBody (JObj p) /\
    Py.get p "policy_id" = JStr (policy_id req) /\
    Py.get p "thresholds" =
      JObj [ ("accept_face", JFloat (accept_face req));
             ("reject_face", JFloat (reject_face req));
             ("accept_voice", JFloat (accept_voice req));
             ("reject_voice", JFloat (reject_voice req)) ] /\
    Py.get p "inputs" =
      JObj [ ("challenge", JObj [ ("score", cs); ("decision", cd) ]);
             ("face", JObj [ ("score", fs) ]);
             ("voice", JObj [ ("score", vs) ]);
             ("lipsync", JObj [ ("score", ls) ]);
             ("vsr", JObj [ ("score", ss) ]) ].

(** What a run that returned the success response [x] has left in its
    log [tr]: the Fusion call that was given the scores of the
    breakdown, the proof file and the digest file. *)
Definition recorded (x : response) (tr : list event) : Prop :=
  exists mode now fd cs cd fs vs ls ss flags tm t ext aext sha_audio rq,
    let bd := breakdown vs fs ls cs ss in
    let sha_video := _sha256_file (content (clip_video req)) in
    let po := proof_obj cfg req the_proof_id now mode (the_session ext aext) fd bd flags
                        sha_video sha_audio tm in
    x = JSONResponse (JInt 200)
          (success_content fd bd the_proof_id the_proof_file flags
                           (Py.set tm "total" (JInt t))) /\
    _policy_to_mode (policy_id req) = inr mode /\
    Py.get tm "total" = JInt 0 /\
    match aext with
    | Some _ => exists ca, clip_audio req = Some ca /\
                           is_standard req = true /\
                           sha_audio = JStr (_sha256_file (content ca))
    | None => sha_audio = JNull /\ is_standard req = false
    end /\
    In (EvPost Fusion rq (post_result cfg w Fusion rq)) tr /\
    carries_scores rq cs cd fs vs ls ss /\
    In (EvWriteText the_proof_file (json_dumps po)) tr /\
    In (EvWriteText (the_session_dir ++ "/sha256.json")
          (json_dumps
             (JObj [ ("clip_video_sha256", JStr sha_video);
                     ("clip_audio_sha256", sha_audio);
                     ("proof_sha256",
                      JStr (_sha256_file (encode_utf8 (json_dumps po)))) ])))
       tr.

End Expected.

(* ================================================================== *)
(** * A program logic for the handler *)
(* ================================================================== *)

(** [hoare P pre m post]: run from a state where [pre] holds, [m] adds
    to the log only operations that satisfy [P]; when it returns a value
    [post] holds; when it answers early, the response is one built by
    [_err]. *)
Definition hoare {A} (P : event -> Prop) (pre : state -> Prop) (m : M A)
           (post : A -> state -> Prop) : Prop :=
  forall s r s', pre s -> m s = (r, s') ->
    (exists evs, trace s' = (trace s ++ evs)%list /\ Forall P evs) /\
    match r with
    | Val a => post a s'
    | Done x => exists st code msg fl, x = _err st code msg fl
    | Raised _ => True
    end.

(** The session files are on disk with the bytes of the uploads, and one
    identifier has been drawn. *)
Definition kept (ses : session) (vb : bytes) (ab : option bytes) (s : state) : Prop :=
  draws s = 1%nat /\
  lookup_file (files s) (path_str (video_path ses)) = Some vb /\
  match audio_path ses with
  | Some ap => exists b, ab = Some b /\ lookup_file (files s) (path_str ap) = Some b
  | None => True
  end.

(* ================================================================== *)
(** * SHA-256, for the examples *)
(* ================================================================== *)

(** FIPS 180-4 on 32-bit words held in [Z]; it gives the hash objects of
    the examples their digests. *)
Module Sha256.

Definition mask : Z := 4294967295.
Definition add32 (a b : Z) : Z := Z.land (a + b) mask.

Definition rotr (n x : Z) : Z :=
  Z.land (Z.lor (Z.shiftr x n) (Z.shiftl x (32 - n))) mask.

Definition ch (x y z : Z) : Z :=
  Z.lxor (Z.land x y) (Z.land (Z.lxor x mask) z).

Definition maj (x y z : Z) : Z :=
  Z.lxor (Z.lxor (Z.land x y) (Z.land x z)) (Z.land y z).

Definition bsig0 (x : Z) : Z := Z.lxor (Z.lxor (rotr 2 x) (rotr 13 x)) (rotr 22 x).
Definition bsig1 (x : Z) : Z := Z.lxor (Z.lxor (rotr 6 x) (rotr 11 x)) (rotr 25 x).
Definition ssig0 (x : Z) : Z := Z.lxor (Z.lxor (rotr 7 x) (rotr 18 x)) (Z.shiftr x 3).
Definition ssig1 (x : Z) : Z := Z.lxor (Z.lxor (rotr 17 x) (rotr 19 x)) (Z.shiftr x 10).

Definition K : list Z :=
  [
    1116352408; 1899447441; 3049323471; 3921009573; 961987163; 1508970993;
    2453635748; 2870763221; 3624381080; 310598401; 607225278; 1426881987;
    1925078388; 2162078206; 2614888103; 3248222580; 3835390401; 4022224774;
    264347078; 604807628; 770255983; 1249150122; 1555081692; 1996064986;
    2554220882; 2821834349; 2952996808; 3210313671; 3336571891; 3584528711;
    113926993; 338241895; 666307205; 773529912; 1294757372; 1396182291;
    1695183700; 1986661051; 2177026350; 2456956037; 2730485921; 2820302411;
    3259730800; 3345764771; 3516065817; 3600352804; 4094571909; 275423344;
    430227734; 506948616; 659060556; 883997877; 958139571; 1322822218;
    1537002063; 1747873779; 1955562222; 2024104815; 2227730452; 2361852424;
    2428436474; 2756734187; 3204031479; 3329325298 ].

Definition H0 : list Z :=
  [ 1779033703; 3144134277; 1013904242; 2773480762; 1359893119; 2600822924; 528734635; 1541459225 ].

(** The message followed by the bit 1, zeros, and its length in bits on
    eight bytes, a multiple of 64 bytes in all. *)
Definition pad (msg : list Z) : list Z :=
  let n := Z.of_nat (List.length msg) in
  let zeros := Z.to_nat ((55 - n) mod 64) in
  let bits := 8 * n in
  (msg ++ 128 :: repeat 0 zeros ++
   map (fun i => Z.land (Z.shiftr bits (8 * (7 - Z.of_nat i))) 255) (seq 0 8))%list.

(** Big-endian words of a block of bytes. *)
Fixpoint words (l : list Z) : list Z :=
  match l with
  | a :: b :: c :: d :: t =>
      (Z.shiftl a 24 + Z.shiftl b 16 + Z.shiftl c 8 + d) :: words t
  | _ => []
  end.

(** The message schedule, latest word first: [n] more words after
    [sched]. *)
Fixpoint schedule (n : nat) (sched : list Z) : list Z :=
  match n with
  | O => sched
  | S n' =>
      let at_ i := nth i sched 0 in
      schedule n' (add32 (add32 (ssig1 (at_ 1%nat)) (at_ 6%nat))
                         (add32 (ssig0 (at_ 14%nat)) (at_ 15%nat)) :: sched)
  end.

Definition round (st : list Z) (kw : Z * Z) : list Z :=
  match st with
  | [a; b; c; d; e; f; g; h] =>
      let t1 := add32 (add32 (add32 h (bsig1 e)) (add32 (ch e f g) (fst kw))) (snd kw) in
      let t2 := add32 (bsig0 a) (maj a b c) in
      [add32 t1 t2; a; b; c; add32 d t1; e; f; g]
  | _ => st
  end.

Definition compress (st : list Z) (block : list Z) : list Z :=
  let w := rev (schedule 48 (rev (words block))) in
  let st' := fold_left round (combine K w) st in
  map (fun p => add32 (fst p) (snd p)) (combine st st').

(** The blocks of a padded message; [fuel] bounds their number. *)
Fixpoint absorb (fuel : nat) (st : list Z) (l : list Z) : list Z :=
  match fuel, l with
  | S fuel', _ :: _ => absorb fuel' (compress st (firstn 64 l)) (skipn 64 l)
  | _, _ => st
  end.

Definition digest (msg : bytes) : list Z :=
  let p := pad (map (fun b => Z.of_N (Byte.to_N b)) msg) in
  absorb (List.length p) H0 p.

Definition hex_digit (n : Z) : ascii :=
  nth (Z.to_nat n)
      [ "0"; "1"; "2"; "3"; "4"; "5"; "6"; "7";
        "8"; "9"; "a"; "b"; "c"; "d"; "e"; "f" ]%char "0"%char.

Definition hex_word (x : Z) : string :=
  fold_right (fun i s => String (hex_digit (Z.land (Z.shiftr x (4 * (7 - Z.of_nat i))) 15)) s)
             EmptyString (seq 0 8).

Definition hexdigest (msg : bytes) : string :=
  fold_right (fun x s => hex_word x ++ s) EmptyString (digest msg).

End Sha256.

(* ================================================================== *)
(** * A concrete platform, worlds and requests for the examples *)
(* ================================================================== *)

Module Demo.

(** Hash objects that remember what they were fed and digest it with
    SHA-256. *)
#[export] Instance sha256 : Hashlib := {|
  hasher := bytes;
  sha256_new := [];
  update := fun h a => (h ++ a)%list;
  hexdigest := Sha256.hexdigest;
  update_nil := @app_nil_r byte;
  update_app := fun h a b => eq_sym (app_assoc h a b)
|}.

Definition quote : string := String (ascii_of_nat 34) EmptyString.

(** A compact serializer standing in for [json.dumps]; a float is printed
    as the fraction that holds it. *)
Fixpoint dumps (j : json) : string :=
  match j with
  | JNull => "null"
  | JBool true => "true"
  | JBool false => "false"
  | JInt z => Py.str_of_int z
  | JFloat q => Py.str_of_int (Qnum q) ++ "/" ++ Py.str_of_int (Zpos (Qden q))
  | JStr s => quote ++ s ++ quote
  | JArr l =>
      "[" ++ (fix items (l : list json) : string :=
                match l with
                | [] => ""
                | [x] => dumps x
                | x :: t => dumps x ++ ", " ++ items t
                end) l ++ "]"
  | JObj d =>
      "{" ++ (fix members (d : list (string * json)) : string :=
                match d with
                | [] => ""
                | [(k, v)] => quote ++ k ++ quote ++ ": " ++ dumps v
                | (k, v) :: t => quote ++ k ++ quote ++ ": " ++ dumps v ++ ", " ++ members t
                end) d ++ "}"
  end.

Definition encode (s : string) : bytes := list_byte_of_string s.

(** The extension of a file name: from its last dot on, unless the dot
    starts or ends the name. *)
Fixpoint until_dot (rev_name : list ascii) (ext : list ascii) : option (list ascii * list ascii) :=
  match rev_name with
  | [] => None
  | c :: t => if Ascii.eqb c "."%char then Some (ext, t) else until_dot t (c :: ext)
  end.

Fixpoint after_slash (cs : list ascii) (name : list ascii) : list ascii :=
  match cs with
  | [] => name
  | c :: t => if Ascii.eqb c "/"%char then after_slash t [] else after_slash t (name ++ [c])%list
  end.

Definition suffix (file : string) : string :=
  match until_dot (rev (after_slash (list_ascii_of_string file) [])) [] with
  | Some (c :: ext, _ :: _) => string_of_list_ascii ("."%char :: c :: ext)
  | _ => ""
  end.

(** A clock reading shown as milliseconds. *)
Definition strftime (t : Z) : string := "T+" ++ Py.str_of_int t ++ "ms".

Abbreviation verify := (multimodal_verify dumps encode suffix strftime).

(** ** Worlds *)

Definition the_clock (n : nat) : Z := 7 * Z.of_nat n.
Definition the_uuid (n : nat) : string :=
  match n with
  | O => "0123456789abcdef0123456789abcdef"
  | _ => "fedcba9876543210fedcba9876543210"
  end.

Definition json_reply (status : Z) (d : list (string * json)) : nat -> attempt :=
  fun _ => Reply status "application/json" "" (Some (JObj d)).

(** Every module answers; Face reports its score as [0] under its first
    name, Fusion only sends [decision]; the flags repeat. *)
Definition w_ok : world := {|
  net := fun m _ =>
    match m with
    | Challenge => json_reply 200 [ ("score_challenge", JFloat 0.9);
                                    ("decision_challenge", JStr "ACCEPT");
                                    ("flags", JArr [JStr "A"; JStr "B"]) ]
    | Face => json_reply 200 [ ("score_face_match", JInt 0);
                               ("face_score", JFloat 0.92);
                               ("flags_face", JArr [JStr "A"; JStr "C"]) ]
    | Voice => json_reply 200 [ ("score_voice_match", JFloat 0.88) ]
    | Lipsync => json_reply 200 [ ("score_lipsync", JFloat 0.81) ]
    | Vsr => json_reply 200 [ ("score_vsr", JInt 0) ]
    | Fusion => json_reply 200 [ ("decision", JStr "ACCEPT") ]
    end;
  clock := the_clock;
  uuid4_hex := the_uuid
|}.

(** Challenge answers 503 with an empty JSON object. *)
Definition w_challenge_503 : world := {|
  net := fun m _ =>
    match m with
    | Challenge => json_reply 503 []
    | _ => json_reply 200 []
    end;
  clock := the_clock;
  uuid4_hex := the_uuid
|}.

(** Face answers 503 and reports a flag of its own. *)
Definition w_face_503 : world := {|
  net := fun m _ =>
    match m with
    | Challenge => json_reply 200 [ ("score_challenge", JFloat 0.9);
                                    ("flags", JArr [JStr "A"]) ]
    | Face => json_reply 503 [ ("flags_face", JArr [JStr "NO_FACE"]) ]
    | _ => json_reply 200 []
    end;
  clock := the_clock;
  uuid4_hex := the_uuid
|}.

(** No module can be reached. *)
Definition w_down : world := {|
  net := fun _ _ _ => Fail "ConnectError";
  clock := the_clock;
  uuid4_hex := the_uuid
|}.

(** ** Requests *)

Definition clip (name : string) (data : bytes) : upload :=
  {| filename := Some name; content_type := None; content := data |}.

Definition video : upload := clip "face.mp4" ["v"%byte; "i"%byte; "d"%byte].
Definition audio : upload := clip "voice.wav" ["a"%byte; "u"%byte].

Definition request (policy : string) (a : option upload) : verify_request := {|
  policy_id := policy;
  enrollment_id_face := "face-1";
  enrollment_id_voice := Some "voice-1";
  challenge_id := "ch-1";
  accept_face := 0.85;
  reject_face := 0.55;
  accept_voice := 0.85;
  reject_voice := 0.55;
  clip_video := video;
  clip_audio := a
|}.

Definition silent_with_audio : verify_request := request "STRICT_SILENT" (Some audio).
Definition standard_request : verify_request := request "STRICT_STANDARD" (Some audio).
Definition unknown_policy : verify_request := request "STRICT_LOUD" (Some audio).

(** A configuration whose size ceilings are zero megabytes. *)
Definition tiny_config : config := {|
  PROOFS_DIR := "./proofs";
  SESSIONS_DIR := "./sessions";
  CHALLENGE_BASE_URL := "http://127.0.0.1:5012";
  VOICE_BASE_URL := "http://127.0.0.1:5011";
  FACE_BASE_URL := "http://127.0.0.1:5011";
  LIPSYNC_BASE_URL := "http://127.0.0.1:5013";
  VSR_BASE_URL := "http://127.0.0.1:5014";
  FUSION_BASE_URL := "http://127.0.0.1:5015";
  CHALLENGE_START_PATH := "/api/challenge/start";
  CHALLENGE_VALIDATE_PATH := "/api/challenge/validate";
  VOICE_VERIFY_PATH := "/api/voice/verify";
  FACE_VERIFY_PATH := "/api/face/verify";
  LIPSYNC_VALIDATE_PATH := "/api/lipsync/validate";
  VSR_VALIDATE_PATH := "/api/vsr/validate";
  FUSION_EVALUATE_PATH := "/api/fusion/evaluate";
  HTTP_RETRIES := 1;
  MAX_VIDEO_MB := 0;
  MAX_AUDIO_MB := 0
|}.

(** ** Replies, responses and files of the examples *)

(** The Face reply as the module client hands it over in [w_face_503]. *)
Definition face_503 : list (string * json) :=
  [ ("__http_error__", JBool true);
    ("__status__", JInt 503);
    ("__json__", JObj [ ("flags_face", JArr [JStr "NO_FACE"]) ]) ].

(** The content of the success response of [w_ok] to
    [silent_with_audio]. *)
Definition silent_success : list (string * json) :=
  [ ("ok", JBool true);
    ("final_decision", JStr "ACCEPT");
    ("proof_id", JStr "PROOF-FEDCBA9876543210");
    ("proof_file", JStr "./proofs/PROOF-FEDCBA9876543210.json");
    ("breakdown",
     JObj [ ("voice_score", JNull); ("face_score", JFloat 0.92);
            ("lipsync_score", JNull); ("challenge_score", JFloat 0.9);
            ("vsr_score", JNull) ]);
    ("flags_summary",
     JArr [JStr "AUDIO_IGNORED_SILENT"; JStr "A"; JStr "B"; JStr "C"]);
    ("timings_ms",
     JObj [ ("total", JInt 77); ("challenge", JInt 7); ("voice", JInt 0);
            ("face", JInt 7); ("lipsync", JInt 0); ("vsr", JInt 7);
            ("fusion", JInt 7) ]) ].

(** The Face reply of [w_ok]: a score of 0 under the first name. *)
Definition face_zero : list (string * json) :=
  [ ("score_face_match", JInt 0);
    ("face_score", JFloat 0.92);
    ("flags_face", JArr [JStr "A"; JStr "C"]) ].

(** A state whose only file holds the three bytes of ["abc"]. *)
Definition abc : bytes := ["a"%byte; "b"%byte; "c"%byte].
Definition abc_state : state :=
  {| trace := []; files := [("abc.bin", abc)]; ticks := 0; draws := 0 |}.

(** ** More worlds, requests and streams *)

(** The world [w_ok] with another answer of module [m]. *)
Definition answering (m : module_id) (a : nat -> attempt) : world := {|
  net := fun m' rq =>
    match m, m' with
    | Challenge, Challenge | Face, Face | Voice, Voice
    | Lipsync, Lipsync | Vsr, Vsr | Fusion, Fusion => a
    | _, _ => net w_ok m' rq
    end;
  clock := the_clock;
  uuid4_hex := the_uuid
|}.

(** Face answers with a JSON array. *)
Definition w_face_array : world :=
  answering Face (fun _ => Reply 200 "application/json" "" (Some (JArr [JInt 1]))).

(** Face reports its flags as the number 5. *)
Definition face_flags_number : list (string * json) :=
  [ ("score_face_match", JFloat 0.9); ("flags_face", JInt 5) ].
Definition w_face_flags_number : world := answering Face (json_reply 200 face_flags_number).

(** Face reports a flag that is a list. *)
Definition face_flag_list : list (string * json) :=
  [ ("score_face_match", JFloat 0.9); ("flags_face", JArr [JArr [JStr "x"]]) ].
Definition w_face_flag_list : world := answering Face (json_reply 200 face_flag_list).

(** Face reports its flags as the string [NO]. *)
Definition face_flags_text : list (string * json) :=
  [ ("score_face_match", JFloat 0.9); ("flags_face", JStr "NO") ].
Definition w_face_flags_text : world := answering Face (json_reply 200 face_flags_text).

(** The challenge engine answers 503 with a page of text; answers 200
    with an object that holds the error marker of the client; answers
    200 with the JSON value [null]. *)
Definition w_challenge_text_503 : world :=
  answering Challenge (fun _ => Reply 503 "text/html" "<h1>Service Unavailable</h1>" None).
Definition w_challenge_null : world :=
  answering Challenge (fun _ => Reply 200 "application/json" "null" (Some JNull)).

(** A stream whose first attempt fails and whose second is answered;
    one that is answered 502 with a page of text; one whose body never
    parses. *)
Definition answer : list (string * json) := [ ("score", JInt 1) ].
Definition flaky : nat -> attempt :=
  fun i => match i with
           | O => Fail "ConnectError"
           | _ => Reply 200 "application/json" "" (Some (JObj answer))
           end.
Definition bad_gateway : nat -> attempt :=
  fun _ => Reply 502 "text/html" "<h1>Bad Gateway</h1>" None.
Definition a_request : http_request :=
  {| url := "http://127.0.0.1:5011/api/face/verify"; body := JsonBody JNull; headers := [] |}.

(** The payload of a challenge start. *)
Definition start_payload : list (string * json) := [ ("mode", JStr "SILENT") ].

(** Requests that lack a field. *)
Definition with_ids (r : verify_request) (face : string) (voice : option string)
  : verify_request := {|
  policy_id := policy_id r;
  enrollment_id_face := face;
  enrollment_id_voice := voice;
  challenge_id := challenge_id r;
  accept_face := accept_face r;
  reject_face := reject_face r;
  accept_voice := accept_voice r;
  reject_voice := reject_voice r;
  clip_video := clip_video r;
  clip_audio := clip_audio r
|}.
Definition no_face : verify_request := with_ids silent_with_audio "" None.
Definition no_voice : verify_request := with_ids standard_request "face-1" (Some "").
Definition no_audio : verify_request := request "STRICT_STANDARD" None.

(** A configuration that takes no audio at all. *)
Definition no_audio_config : config := {|
  PROOFS_DIR := "./proofs";
  SESSIONS_DIR := "./sessions";
  CHALLENGE_BASE_URL := "http://127.0.0.1:5012";
  VOICE_BASE_URL := "http://127.0.0.1:5011";
  FACE_BASE_URL := "http://127.0.0.1:5011";
  LIPSYNC_BASE_URL := "http://127.0.0.1:5013";
  VSR_BASE_URL := "http://127.0.0.1:5014";
  FUSION_BASE_URL := "http://127.0.0.1:5015";
  CHALLENGE_START_PATH := "/api/challenge/start";
  CHALLENGE_VALIDATE_PATH := "/api/challenge/validate";
  VOICE_VERIFY_PATH := "/api/voice/verify";
  FACE_VERIFY_PATH := "/api/face/verify";
  LIPSYNC_VALIDATE_PATH := "/api/lipsync/validate";
  VSR_VALIDATE_PATH := "/api/vsr/validate";
  FUSION_EVALUATE_PATH := "/api/fusion/evaluate";
  HTTP_RETRIES := 1;
  MAX_VIDEO_MB := 50;
  MAX_AUDIO_MB := 0
|}.

(** The content of a response, when there is one. *)
Definition content_of (o : outcome) : list (string * json) :=
  match o with
  | Responded (JSONResponse _ (JObj c)) => c
  | _ => []
  end.

(** The stream [flaky] with nothing after its second attempt. *)
Definition flaky_cut : nat -> attempt :=
  fun i => if (i <? 2)%nat then flaky i else Fail "never asked".

(** The Challenge reply of [w_ok]. *)
Definition challenge_ok : list (string * json) :=
  [ ("score_challenge", JFloat 0.9);
    ("decision_challenge", JStr "ACCEPT");
    ("flags", JArr [JStr "A"; JStr "B"]) ].

End Demo.

(* ================================================================== *)
(** * Verification *)
(* ================================================================== *)

(** ** The streaming digest *)

Lemma take_drop n l : (take n l ++ drop n l)%list = l.
Proof.
  revert n; induction l as [|x t IH]; intros n; simpl; [reflexivity|].
  destruct (n =? 0)%N; simpl; [reflexivity|]. now rewrite IH.
Qed.

Lemma take_nil_inv n l : (0 < n)%N -> take n l = [] -> l = [].
Proof.
  destruct l; simpl; [reflexivity|].
  intros Hn. destruct (N.eqb_spec n 0); [lia|discriminate].
Qed.

(** The loop feeds the hash object every byte of the file, in order. *)
Lemma hash_chunks_update `{HL : Hashlib} (h : hasher) (rest : bytes) :
  hash_chunks h rest = update h rest.
Proof.
  funelim (hash_chunks h rest).
  - rewrite (@take_nil_inv CHUNK rest);
      [symmetry; apply update_nil | reflexivity | assumption].
  - match goal with IH : hash_chunks _ _ = update _ _ |- _ => rewrite IH end.
    rewrite update_app.
    match goal with E : take _ _ = _ |- _ => rewrite <- E end.
    now rewrite take_drop.
Qed.

(** ** Python values *)

Lemma get_absent d k : Py.has_key d k = false -> Py.get d k = JNull.
Proof.
  induction d as [|[k' v] d IH]; simpl; [reflexivity|].
  destruct (String.eqb k' k); simpl; [discriminate|exact IH].
Qed.

Lemma or_falsy a b : Py.truthy a = false -> Py.or a b = b.
Proof. unfold Py.or. intros ->. reflexivity. Qed.

Lemma or_truthy a b : Py.truthy a = true -> Py.or a b = a.
Proof. unfold Py.or. intros ->. reflexivity. Qed.

(** ** The module client *)

(** The client raises only when every attempt it was allowed has
    raised, and what it raises is a [RuntimeError] naming the URL and the
    last exception. *)
Lemma post_loop_raises prefix url stream n i last e :
  post_loop prefix url stream n i last = inl e ->
  (forall k, (k < n)%nat -> exists t, classify (stream (i + k)%nat) = inl t) /\
  exists t, e = RuntimeError (prefix ++ url ++ " :: " ++ t).
Proof.
  revert i last. induction n as [|n IH]; intros i last; simpl.
  - intros [= <-]. split; [intros k Hk; lia|eauto].
  - destruct (classify (stream i)) as [t|j] eqn:E; [|discriminate].
    intros H. apply IH in H. destruct H as (H1 & H2). split; [|exact H2].
    intros [|k] Hk.
    + rewrite Nat.add_0_r. eauto.
    + replace (i + S k)%nat with (S i + k)%nat by lia. apply H1. lia.
Qed.

(** An HTTP error reply is handed over at once, without another attempt. *)
Lemma http_error_is_not_retried cfg rq stream status ct text rj :
  stream 0%nat = Reply status ct text rj ->
  status >= 400 ->
  Py.contains "application/json" ct = false ->
  _post_multipart cfg rq stream =
  inr (JObj [ ("__http_error__", JBool true);
              ("__status__", JInt status);
              ("__text__", JStr (Py.prefix_of 500 text)) ]).
Proof.
  intros H0 Hs Hct. unfold _post_multipart, attempts.
  destruct (Z.to_nat (Z.max 1 (HTTP_RETRIES cfg + 1))) as [|n] eqn:En; [lia|].
  simpl. rewrite H0. simpl.
  destruct (Z.geb_spec status 400) as [_|Hlt]; [|lia].
  now rewrite Hct.
Qed.

Lemma num_of_key_eqb a b x y :
  Py.num_of a = Some x -> Py.num_of b = Some y -> Py.key_eqb a b = Qeq_bool x y.
Proof.
  destruct a, b; simpl; try discriminate; intros [= <-] [= <-]; reflexivity.
Qed.

Lemma key_eqb_sym a b : Py.key_eqb a b = Py.key_eqb b a.
Proof.
  destruct (Py.num_of a) as [x|] eqn:Ea, (Py.num_of b) as [y|] eqn:Eb.
  - rewrite (num_of_key_eqb _ _ Ea Eb), (num_of_key_eqb _ _ Eb Ea).
    destruct (Qeq_bool x y) eqn:E.
    + symmetry. apply Qeq_bool_iff. symmetry. now apply Qeq_bool_iff.
    + destruct (Qeq_bool y x) eqn:E'; [|reflexivity].
      apply Qeq_bool_iff in E'. symmetry in E'. apply Qeq_bool_iff in E'. congruence.
  - destruct a, b; simpl in *; try discriminate; reflexivity.
  - destruct a, b; simpl in *; try discriminate; reflexivity.
  - destruct a, b; simpl in *; try discriminate; try reflexivity.
    apply String.eqb_sym.
Qed.

Lemma key_eqb_trans a b c :
  Py.key_eqb a b = true -> Py.key_eqb b c = true -> Py.key_eqb a c = true.
Proof.
  destruct (Py.num_of a) as [x|] eqn:Ea, (Py.num_of b) as [y|] eqn:Eb,
           (Py.num_of c) as [z|] eqn:Ec.
  - rewrite (num_of_key_eqb _ _ Ea Eb), (num_of_key_eqb _ _ Eb Ec),
      (num_of_key_eqb _ _ Ea Ec).
    rewrite !Qeq_bool_iff. intros H1 H2. now rewrite H1.
  - destruct a, b, c; simpl in *; try discriminate.
  - destruct a, b, c; simpl in *; try discriminate.
  - destruct a, b, c; simpl in *; try discriminate.
  - destruct a, b, c; simpl in *; try discriminate.
  - destruct a, b, c; simpl in *; try discriminate.
  - destruct a, b, c; simpl in *; try discriminate.
  - destruct a, b, c; simpl in *; try discriminate; auto.
    intros H1 H2. apply String.eqb_eq in H1, H2. subst. apply String.eqb_refl.
Qed.

Lemma key_eqb_refl a : Py.hashable a = true -> Py.key_eqb a a = true.
Proof.
  destruct a; simpl; try discriminate; intros _; auto.
  - destruct b; reflexivity.
  - apply Qeq_bool_iff. reflexivity.
  - apply Qeq_bool_iff. reflexivity.
  - apply String.eqb_refl.
Qed.

Lemma filter_seen_absorb x acc l :
  existsb (Py.key_eqb x) acc = true ->
  filter (fun y => negb (existsb (Py.key_eqb y) acc))
         (filter (fun y => negb (Py.key_eqb x y)) l) =
  filter (fun y => negb (existsb (Py.key_eqb y) acc)) l.
Proof.
  intros E. induction l as [|y l IH]; simpl; [reflexivity|].
  destruct (Py.key_eqb x y) eqn:Exy; simpl.
  - destruct (existsb (Py.key_eqb y) acc) eqn:Ey; simpl; [exact IH|].
    exfalso. apply existsb_exists in E. destruct E as (z & Hz & Hxz).
    assert (existsb (Py.key_eqb y) acc = true); [|congruence].
    apply existsb_exists. exists z. split; [assumption|].
    apply key_eqb_trans with x; [|assumption]. now rewrite key_eqb_sym.
  - destruct (existsb (Py.key_eqb y) acc); simpl; [exact IH|]. now rewrite IH.
Qed.

Lemma filter_seen_snoc x acc l :
  filter (fun y => negb (existsb (Py.key_eqb y) (acc ++ [x])%list)) l =
  filter (fun y => negb (existsb (Py.key_eqb y) acc))
         (filter (fun y => negb (Py.key_eqb x y)) l).
Proof.
  induction l as [|y l IH]; simpl; [reflexivity|].
  rewrite existsb_app. simpl. rewrite orb_false_r.
  rewrite (key_eqb_sym y x).
  destruct (Py.key_eqb x y) eqn:Exy; simpl.
  - rewrite orb_true_r. simpl. exact IH.
  - rewrite orb_false_r.
    destruct (existsb (Py.key_eqb y) acc); simpl; [exact IH|]. now rewrite IH.
Qed.

(** [dict.fromkeys] keeps every key where it is first seen. *)
Lemma fold_insert_first_seen l acc :
  fold_left Py.insert_key l acc =
  (acc ++ filter (fun y => negb (existsb (Py.key_eqb y) acc)) (first_seen l))%list.
Proof.
  revert acc. induction l as [|x t IH]; intros acc; simpl.
  - now rewrite app_nil_r.
  - rewrite IH. unfold Py.insert_key.
    destruct (existsb (Py.key_eqb x) acc) eqn:E; simpl.
    + now rewrite filter_seen_absorb.
    + rewrite <- app_assoc. simpl. now rewrite filter_seen_snoc.
Qed.

Lemma fromkeys_first_seen l : Py.fromkeys l = first_seen l.
Proof.
  unfold Py.fromkeys. rewrite fold_insert_first_seen. simpl.
  induction (first_seen l) as [|y t IH]; simpl; [reflexivity|]. now rewrite IH.
Qed.

Lemma distinct_keys_filter f l : distinct_keys l -> distinct_keys (filter f l).
Proof.
  unfold distinct_keys. induction 1 as [|a l Ha Hl IH]; simpl; [constructor|].
  destruct (f a); [|exact IH]. constructor; [|exact IH].
  apply Forall_forall. intros y Hy. apply filter_In in Hy.
  rewrite Forall_forall in Ha. apply Ha, Hy.
Qed.

Lemma first_seen_distinct l : distinct_keys (first_seen l).
Proof.
  induction l as [|x t IH]; simpl; [constructor|].
  constructor; [|now apply distinct_keys_filter].
  apply Forall_forall. intros y Hy. apply filter_In in Hy.
  destruct Hy as [_ Hy]. now apply negb_true_iff in Hy.
Qed.

Lemma in_firstn (x : json) n l : In x (firstn n l) -> In x l.
Proof.
  intros H. rewrite <- (firstn_skipn n l). apply in_or_app. now left.
Qed.

Lemma distinct_keys_firstn n l : distinct_keys l -> distinct_keys (firstn n l).
Proof.
  unfold distinct_keys. revert n. induction l as [|a l IH]; intros n H.
  - rewrite firstn_nil. constructor.
  - destruct n; simpl; [constructor|]. inversion H; subst.
    constructor; [|now apply IH].
    apply Forall_forall. intros y Hy. apply in_firstn in Hy.
    match goal with F : Forall _ l |- _ => rewrite Forall_forall in F; now apply F end.
Qed.

Lemma first_seen_incl l x : In x (first_seen l) -> In x l.
Proof.
  revert x. induction l as [|a t IH]; simpl; intros x; [tauto|].
  intros [->|H]; [now left|]. apply filter_In in H. right. apply IH, H.
Qed.

(** Every hashable flag stays represented. *)
Lemma first_seen_complete l x :
  In x l -> Py.hashable x = true ->
  exists y, In y (first_seen l) /\ Py.key_eqb y x = true.
Proof.
  induction l as [|a t IH]; simpl; [tauto|].
  intros [->|H] Hx.
  - exists x. split; [now left|now apply key_eqb_refl].
  - destruct (IH H Hx) as (y & Hy & Hyx).
    destruct (Py.key_eqb a y) eqn:E.
    + exists a. split; [now left|]. now apply key_eqb_trans with y.
    + exists y. split; [|assumption]. right. apply filter_In. split; [assumption|].
      now rewrite E.
Qed.

(** For strings, being distinct as keys is being distinct. *)
Lemma key_eqb_str s t : Py.key_eqb (JStr s) (JStr t) = String.eqb s t.
Proof. reflexivity. Qed.

(** ** The streaming digest *)

(** C8. For every content of a file, the digest computed by reading the
    file in chunks of 1 MiB is the digest of the whole content hashed at
    once; in the handler, hashing a file the run wrote gives the digest of
    the bytes stored there, and hashing it again gives the same digest.
    This holds for every hash object that obeys the contract of
    [hashlib]. *)
Theorem C8_streaming_digest_is_whole_digest `{HL : Hashlib}
        (s : state) (p : string) (data : bytes) :
  lookup_file (files s) p = Some data ->
  _sha256_file data = _sha256_bytes data /\
  fst (sha256_file p s) = Val (_sha256_bytes data) /\
  fst (sha256_file p (snd (sha256_file p s))) = fst (sha256_file p s).
Proof.
  intros H.
  assert (E : _sha256_file data = _sha256_bytes data).
  { unfold _sha256_file, _sha256_bytes. now rewrite hash_chunks_update. }
  unfold sha256_file. rewrite H. cbn. rewrite H. cbn.
  rewrite E. repeat split.
Qed.

(** ** Logs *)

Lemma calls_app t1 t2 : calls (t1 ++ t2)%list = (calls t1 ++ calls t2)%list.
Proof.
  induction t1 as [|e t IH]; simpl; [reflexivity|].
  destruct e; simpl; rewrite ?IH; reflexivity.
Qed.

(** ** Verdicts and walks *)

Lemma judge_raised m e fl : judge m (inl e) fl = Stop (Failed e).
Proof. reflexivity. Qed.

Lemma judge_http_error m d j fl :
  Py.truthy (Py.get d "__http_error__") = true ->
  Py.or (Py.get d "__json__") (JObj []) = JObj j ->
  judge m (inr (JObj d)) fl =
  Stop (Responded (_err (Py.get_default d "__status__" (JInt 500))
                        (error_code m) (error_message m) (error_flags m j))).
Proof. intros H1 H2. unfold judge. now rewrite H1, H2. Qed.

Lemma judge_http_error_stops m d fl :
  Py.truthy (Py.get d "__http_error__") = true ->
  judge m (inr (JObj d)) fl = Stop (Failed AttributeError) \/
  exists j, Py.or (Py.get d "__json__") (JObj []) = JObj j /\
            judge m (inr (JObj d)) fl =
            Stop (Responded (_err (Py.get_default d "__status__" (JInt 500))
                                  (error_code m) (error_message m) (error_flags m j))).
Proof.
  intros H. unfold judge. rewrite H.
  destruct (Py.or (Py.get d "__json__") (JObj [])); eauto.
Qed.

Lemma extend_app fl x fl' :
  extend fl x = Some fl' ->
  exists l, extend [] x = Some l /\ fl' = (fl ++ l)%list.
Proof.
  destruct x; simpl; try discriminate; intros [= <-]; eauto.
Qed.

Lemma judge_continue m res fl d fl' :
  judge m res fl = Continue d fl' ->
  res = inr (JObj d) /\
  Py.truthy (Py.get d "__http_error__") = false /\
  fl' = (fl ++ flags_of_reply m res)%list.
Proof.
  unfold judge. destruct res as [e|j]; [discriminate|].
  destruct j; try discriminate.
  destruct (Py.truthy _) eqn:E.
  { destruct (Py.or _ _); discriminate. }
  destruct (extend fl _) as [l|] eqn:X; [|discriminate].
  intros [= <- <-]. repeat split; auto.
  apply extend_app in X. destruct X as (l' & X & ->).
  unfold flags_of_reply. now rewrite X.
Qed.

Lemma judge_stop_shape m res fl x :
  judge m res fl = Stop (Responded x) ->
  exists st j, x = _err st (error_code m) (error_message m) (error_flags m j).
Proof.
  unfold judge. destruct res as [e|j]; [discriminate|].
  destruct j; try discriminate.
  destruct (Py.truthy _).
  - destruct (Py.or _ _); try discriminate. intros [= <-]. eauto.
  - destruct (extend _ _); discriminate.
Qed.

(** A walk that went through: every call was answered by a JSON object
    without error mark, and the flags are the initial ones followed by
    what each reply contributed. *)
Lemma Walk_through fl cs ds fl' :
  Walk fl cs ds (inl fl') ->
  cs = map (fun md => (fst md, inr (JObj (snd md)))) ds /\
  Forall (fun md => Py.truthy (Py.get (snd md) "__http_error__") = false) ds /\
  fl' = (fl ++ appended cs)%list.
Proof.
  remember (inl fl') as v eqn:Ev. intros W. revert fl' Ev.
  induction W as [fl|fl m res d fl1 cs ds v J W IH|fl m res o J]; intros fl' Ev.
  - inversion Ev; subst. simpl. now rewrite app_nil_r.
  - destruct (IH fl' Ev) as (-> & F & ->).
    apply judge_continue in J. destruct J as (-> & T & ->).
    simpl. repeat split; [constructor; assumption|].
    now rewrite <- app_assoc.
  - discriminate.
Qed.

(** A walk that was stopped: the call that stopped it is the last one. *)
Lemma Walk_stopped fl cs ds o :
  Walk fl cs ds (inr o) ->
  exists m res fl1,
    cs = (map (fun md => (fst md, inr (JObj (snd md)))) ds ++ [(m, res)])%list /\
    judge m res fl1 = Stop o.
Proof.
  remember (inr o) as v eqn:Ev. intros W. revert o Ev.
  induction W as [fl|fl m res d fl1 cs ds v J W IH|fl m res o' J]; intros o Ev.
  - discriminate.
  - destruct (IH o Ev) as (m' & res' & fl2 & -> & J').
    apply judge_continue in J. destruct J as (-> & _ & _).
    exists m', res', fl2. split; [reflexivity|assumption].
  - inversion Ev; subst. exists m, res, fl. split; [reflexivity|assumption].
Qed.

(** A call that stops the pipeline whatever the flags are ends the walk
    with its own outcome. *)
Lemma Walk_stopper fl cs ds v m res o :
  Walk fl cs ds v -> In (m, res) cs ->
  (forall fl1, judge m res fl1 = Stop o) ->
  v = inr o /\ exists pre, cs = (pre ++ [(m, res)])%list.
Proof.
  intros W Hin Hstop.
  induction W as [fl|fl m0 res0 d fl1 cs ds v J W IH|fl m0 res0 o0 J].
  - destruct Hin.
  - destruct Hin as [E|Hin].
    + inversion E; subst. rewrite Hstop in J. discriminate.
    + destruct (IH Hin) as (-> & pre & ->). split; [reflexivity|].
      exists ((m0, res0) :: pre). reflexivity.
  - destruct Hin as [E|[]]. inversion E; subst. rewrite Hstop in J.
    inversion J; subst. split; [reflexivity|]. exists []. reflexivity.
Qed.

Lemma reply_of_in m d ds :
  NoDup (map fst ds) -> In (m, d) ds -> reply_of m ds = Some d.
Proof.
  induction ds as [|[m' d'] ds IH]; simpl; [tauto|].
  intros N [E|Hin].
  - inversion E; subst. destruct m; reflexivity.
  - inversion N as [|? ? Hn N']; subst.
    assert (m <> m').
    { intros ->. apply Hn. change m' with (fst (m', d)). now apply in_map. }
    destruct m, m'; try congruence; now apply IH.
Qed.

Lemma plan_nodup b : NoDup (plan b).
Proof.
  destruct b; simpl; repeat constructor; simpl; intuition discriminate.
Qed.

(** ** More on the module client *)

Lemma attempts_positive cfg : (1 <= attempts cfg)%nat.
Proof. unfold attempts. lia. Qed.

Lemma post_loop_first_reply prefix url stream n i last k v :
  (k < n)%nat ->
  (forall j, (j < k)%nat -> exists t, classify (stream (i + j)%nat) = inl t) ->
  classify (stream (i + k)%nat) = inr v ->
  post_loop prefix url stream n i last = inr v.
Proof.
  revert i last k. induction n as [|n IH]; intros i last k Hk Hbefore Hv; [lia|].
  simpl. destruct k as [|k].
  - rewrite Nat.add_0_r in Hv. now rewrite Hv.
  - destruct (Hbefore 0%nat) as (t & Ht); [lia|].
    rewrite Nat.add_0_r in Ht. rewrite Ht.
    apply IH with k; [lia| |].
    + intros j Hj. replace (S i + j)%nat with (i + S j)%nat by lia. apply Hbefore. lia.
    + replace (S i + k)%nat with (i + S k)%nat by lia. exact Hv.
Qed.

Lemma post_loop_all_raise prefix url stream n i last :
  (forall j, (j < n)%nat -> exists t, classify (stream (i + j)%nat) = inl t) ->
  exists t,
    post_loop prefix url stream n i last = inl (RuntimeError (prefix ++ url ++ " :: " ++ t)) /\
    match n with
    | O => t = last
    | S m => classify (stream (i + m)%nat) = inl t
    end.
Proof.
  revert i last. induction n as [|n IH]; intros i last Hall.
  - exists last. split; reflexivity.
  - simpl. destruct (Hall 0%nat) as (t0 & Ht0); [lia|].
    rewrite Nat.add_0_r in Ht0. rewrite Ht0.
    destruct (IH (S i) t0) as (t & Hp & Hl).
    { intros j Hj. replace (S i + j)%nat with (i + S j)%nat by lia. apply Hall. lia. }
    exists t. split; [exact Hp|].
    destruct n as [|m].
    + subst t. now rewrite Nat.add_0_r.
    + replace (i + S m)%nat with (S i + m)%nat by lia. exact Hl.
Qed.

Lemma post_loop_ext prefix url stream stream' n i last :
  (forall j, (j < n)%nat -> stream (i + j)%nat = stream' (i + j)%nat) ->
  post_loop prefix url stream n i last = post_loop prefix url stream' n i last.
Proof.
  revert i last. induction n as [|n IH]; intros i last H; [reflexivity|].
  simpl. pose proof (H 0%nat ltac:(lia)) as H0. rewrite Nat.add_0_r in H0.
  rewrite <- H0. destruct (classify (stream i)); [|reflexivity].
  apply IH. intros j Hj. replace (S i + j)%nat with (i + S j)%nat by lia. apply H. lia.
Qed.

Lemma post_loop_prefixes p1 p2 url stream n i last :
  match post_loop p1 url stream n i last, post_loop p2 url stream n i last with
  | inr a, inr b => a = b
  | inl a, inl b =>
      exists t, a = RuntimeError (p1 ++ url ++ " :: " ++ t) /\
                b = RuntimeError (p2 ++ url ++ " :: " ++ t)
  | _, _ => False
  end.
Proof.
  revert i last. induction n as [|n IH]; intros i last; simpl.
  - eauto.
  - destruct (classify (stream i)); [apply IH|reflexivity].
Qed.

(** X1. The first attempt that does not raise ends the loop: its reply is
    what the client gives back, whatever later attempts would have
    brought. *)
Theorem client_first_reply_wins cfg rq stream k v :
  (k < attempts cfg)%nat ->
  (forall j, (j < k)%nat -> exists t, classify (stream j) = inl t) ->
  classify (stream k) = inr v ->
  _post_multipart cfg rq stream = inr v /\ _post_json cfg rq stream = inr v.
Proof.
  intros Hk Hb Hv. unfold _post_multipart, _post_json.
  split; apply post_loop_first_reply with k; auto.
Qed.

Lemma client_all_raise cfg rq stream :
  (forall i, (i < attempts cfg)%nat -> exists t, classify (stream i) = inl t) ->
  exists t,
    classify (stream (attempts cfg - 1)%nat) = inl t /\
    _post_multipart cfg rq stream =
      inl (RuntimeError ("HTTP_POST_MULTIPART_FAILED: " ++ url rq ++ " :: " ++ t)) /\
    _post_json cfg rq stream =
      inl (RuntimeError ("HTTP_POST_JSON_FAILED: " ++ url rq ++ " :: " ++ t)).
Proof.
  intros H. pose proof (attempts_positive cfg) as Hpos.
  unfold _post_multipart, _post_json.
  destruct (@post_loop_all_raise "HTTP_POST_MULTIPART_FAILED: " (url rq) stream
              (attempts cfg) 0%nat "None" H) as (t & Hp & Hl).
  destruct (@post_loop_all_raise "HTTP_POST_JSON_FAILED: " (url rq) stream
              (attempts cfg) 0%nat "None" H) as (t' & Hp' & Hl').
  destruct (attempts cfg) as [|m] eqn:E; [lia|]. simpl in Hl, Hl'.
  assert (t' = t) by congruence. subst t'.
  exists t. replace (S m - 1)%nat with m by lia. auto.
Qed.

(** X2. The client raises exactly when every attempt it is allowed has
    raised; what it raises then names the URL and the exception of the
    last attempt. *)
Theorem client_gives_up_iff_all_attempts_raise cfg rq stream :
  ((exists e, _post_multipart cfg rq stream = inl e) <->
   (forall i, (i < attempts cfg)%nat -> exists t, classify (stream i) = inl t)) /\
  ((exists e, _post_json cfg rq stream = inl e) <->
   (forall i, (i < attempts cfg)%nat -> exists t, classify (stream i) = inl t)) /\
  ((forall i, (i < attempts cfg)%nat -> exists t, classify (stream i) = inl t) ->
   exists t,
     classify (stream (attempts cfg - 1)%nat) = inl t /\
     _post_multipart cfg rq stream =
       inl (RuntimeError ("HTTP_POST_MULTIPART_FAILED: " ++ url rq ++ " :: " ++ t)) /\
     _post_json cfg rq stream =
       inl (RuntimeError ("HTTP_POST_JSON_FAILED: " ++ url rq ++ " :: " ++ t))).
Proof.
  split; [|split].
  - split.
    + intros (e & He) i Hi. unfold _post_multipart in He.
      apply post_loop_raises in He. destruct He as (H & _). exact (H i Hi).
    + intros H. destruct (@client_all_raise cfg rq stream H) as (t & _ & Hp & _). eauto.
  - split.
    + intros (e & He) i Hi. unfold _post_json in He.
      apply post_loop_raises in He. destruct He as (H & _). exact (H i Hi).
    + intros H. destruct (@client_all_raise cfg rq stream H) as (t & _ & _ & Hp). eauto.
  - apply client_all_raise.
Qed.

(** X3. The number of attempts is [HTTP_RETRIES + 1], and one when
    [HTTP_RETRIES] is zero or negative; the client looks at no attempt
    beyond them. *)
Theorem client_attempts_are_bounded cfg rq stream stream' :
  (forall i, (i < attempts cfg)%nat -> stream i = stream' i) ->
  _post_multipart cfg rq stream = _post_multipart cfg rq stream' /\
  _post_json cfg rq stream = _post_json cfg rq stream' /\
  (HTTP_RETRIES cfg <= 0 -> attempts cfg = 1%nat) /\
  (0 <= HTTP_RETRIES cfg -> Z.of_nat (attempts cfg) = HTTP_RETRIES cfg + 1).
Proof.
  intros H. unfold _post_multipart, _post_json.
  split; [apply post_loop_ext; exact H|].
  split; [apply post_loop_ext; exact H|].
  unfold attempts. split; intros; lia.
Qed.

(** X4. [_post_json] and [_post_multipart] run the same loop: on the same
    attempts they give back the same reply, or raise errors that differ
    in their prefix only. *)
Theorem client_json_and_multipart_agree cfg rq stream :
  match _post_json cfg rq stream, _post_multipart cfg rq stream with
  | inr a, inr b => a = b
  | inl a, inl b =>
      exists t,
        a = RuntimeError ("HTTP_POST_JSON_FAILED: " ++ url rq ++ " :: " ++ t) /\
        b = RuntimeError ("HTTP_POST_MULTIPART_FAILED: " ++ url rq ++ " :: " ++ t)
  | _, _ => False
  end.
Proof. unfold _post_json, _post_multipart. apply post_loop_prefixes. Qed.

Lemma substring_prefix_length n s : (String.length (String.substring 0 n s) <= n)%nat.
Proof.
  revert s. induction n as [|n IH]; intros s.
  - destruct s; simpl; lia.
  - destruct s as [|c s]; simpl; [lia|]. specialize (IH s). lia.
Qed.

Lemma substring_prefix_all n s :
  (String.length s <= n)%nat -> String.substring 0 n s = s.
Proof.
  revert s. induction n as [|n IH]; intros s H.
  - destruct s; simpl in *; [reflexivity|lia].
  - destruct s as [|c s]; simpl in *; [reflexivity|]. rewrite IH; [reflexivity|lia].
Qed.

Lemma substring_prefix_is_prefix n s : String.prefix (String.substring 0 n s) s = true.
Proof.
  revert s. induction n as [|n IH]; intros s.
  - destruct s; reflexivity.
  - destruct s as [|c s]; simpl; [reflexivity|].
    destruct (ascii_dec c c); [apply IH|congruence].
Qed.

(** X5. The text kept from the body of an HTTP error reply that is not JSON
    is a prefix of the body of at most 500 characters -- the whole body
    when it is that short -- and is handed over with the status, without
    another attempt. *)
Theorem client_error_text_is_bounded cfg rq stream status ct text rj :
  stream 0%nat = Reply status ct text rj ->
  status >= 400 ->
  Py.contains "application/json" ct = false ->
  exists t,
    _post_multipart cfg rq stream =
      inr (JObj [ ("__http_error__", JBool true);
                  ("__status__", JInt status);
                  ("__text__", JStr t) ]) /\
    (String.length t <= 500)%nat /\
    String.prefix t text = true /\
    ((String.length text <= 500)%nat -> t = text).
Proof.
  intros H0 Hs Hct. exists (Py.prefix_of 500 text).
  split; [now apply http_error_is_not_retried with ct rj|].
  unfold Py.prefix_of.
  split; [apply substring_prefix_length|].
  split; [apply substring_prefix_is_prefix|apply substring_prefix_all].
Qed.


(** ** Joining a base URL and a path *)

Lemma rstrip_slash_only_slashes t :
  (forall c, In c (list_ascii_of_string t) -> c = "/"%char) -> Py.rstrip_slash t = "".
Proof.
  induction t as [|c t IH]; intros H; [reflexivity|].
  simpl. rewrite IH by (intros c' Hc'; apply H; right; exact Hc').
  rewrite (H c) by (left; reflexivity). reflexivity.
Qed.

Lemma rstrip_slash_app base t :
  (forall c, In c (list_ascii_of_string t) -> c = "/"%char) ->
  Py.rstrip_slash (base ++ t) = Py.rstrip_slash base.
Proof.
  intros H. induction base as [|c b IH]; simpl.
  - now apply rstrip_slash_only_slashes.
  - now rewrite IH.
Qed.

Lemma rstrip_slash_no_trailing base b : Py.rstrip_slash base <> b ++ "/".
Proof.
  revert b. induction base as [|c s IH]; intros b; simpl.
  - destruct b; discriminate.
  - destruct (String.eqb (Py.rstrip_slash s) "" && Ascii.eqb c "/"%char)%bool eqn:E.
    + destruct b; discriminate.
    + destruct b as [|c' b']; simpl.
      * intros [= -> Hs]. rewrite Hs in E. discriminate E.
      * intros [= _ Hs]. exact (IH _ Hs).
Qed.

(** X7. However many slashes end the base, and whether or not the path
    starts with one, the joined URL is the same: the base without its
    trailing slashes, one slash, the path.  (Only one leading slash of
    the path is absorbed; the others stay.) *)
Theorem join_normalises_the_junction base path :
  (forall t, (forall c, In c (list_ascii_of_string t) -> c = "/"%char) ->
     _join (base ++ t) path = _join base path) /\
  (Py.startswith path "/" = false -> _join base ("/" ++ path) = _join base path) /\
  exists p,
    _join base path = Py.rstrip_slash base ++ "/" ++ p /\
    (forall b', Py.rstrip_slash base <> b' ++ "/") /\
    ((Py.startswith path "/" = false /\ path = p) \/ path = "/" ++ p).
Proof.
  split; [|split].
  - intros t Ht. unfold _join. now rewrite rstrip_slash_app.
  - intros Hp. unfold _join. rewrite Hp.
    replace (Py.startswith ("/" ++ path) "/") with true; [reflexivity|].
    unfold Py.startswith.
    change (String.prefix "/" ("/" ++ path))
      with (if ascii_dec "/" "/" then String.prefix "" path else false).
    destruct (ascii_dec "/" "/"); [now destruct path|congruence].
  - unfold _join. destruct (Py.startswith path "/") eqn:E.
    + destruct path as [|c p]; [discriminate E|].
      unfold Py.startswith in E.
      change (String.prefix "/" (String c p))
        with (if ascii_dec "/" c then String.prefix "" p else false) in E.
      destruct (ascii_dec "/" c) as [<-|]; [|discriminate E].
      exists p. split; [reflexivity|]. split; [apply rstrip_slash_no_trailing|].
      right. reflexivity.
    + exists path. split; [reflexivity|]. split; [apply rstrip_slash_no_trailing|].
      left. split; reflexivity.
Qed.

(** ** The proxy of the challenge start *)


Section ProxyFacts.

Variable cfg : config.
Variable w : world.
Variable payload : list (string * json).

Local Abbreviation rq := (start_request cfg payload).
Local Abbreviation served := (challenge_start cfg w payload).

Lemma proxy_log :
  trace (snd served) = [EvPost Challenge rq (_post_json cfg rq (net w Challenge rq))] /\
  files (snd served) = [] /\ draws (snd served) = 0%nat.
Proof.
  unfold challenge_start, challenge_start_proxy, bind, post_json, lift, dict_of.
  fold rq. cbn.
  destruct (_post_json cfg rq (net w Challenge rq)) as [e|[]]; cbn; auto.
  destruct (Py.truthy _); cbn; auto.
  destruct (Py.or _ _); cbn; auto.
Qed.

Lemma proxy_outcome res :
  _post_json cfg rq (net w Challenge rq) = res ->
  fst served =
    match res with
    | inl e => Failed e
    | inr (JObj d) =>
        if Py.truthy (Py.get d "__http_error__") then
          match Py.or (Py.get d "__json__") (JObj []) with
          | JObj j => Responded (_err (Py.get_default d "__status__" (JInt 500))
                                      "CHALLENGE_START_ERROR" "challenge start failed"
                                      (Py.or (Py.get j "flags_summary") (JArr [])))
          | _ => Failed AttributeError
          end
        else Responded (JSONResponse (JInt 200) (JObj d))
    | inr _ => Failed AttributeError
    end.
Proof.
  intros <-.
  unfold challenge_start, challenge_start_proxy, bind, post_json, lift, dict_of.
  fold rq. cbn.
  destruct (_post_json cfg rq (net w Challenge rq)) as [e|[]]; cbn; auto.
  destruct (Py.truthy _); cbn; auto.
  destruct (Py.or _ _); cbn; auto.
Qed.

Lemma first_attempt_decides v :
  classify (net w Challenge rq 0%nat) = inr v ->
  _post_json cfg rq (net w Challenge rq) = inr v.
Proof.
  intros H. unfold _post_json.
  apply post_loop_first_reply with 0%nat; [apply attempts_positive| |exact H].
  intros j Hj. lia.
Qed.

Lemma first_reply_decides a v :
  net w Challenge rq 0%nat = a -> classify a = inr v ->
  fst served =
    match v with
    | JObj d =>
        if Py.truthy (Py.get d "__http_error__") then
          match Py.or (Py.get d "__json__") (JObj []) with
          | JObj j => Responded (_err (Py.get_default d "__status__" (JInt 500))
                                      "CHALLENGE_START_ERROR" "challenge start failed"
                                      (Py.or (Py.get j "flags_summary") (JArr [])))
          | _ => Failed AttributeError
          end
        else Responded (JSONResponse (JInt 200) (JObj d))
    | _ => Failed AttributeError
    end /\
  trace (snd served) = [EvPost Challenge rq (inr v)].
Proof.
  intros Ha Hv. subst a. apply first_attempt_decides in Hv.
  split.
  - rewrite (@proxy_outcome _ Hv). reflexivity.
  - destruct proxy_log as (Ht & _). rewrite Ht, Hv. reflexivity.
Qed.

(** X8. When the challenge engine answers with an HTTP error, the proxy
    answers with the same status and the code CHALLENGE_START_ERROR.
    The text of a body that is not JSON is dropped; of a JSON object
    only its [flags_summary] is passed on.  The proxy has made one call,
    to the start path of the engine, with the payload as it came and no
    header, and has touched no file. *)
Theorem proxy_relays_engine_errors status ct text rj :
  net w Challenge rq 0%nat = Reply status ct text rj ->
  status >= 400 ->
  (Py.contains "application/json" ct = true -> exists j, rj = Some (JObj j)) ->
  let flags :=
    match Py.contains "application/json" ct, rj with
    | true, Some (JObj j) => Py.or (Py.get j "flags_summary") (JArr [])
    | _, _ => JArr []
    end in
  fst served = Responded (_err (JInt status) "CHALLENGE_START_ERROR"
                               "challenge start failed" flags) /\
  (exists res, trace (snd served) = [EvPost Challenge rq res]) /\
  url rq = _join (CHALLENGE_BASE_URL cfg) (CHALLENGE_START_PATH cfg) /\
  body rq = JsonBody (JObj payload) /\
  headers rq = [] /\
  files (snd served) = [].
Proof.
  intros H0 Hs Hobj flags.
  assert (Hge : (status >=? 400) = true) by (apply Z.geb_le; lia).
  destruct proxy_log as (_ & Hf & _).
  destruct (Py.contains "application/json" ct) eqn:Hct.
  - destruct (Hobj eq_refl) as (j & ->).
    destruct (@first_reply_decides _ (JObj [ ("__http_error__", JBool true);
                                             ("__status__", JInt status);
                                             ("__json__", JObj j) ]) H0) as (Ho & Ht).
    { simpl. now rewrite Hge, Hct. }
    rewrite Ho. cbn. subst flags.
    destruct j as [|kv j]; cbn; repeat split; eauto.
  - destruct (@first_reply_decides _ (JObj [ ("__http_error__", JBool true);
                                             ("__status__", JInt status);
                                             ("__text__", JStr (Py.prefix_of 500 text)) ]) H0)
      as (Ho & Ht).
    { simpl. now rewrite Hge, Hct. }
    rewrite Ho. cbn. repeat split; eauto.
Qed.

(** X9. A reply of the engine below 400 is passed through with status 200:
    a JSON object as it is (unless it holds a truthy [__http_error__]
    key), any other body wrapped as [{raw: text}]. *)
Theorem proxy_passes_reply_through status ct text rj :
  net w Challenge rq 0%nat = Reply status ct text rj ->
  status < 400 ->
  (Py.contains "application/json" ct = false ->
   fst served = Responded (JSONResponse (JInt 200) (JObj [("raw", JStr text)]))) /\
  (Py.contains "application/json" ct = true ->
   forall d, rj = Some (JObj d) -> Py.truthy (Py.get d "__http_error__") = false ->
     fst served = Responded (JSONResponse (JInt 200) (JObj d))).
Proof.
  intros H0 Hs.
  assert (Hlt : (status >=? 400) = false) by (rewrite Z.geb_leb; apply Z.leb_gt; lia).
  split.
  - intros Hct.
    destruct (@first_reply_decides _ (JObj [("raw", JStr text)]) H0) as (Ho & _).
    { simpl. now rewrite Hlt, Hct. }
    rewrite Ho. reflexivity.
  - intros Hct d -> Hd.
    destruct (@first_reply_decides _ (JObj d) H0) as (Ho & _).
    { simpl. now rewrite Hlt, Hct. }
    rewrite Ho, Hd. reflexivity.
Qed.


(** X11. A JSON reply that is not an object makes the proxy raise instead of
    answering: below 400 whatever the value is, and from 400 on when the
    value is truthy (a falsy one counts as an empty object). *)
Theorem proxy_needs_a_json_object status ct text j :
  net w Challenge rq 0%nat = Reply status ct text (Some j) ->
  Py.contains "application/json" ct = true ->
  (forall d, j <> JObj d) ->
  (status < 400 -> fst served = Failed AttributeError) /\
  (status >= 400 -> Py.truthy j = true -> fst served = Failed AttributeError) /\
  (status >= 400 -> Py.truthy j = false ->
   fst served = Responded (_err (JInt status) "CHALLENGE_START_ERROR"
                                "challenge start failed" (JArr []))).
Proof.
  intros H0 Hct Hno.
  split; [|split].
  - intros Hs.
    assert (Hlt : (status >=? 400) = false) by (rewrite Z.geb_leb; apply Z.leb_gt; lia).
    destruct (@first_reply_decides _ j H0) as (Ho & _).
    { simpl. now rewrite Hlt, Hct. }
    rewrite Ho. destruct j; try reflexivity. exfalso. eapply Hno. reflexivity.
  - intros Hs Hj.
    assert (Hge : (status >=? 400) = true) by (apply Z.geb_le; lia).
    destruct (@first_reply_decides _ (JObj [ ("__http_error__", JBool true);
                                             ("__status__", JInt status);
                                             ("__json__", j) ]) H0) as (Ho & _).
    { simpl. now rewrite Hge, Hct. }
    rewrite Ho. cbn. unfold Py.or. rewrite Hj.
    destruct j; try reflexivity. exfalso. eapply Hno. reflexivity.
  - intros Hs Hj.
    assert (Hge : (status >=? 400) = true) by (apply Z.geb_le; lia).
    destruct (@first_reply_decides _ (JObj [ ("__http_error__", JBool true);
                                             ("__status__", JInt status);
                                             ("__json__", j) ]) H0) as (Ho & _).
    { simpl. now rewrite Hge, Hct. }
    rewrite Ho. cbn. unfold Py.or. rewrite Hj. reflexivity.
Qed.

(** X12. When no attempt reaches the engine, the proxy raises the error of
    the client: the failure is not turned into a CHALLENGE_START_ERROR
    response. *)
Theorem proxy_transport_failure_raises :
  (forall i, (i < attempts cfg)%nat -> exists e, net w Challenge rq i = Fail e) ->
  exists e,
    net w Challenge rq (attempts cfg - 1)%nat = Fail e /\
    fst served = Failed (RuntimeError ("HTTP_POST_JSON_FAILED: " ++
                           _join (CHALLENGE_BASE_URL cfg) (CHALLENGE_START_PATH cfg) ++
                           " :: " ++ e)) /\
    forall x, fst served <> Responded x.
Proof.
  intros Hall.
  destruct (@client_all_raise cfg rq (net w Challenge rq)) as (t & Ht & _ & Hj).
  { intros i Hi. destruct (Hall i Hi) as (e & ->). exists e. reflexivity. }
  destruct (Hall (attempts cfg - 1)%nat) as (e & He).
  { pose proof (attempts_positive cfg). lia. }
  rewrite He in Ht. simpl in Ht. injection Ht as <-.
  exists e. split; [exact He|].
  rewrite (@proxy_outcome _ Hj). split; [reflexivity|discriminate].
Qed.

End ProxyFacts.

(** ** Reading a setting from the environment *)

Lemma lstrip_split s :
  exists l, s = l ++ lstrip s /\ blank l /\
            match lstrip s with
            | EmptyString => True
            | String c _ => is_space c = false
            end.
Proof.
  induction s as [|c s (l & E & B & H)]; simpl.
  - exists "". repeat split. intros c [].
  - destruct (is_space c) eqn:Hc.
    + exists (String c l). split; [simpl; now rewrite <- E|]. split; [|exact H].
      intros x [<-|Hx]; [exact Hc|now apply B].
    + exists "". split; [reflexivity|]. split; [intros x []|exact Hc].
Qed.

Lemma rstrip_split s :
  exists t, s = rstrip s ++ t /\ blank t /\
            forall b c, rstrip s = b ++ String c "" -> is_space c = false.
Proof.
  induction s as [|c s (t & E & B & H)]; simpl.
  - exists "". repeat split; [intros c []|].
    intros [|? ?] c; discriminate.
  - destruct (String.eqb (rstrip s) "") eqn:Hr; simpl.
    + apply String.eqb_eq in Hr. rewrite Hr in E. simpl in E. subst t.
      destruct (is_space c) eqn:Hc.
      * exists (String c s). split; [reflexivity|]. split.
        -- intros x [<-|Hx]; [exact Hc|now apply B].
        -- intros [|? ?] x; discriminate.
      * exists s. rewrite Hr. split; [reflexivity|]. split; [exact B|].
        intros [|? [|? ?]] x; simpl; try discriminate. now intros [= <-].
    + exists t. split; [simpl; now rewrite <- E|]. split; [exact B|].
      intros [|y b] x; simpl.
      * intros [= _ Hs]. rewrite Hs in Hr. discriminate Hr.
      * intros [= _ Hs]. exact (H _ _ Hs).
Qed.

Lemma rstrip_keeps_head c s : is_space c = false -> rstrip (String c s) = String c (rstrip s).
Proof. intros H. simpl. rewrite H, Bool.andb_false_r. reflexivity. Qed.

Lemma blank_app a b : blank a -> blank b -> blank (a ++ b).
Proof.
  intros Ha Hb. induction a as [|x a IH]; simpl; [exact Hb|].
  intros c [<-|Hc]; [apply Ha; now left|].
  apply IH; [|exact Hc]. intros y Hy. apply Ha. now right.
Qed.

Lemma strip_blank s : blank s -> strip s = "".
Proof.
  unfold strip. induction s as [|c s IH]; intros B; [reflexivity|].
  simpl. rewrite (B c) by (now left). apply IH. intros x Hx. apply B. now right.
Qed.

Lemma strip_split s :
  exists l t, s = l ++ strip s ++ t /\ blank l /\ blank t /\
    (forall b c, strip s = b ++ String c "" -> is_space c = false) /\
    match strip s with
    | EmptyString => blank s
    | String c _ => is_space c = false
    end.
Proof.
  unfold strip.
  destruct (lstrip_split s) as (l & El & Bl & Hl).
  destruct (rstrip_split (lstrip s)) as (t & Et & Bt & Ht).
  exists l, t. split; [now rewrite <- Et|]. split; [exact Bl|]. split; [exact Bt|].
  split; [exact Ht|].
  destruct (lstrip s) as [|c u] eqn:E.
  - simpl. rewrite El. apply blank_app; [exact Bl|]. intros c [].
  - rewrite (@rstrip_keeps_head c u Hl). exact Hl.
Qed.

(** X30. [_env] gives the default when the variable is not set, is
    empty or holds white space only.  Otherwise it gives the value
    without the white space at its two ends: the result is not empty,
    starts and ends with a character that is not white space, and the
    value is the result with white space before and after it. *)
Theorem env_falls_back_on_blank environ name default :
  (environ name = None -> _env environ name default = default) /\
  (forall v, environ name = Some v -> blank v -> _env environ name default = default) /\
  (forall v, environ name = Some v -> ~ blank v ->
     exists l t c r,
       _env environ name default = String c r /\
       v = l ++ String c r ++ t /\
       blank l /\ blank t /\
       is_space c = false /\
       (forall b x, String c r = b ++ String x "" -> is_space x = false)).
Proof.
  unfold _env. split; [|split].
  - intros ->. reflexivity.
  - intros v -> B. rewrite (@strip_blank v B). simpl.
    now rewrite Bool.andb_false_r.
  - intros v -> NB.
    destruct (strip_split v) as (l & t & E & Bl & Bt & Hend & Hhead).
    destruct (strip v) as [|c r] eqn:Es; [contradiction|].
    assert (Hv : String.eqb v "" = false).
    { apply String.eqb_neq. intros ->. apply NB. intros x []. }
    rewrite Hv. simpl.
    exists l, t, c, r. repeat split; auto.
Qed.

(** ** The audio clip does not matter under STRICT_SILENT *)

Section Independence.

Variable json_dumps : json -> string.
Variable encode_utf8 : string -> bytes.
Variable path_suffix : string -> string.
Variable strftime_utc : Z -> string.
Context `{HL : Hashlib}.
Variable cfg : config.
Variable w : world.

(** Under STRICT_SILENT no step of the handler looks into the audio
    upload. *)
Lemma silent_handler_ignores_audio (req : verify_request) (a a' : upload) (s : state) :
  policy_id req = "STRICT_SILENT" ->
  handler json_dumps encode_utf8 path_suffix strftime_utc cfg w (with_audio req (Some a)) s =
  handler json_dumps encode_utf8 path_suffix strftime_utc cfg w (with_audio req (Some a')) s.
Proof.
  intros Hp.
  unfold handler, step_validate, step_read, step_persist,
    step_challenge, step_face, step_voice_lipsync, step_vsr,
    step_fusion, step_proof, video_part, proof_obj,
    is_standard, is_silent, with_audio.
  cbn [policy_id enrollment_id_face enrollment_id_voice challenge_id accept_face
       reject_face accept_voice reject_voice clip_video clip_audio].
  rewrite Hp. cbn [String.eqb Ascii.eqb Bool.eqb andb].
  reflexivity.
Qed.

End Independence.

Section Verification.

Variable json_dumps : json -> string.
Variable encode_utf8 : string -> bytes.
Variable path_suffix : string -> string.
Variable strftime_utc : Z -> string.
Context `{HL : Hashlib}.
Variable cfg : config.
Variable w : world.
Variable req : verify_request.

Local Abbreviation step_validate := (step_validate w req).
Local Abbreviation step_read := (step_read cfg req).
Local Abbreviation step_persist := (step_persist json_dumps encode_utf8 path_suffix strftime_utc cfg w req).
Local Abbreviation step_challenge := (step_challenge cfg w req).
Local Abbreviation step_face := (step_face cfg w req).
Local Abbreviation step_voice := (step_voice cfg w req).
Local Abbreviation step_lipsync := (step_lipsync cfg w req).
Local Abbreviation step_voice_lipsync := (step_voice_lipsync cfg w req).
Local Abbreviation step_vsr := (step_vsr cfg w req).
Local Abbreviation step_fusion := (step_fusion cfg w req).
Local Abbreviation step_proof := (step_proof json_dumps encode_utf8 strftime_utc cfg w req).
Local Abbreviation handler := (handler json_dumps encode_utf8 path_suffix strftime_utc cfg w req).
Local Abbreviation run := (multimodal_verify json_dumps encode_utf8 path_suffix strftime_utc cfg w req).
Local Abbreviation post_result := (post_result cfg w).
Local Abbreviation calls_module := (calls_module cfg w).
Local Abbreviation initial_flags := (initial_flags req).
Local Abbreviation front_errors := (front_errors cfg).
Local Abbreviation rejected := (rejected cfg req).
Local Abbreviation error_table := (error_table cfg).
Local Abbreviation proof_written := (proof_written json_dumps).
Local Abbreviation completed := (completed json_dumps).
Local Abbreviation walked := (walked json_dumps cfg req).
Local Abbreviation standard := (is_standard req).
Local Abbreviation silent := (is_silent req).

Ltac grab_rq :=
  match goal with
  | |- context [_post_multipart cfg ?rq (net w ?m ?rq)] => exists rq
  | |- context [_post_json cfg ?rq (net w ?m ?rq)] => exists rq
  end.

Ltac judge_cases :=
  repeat match goal with
  | |- context [match ?x with _ => _ end] =>
      match x with
      | extend _ _ => destruct x eqn:?
      | forallb _ _ => destruct x eqn:?
      | Py.truthy _ => destruct x eqn:?
      | Py.or _ _ => destruct x eqn:?
      | _post_multipart _ _ _ => destruct x as [?e|[]] eqn:?
      | _post_json _ _ _ => destruct x as [?e|[]] eqn:?
      end; cbn
  | |- exists s' : state, _ => eexists
  | |- _ /\ _ => split
  | |- exists r, _ = _ /\ _ => eexists
  | |- exists tm, _ = _ => eexists
  | |- _ = _ => reflexivity
  end.

Ltac unfold_step :=
  unfold calls_module, post_result, judge, bind, time_time, post_multipart, post_json,
    lift, dict_of, iadd, ret, done, raise; cbn.

Ltac video_parts :=
  unfold carries_video_only, video_part; cbn;
  intros k n b ct Hin;
  repeat (destruct Hin as [Hin|Hin]; [inversion Hin; subst; split; reflexivity|]);
  destruct Hin.

Lemma step_face_judge ses vb fl tm s :
  calls_module Face (carries_video_only vb) (step_face ses vb fl tm) s fl (scored Face).
Proof.
  unfold step_face, scored; unfold_step. grab_rq.
  split; [video_parts|]. cbn. judge_cases.
Qed.

Lemma step_vsr_judge ses vb fl tm s :
  standard = false -> silent = true ->
  calls_module Vsr (carries_video_only vb) (step_vsr ses vb fl tm) s fl (scored Vsr).
Proof.
  intros Hs Hsil. unfold step_vsr, scored. rewrite Hsil. unfold_step. grab_rq.
  split; [video_parts|]. cbn. judge_cases.
Qed.

Lemma step_challenge_judge_silent mode ses vb ab fl tm s :
  standard = false ->
  calls_module Challenge (carries_video_only vb) (step_challenge mode ses vb ab fl tm) s fl
    challenged.
Proof.
  intros Hs. unfold step_challenge, challenged. rewrite Hs.
  assert (E : (match ab, audio_path ses with
               | Some _, Some _ => ret [video_part req ses vb]
               | _, _ => ret [video_part req ses vb]
               end) = ret [video_part req ses vb]).
  { destruct ab, (audio_path ses); reflexivity. }
  rewrite E. unfold_step. grab_rq.
  split; [video_parts|]. cbn. judge_cases.
Qed.

Lemma step_challenge_judge_standard mode ses vb ab ap ca fl tm s :
  standard = true -> audio_path ses = Some ap -> clip_audio req = Some ca ->
  calls_module Challenge (fun _ => True) (step_challenge mode ses vb (Some ab) fl tm) s fl
    challenged.
Proof.
  intros Hs Hap Hca. unfold step_challenge, audio_part, challenged. rewrite Hs, Hap, Hca.
  unfold_step. grab_rq.
  split; [exact I|]. cbn. judge_cases.
Qed.

Lemma step_voice_judge ses ap ab ca fl tm s :
  standard = true -> clip_audio req = Some ca ->
  calls_module Voice (fun _ => True) (step_voice ses ap ab fl tm) s fl (scored Voice).
Proof.
  intros Hs Hca. unfold step_voice, audio_part, scored. rewrite Hca.
  unfold_step. grab_rq.
  split; [exact I|]. cbn. judge_cases.
Qed.

Lemma step_lipsync_judge ses vb ap ab ca fl tm s :
  standard = true -> clip_audio req = Some ca ->
  calls_module Lipsync (fun _ => True) (step_lipsync ses vb ap ab fl tm) s fl (scored Lipsync).
Proof.
  intros Hs Hca. unfold step_lipsync, audio_part, scored. rewrite Hca.
  unfold_step. grab_rq.
  split; [exact I|]. cbn. judge_cases.
Qed.

Lemma step_fusion_judge ses vb cs cd fs vs ls ss fl tm s :
  calls_module Fusion (carries_video_only vb) (step_fusion ses cs cd fs vs ls ss fl tm) s fl fused.
Proof.
  unfold step_fusion, fused, unique_first_20; unfold_step. grab_rq.
  split; [exact I|]. cbn. judge_cases.
Qed.

(** ** The steps before the first module call *)

Lemma standard_not_silent : standard = true -> silent = false.
Proof.
  unfold is_standard, is_silent. intros H. apply String.eqb_eq in H. rewrite H. reflexivity.
Qed.

Lemma step_validate_spec s r s' :
  step_validate s = (r, s') ->
  trace s' = trace s /\ files s' = files s /\ draws s' = draws s /\
  match r with
  | Val (t0, mode, fl) =>
      _policy_to_mode (policy_id req) = inr mode /\
      (standard = true \/ silent = true) /\
      (standard = true -> exists ca, clip_audio req = Some ca) /\
      enrollment_id_face req <> "" /\
      fl = initial_flags
  | Done x => rejected x
  | Raised _ => False
  end.
Proof.
  unfold step_validate, bind, time_time, ret, done, raise, _policy_to_mode, initial_flags,
    rejected, front_errors.
  fold standard. fold silent. cbn.
  destruct standard eqn:Hs; cbn.
  - rewrite (standard_not_silent Hs); cbn.
    destruct (String.eqb (enrollment_id_face req) "") eqn:Hf; cbn.
    { intros [= <- <-]; cbn. repeat split.
      exists 400, "MISSING_FIELD", "enrollment_id_face required"; cbn; intuition congruence. }
    destruct (String.eqb (str_or (enrollment_id_voice req) "") ""); cbn.
    { intros [= <- <-]; cbn. repeat split.
      exists 400, "MISSING_FIELD", "enrollment_id_voice required for STRICT_STANDARD";
        cbn; intuition congruence. }
    destruct (clip_audio req) as [ca|]; cbn.
    + intros [= <- <-]; cbn. repeat split; eauto.
      intros E; rewrite E in Hf; discriminate Hf.
    + intros [= <- <-]; cbn. repeat split.
      exists 400, "MISSING_FIELD", "clip_audio required for STRICT_STANDARD";
        cbn; intuition congruence.
  - destruct silent eqn:Hsil; cbn.
    + destruct (String.eqb (enrollment_id_face req) "") eqn:Hf; cbn.
      { intros [= <- <-]; cbn. repeat split.
        exists 400, "MISSING_FIELD", "enrollment_id_face required"; cbn; intuition congruence. }
      intros [= <- <-]; cbn. repeat split; auto.
      all: try (intros; discriminate).
      all: try (intros E; rewrite E in Hf; discriminate Hf).
      all: try (destruct (clip_audio req); reflexivity).
    + intros [= <- <-]; cbn. repeat split.
      exists 400, "INVALID_POLICY", "policy_id not supported"; cbn; intuition congruence.
Qed.

Lemma step_read_spec s r s' :
  step_read s = (r, s') ->
  files s' = files s /\ draws s' = draws s /\ calls (trace s') = calls (trace s) /\
  (standard = false -> trace s' = (trace s ++ [EvReadUpload ClipVideo])%list) /\
  match r with
  | Val (vb, ab) =>
      vb = content (clip_video req) /\
      (standard = false -> ab = None) /\
      (forall ca, standard = true -> clip_audio req = Some ca -> ab = Some (content ca))
  | Done x => rejected x
  | Raised _ => False
  end.
Proof.
  unfold step_read, bind, read_upload, ret, done, rejected, front_errors.
  fold standard. cbn.
  destruct (_ >? _); cbn.
  { intros [= <- <-]; cbn. rewrite calls_app; cbn. rewrite app_nil_r.
    repeat split.
    exists 413, "VIDEO_TOO_LARGE",
      ("clip_video exceeds " ++ Py.str_of_int (MAX_VIDEO_MB cfg) ++ "MB");
      cbn; intuition congruence. }
  destruct (clip_audio req) as [ca|]; cbn.
  - destruct standard eqn:Hs; cbn.
    + destruct (_ >? _); cbn.
      * intros [= <- <-]; cbn. rewrite !calls_app; cbn. rewrite !app_nil_r.
        repeat split; try discriminate.
        exists 413, "AUDIO_TOO_LARGE",
          ("clip_audio exceeds " ++ Py.str_of_int (MAX_AUDIO_MB cfg) ++ "MB");
          cbn; intuition congruence.
      * intros [= <- <-]; cbn. rewrite !calls_app; cbn. rewrite !app_nil_r.
        repeat split; try discriminate. intros ? _ [= <-]. reflexivity.
    + intros [= <- <-]; cbn. rewrite !calls_app; cbn. rewrite !app_nil_r.
      repeat split; try discriminate.
  - intros [= <- <-]; cbn. rewrite !calls_app; cbn. rewrite !app_nil_r.
    repeat split; try discriminate.
Qed.

Lemma lookup_file_store fs p d q :
  lookup_file fs q <> None -> lookup_file ((p, d) :: fs) q <> None.
Proof. cbn. destruct (String.eqb p q); [discriminate|auto]. Qed.

Lemma lookup_file_here fs p d : lookup_file ((p, d) :: fs) p = Some d.
Proof. cbn. now rewrite String.eqb_refl. Qed.

Arguments lookup_file : simpl never.
Arguments path_str : simpl never.

Lemma step_persist_spec mode vb ab s :
  exists ses s',
    step_persist mode vb ab s = (Val ses, s') /\
    calls (trace s') = calls (trace s) /\
    (standard = false ->
     exists evs, trace s' = (trace s ++ evs)%list /\ Forall (audio_free vb) evs) /\
    lookup_file (files s') (path_str (video_path ses)) <> None /\
    match audio_path ses with
    | Some ap => lookup_file (files s') (path_str ap) <> None /\ standard = true /\ ab <> None
    | None => standard = false \/ ab = None
    end.
Proof.
  unfold step_persist, bind, _new_session_id, _now_utc_iso, uuid4, mkdir, write_bytes,
    write_text, time_time, ret, bind.
  fold standard. cbn.
  destruct ab as [b|]; cbn.
  - destruct standard eqn:Hs; cbn.
    + do 2 eexists. split; [reflexivity|]. cbn.
      rewrite !calls_app; cbn. rewrite !app_nil_r.
      repeat split; try discriminate.
      * apply lookup_file_store, lookup_file_store. rewrite lookup_file_here. discriminate.
      * apply lookup_file_store. rewrite lookup_file_here. discriminate.
    + do 2 eexists. split; [reflexivity|]. cbn.
      rewrite !calls_app; cbn. rewrite !app_nil_r.
      repeat split; auto.
      * intros _. eexists. rewrite <- !app_assoc. split; [reflexivity|].
        cbn. repeat constructor.
      * apply lookup_file_store. rewrite lookup_file_here. discriminate.
  - do 2 eexists. split; [reflexivity|]. cbn.
    rewrite !calls_app; cbn. rewrite !app_nil_r.
    repeat split; auto.
    + intros _. eexists. rewrite <- !app_assoc. split; [reflexivity|].
      cbn. repeat constructor.
    + apply lookup_file_store. rewrite lookup_file_here. discriminate.
Qed.

Lemma step_proof_spec vb t0 mode ses fd bd fl tm s :
  lookup_file (files s) (path_str (video_path ses)) <> None ->
  match audio_path ses with
  | Some ap => lookup_file (files s) (path_str ap) <> None
  | None => True
  end ->
  exists pid file tms s' evs,
    step_proof t0 mode ses fd bd fl tm s =
      (Val (JSONResponse (JInt 200) (success_content fd bd pid file fl tms)), s') /\
    trace s' = (trace s ++ evs)%list /\ calls evs = [] /\
    Forall (audio_free vb) evs /\
    proof_written evs file fd bd fl.
Proof.
  intros Hv Ha.
  unfold step_proof, bind, _new_proof_id, _now_utc_iso, uuid4, sha256_file, write_text,
    time_time, ret, bind, proof_written.
  cbn.
  destruct (lookup_file (files s) (path_str (video_path ses))) as [dv|]; [|congruence].
  cbn.
  destruct (audio_path ses) as [ap|] eqn:Hap; cbn.
  - destruct (lookup_file (files s) (path_str ap)) as [da|]; [|congruence].
    cbn. rewrite lookup_file_here. cbn.
    do 5 eexists. split; [reflexivity|]. cbn. rewrite <- !app_assoc. cbn.
    split; [reflexivity|]. split; [reflexivity|].
    split; [repeat constructor|].
    eexists. split; [right; right; left; unfold proof_obj; reflexivity|].
    reflexivity.
  - rewrite lookup_file_here. cbn.
    do 5 eexists. split; [reflexivity|]. cbn. rewrite <- !app_assoc. cbn.
    split; [reflexivity|]. split; [reflexivity|].
    split; [repeat constructor|].
    eexists. split; [right; left; unfold proof_obj; reflexivity|].
    reflexivity.
Qed.

(** ** The run of the handler as a walk through the module calls *)

Lemma calls_snoc tr m rq res cs :
  calls tr = cs -> calls (tr ++ [EvPost m rq res])%list = (cs ++ [(m, res)])%list.
Proof. intros <-. rewrite calls_app. reflexivity. Qed.

Ltac build_walk :=
  repeat first [ apply Walk_nil
               | eapply Walk_stop; eassumption
               | eapply Walk_continue; [eassumption|] ].

Ltac stopped :=
  match goal with
  | H : (_, _) = (_, _) |- _ => inversion H; subst; clear H
  end;
  unfold walked;
  match goal with
  | T : trace ?s = _, C : calls (trace _) = _ |- context [calls (trace ?s)] =>
      rewrite T; erewrite (@calls_snoc _ _ _ _ _ C)
  end;
  do 2 eexists; split; [cbn; build_walk|];
  match goal with H : is_standard req = _ |- _ => rewrite H end;
  split; [ (eexists; cbn; reflexivity) |];
  split; [ first [ solve [intros; congruence]
                 | intros _; apply Forall_app; split;
                   [solve [auto] | constructor; [assumption|constructor]] ] |];
  cbn; reflexivity.

(** The end of the handler: fusion, then the proof. *)
Lemma fusion_tail t0 mode ses cs cd fs vs ls ss fl tm s6 r s :
  bind (step_fusion ses cs cd fs vs ls ss fl tm)
       (fun '(final_decision, flags_summary, timings) =>
          step_proof t0 mode ses final_decision (breakdown vs fs ls cs ss)
                     flags_summary timings) s6 = (r, s) ->
  lookup_file (files s6) (path_str (video_path ses)) <> None ->
  match audio_path ses with
  | Some ap => lookup_file (files s6) (path_str ap) <> None
  | None => True
  end ->
  exists rq evs,
    trace s = (trace s6 ++ EvPost Fusion rq (post_result Fusion rq) :: evs)%list /\
    calls evs = [] /\
    Forall (audio_free (content (clip_video req))) (EvPost Fusion rq (post_result Fusion rq) :: evs) /\
    match judge Fusion (post_result Fusion rq) fl with
    | Stop o => finish r = o /\ evs = []
    | Continue d fl' =>
        if forallb Py.hashable fl' then
          exists pid file tms,
            let flags := firstn 20 (Py.fromkeys fl') in
            finish r = Responded (JSONResponse (JInt 200)
                          (success_content (score_of Fusion d) (breakdown vs fs ls cs ss)
                                           pid file flags tms)) /\
            proof_written evs file (score_of Fusion d) (breakdown vs fs ls cs ss) flags
        else finish r = Failed TypeError /\ evs = []
    end.
Proof.
  intros H V A. unfold bind in H.
  destruct (@step_fusion_judge ses (content (clip_video req)) cs cd fs vs ls ss fl tm s6)
    as (rq & P & s7 & J & T & F & _).
  exists rq.
  destruct (judge Fusion (post_result Fusion rq) fl) as [d fl'|o] eqn:W.
  - destruct J as (r7 & E7 & J). rewrite E7 in H. unfold fused in J.
    destruct (forallb Py.hashable fl').
    + destruct J as (tm' & ->).
      rewrite <- F in V, A.
      destruct (@step_proof_spec (content (clip_video req)) t0 mode ses
                  (score_of Fusion d) (breakdown vs fs ls cs ss)
                  (firstn 20 (Py.fromkeys fl')) tm' s7 V A)
        as (pid & file & tms & s8 & evs & E8 & T8 & C8 & S8 & PW).
      rewrite E8 in H. inversion H; subst. exists evs.
      rewrite T8, T, <- app_assoc. cbn.
      repeat split; auto. exists pid, file, tms. cbn. auto.
    + subst r7. inversion H; subst. exists []. rewrite T. cbn.
      repeat split; auto.
  - exists []. destruct o as [x|e]; rewrite J in H; inversion H; subst; rewrite T; cbn;
      repeat split; auto.
Qed.


Lemma proof_written_later pre evs file fd bd fl :
  proof_written evs file fd bd fl -> proof_written (pre ++ evs)%list file fd bd fl.
Proof.
  intros (po & Hin & Hres). exists po. split; [|assumption].
  apply in_or_app. right. assumption.
Qed.

Ltac wrap_up H C S :=
  let rq := fresh "rq" in let evs := fresh "evs" in
  let T := fresh "T" in let Ce := fresh "Ce" in let Se := fresh "Se" in
  let J := fresh "J" in let W := fresh "W" in let Cs := fresh "Cs" in
  destruct H as (rq & evs & T & Ce & Se & J);
  match type of T with
  | trace ?sf = (trace ?sp ++ _)%list =>
      assert (Cs : calls (trace sf) =
                   (calls (trace sp) ++ [(Fusion, post_result Fusion rq)])%list)
        by (rewrite T, calls_app; cbn; rewrite Ce; reflexivity);
      rewrite C in Cs; cbn in Cs;
      assert (Hsafe : is_standard req = false ->
                      Forall (audio_free (content (clip_video req))) (trace sf))
        by (intros Hf; first [ congruence
                             | rewrite T; apply Forall_app; split;
                               [apply S; exact Hf|exact Se] ])
  end;
  unfold walked; rewrite Cs;
  match goal with H : is_standard req = _ |- _ => rewrite H in * end;
  destruct (judge Fusion (post_result Fusion rq) _) as [?d ?fl|?o] eqn:W;
  [ eexists; exists (inl fl); split; [cbn; build_walk|];
    split; [exists []; reflexivity|];
    split; [first [solve [intros; congruence] | solve [auto] ]|];
    right; split; [reflexivity|];
    unfold completed;
    destruct (forallb Py.hashable fl);
    [ destruct J as (?pid & ?file & ?tms & ?Hr & ?PW);
      exists pid, file, tms; cbn; split; [exact Hr|];
      rewrite T;
      apply proof_written_later;
      destruct PW as (?po & ?Hin & ?Hres); exists po; split; [right; exact Hin|exact Hres]
    | exact (proj1 J) ]
  | destruct J as (?Hr & ->); do 2 eexists; split; [cbn; build_walk|];
    split; [eexists; cbn; reflexivity|];
    split; [first [solve [intros; congruence] | solve [auto] ]|];
    exact Hr ].

Theorem handler_walked s0 r s :
  trace s0 = [] -> handler s0 = (r, s) -> walked (finish r) (trace s).
Proof.
  intros Ht0 H. unfold handler, bind in H.
  (* 1) validation *)
  destruct (step_validate s0) as [r1 s1] eqn:E1.
  destruct (@step_validate_spec _ _ _ E1) as (T1 & F1 & _ & R1).
  assert (Hrej : forall x tr, calls tr = [] ->
                 (standard = false -> Forall (audio_free (content (clip_video req))) tr) ->
                 rejected x -> walked (Responded x) tr).
  { intros x tr Hc Hsafe Hx. exists [], (inl initial_flags). rewrite Hc.
    split; [apply Walk_nil|]. split; [eexists; reflexivity|]. split; [assumption|].
    left. split; [reflexivity|]. eauto. }
  destruct r1 as [[[t0 mode] fl0]|x|e]; [| |contradiction].
  2:{ inversion H; subst. apply Hrej; [rewrite T1, Ht0; reflexivity | | assumption].
      rewrite T1, Ht0. constructor. }
  destruct R1 as (Hmode & Hpol & Haud & Hface & ->).
  (* 2) upload reads *)
  destruct (step_read s1) as [r2 s2] eqn:E2.
  destruct (@step_read_spec _ _ _ E2) as (F2 & _ & C2 & T2 & R2).
  rewrite T1, Ht0 in C2, T2. cbn in C2, T2.
  assert (S2 : standard = false -> Forall (audio_free (content (clip_video req))) (trace s2)).
  { intros Hs. rewrite (T2 Hs). repeat constructor. }
  destruct r2 as [[vb ab]|x|e]; [| |contradiction].
  2:{ inversion H; subst. apply Hrej; assumption. }
  destruct R2 as (-> & Hab0 & Hab1).
  (* 3) persistence *)
  destruct (@step_persist_spec mode (content (clip_video req)) ab s2)
    as (ses & s3 & E3 & C3 & T3 & V3 & A3).
  rewrite E3 in H. rewrite C2 in C3.
  assert (S3 : standard = false -> Forall (audio_free (content (clip_video req))) (trace s3)).
  { intros Hs. destruct (T3 Hs) as (evs & -> & Hevs). apply Forall_app; auto. }
  clear T3 T2 S2 E1 E2 E3.
  set (vb := content (clip_video req)) in *.
  destruct standard eqn:Hstd.
  - (* STRICT_STANDARD *)
    destruct (Haud eq_refl) as (ca & Hca).
    specialize (Hab1 ca eq_refl Hca). subst ab.
    destruct (audio_path ses) as [ap|] eqn:Hap; [|destruct A3; discriminate].
    destruct A3 as (A3 & _ & _).
    (* challenge *)
    destruct (@step_challenge_judge_standard mode ses vb (content ca) ap ca initial_flags
                timings0 s3 Hstd Hap Hca) as (rq1 & P1 & s4 & J1 & T4 & F4 & _).
    destruct (judge Challenge (post_result Challenge rq1) initial_flags)
      as [d1 fl1|[x|e]] eqn:W1; [|rewrite J1 in H; stopped..].
    destruct J1 as (r4 & E4 & (tm1 & ->)). rewrite E4 in H.
    pose proof (@calls_snoc _ Challenge rq1 (post_result Challenge rq1) _ C3) as C4.
    rewrite <- T4 in C4. cbn in C4.
    (* face *)
    destruct (@step_face_judge ses vb fl1 tm1 s4) as (rq2 & P2 & s5 & J2 & T5 & F5 & _).
    destruct (judge Face (post_result Face rq2) fl1)
      as [d2 fl2|[x|e]] eqn:W2; [|rewrite J2 in H; stopped..].
    destruct J2 as (r5 & E5 & (tm2 & ->)). rewrite E5 in H.
    pose proof (@calls_snoc _ Face rq2 (post_result Face rq2) _ C4) as C5.
    rewrite <- T5 in C5. cbn in C5.
    (* voice and lip-sync *)
    unfold step_voice_lipsync in H. rewrite Hap, Hstd in H. unfold bind in H.
    destruct (@step_voice_judge ses ap (content ca) ca fl2 tm2 s5 Hstd Hca)
      as (rq3 & P3 & s6 & J3 & T6 & F6 & _).
    destruct (judge Voice (post_result Voice rq3) fl2)
      as [d3 fl3|[x|e]] eqn:W3; [|rewrite J3 in H; stopped..].
    destruct J3 as (r6 & E6 & (tm3 & ->)). rewrite E6 in H.
    pose proof (@calls_snoc _ Voice rq3 (post_result Voice rq3) _ C5) as C6.
    rewrite <- T6 in C6. cbn in C6.
    destruct (@step_lipsync_judge ses vb ap (content ca) ca fl3 tm3 s6 Hstd Hca)
      as (rq4 & P4 & s7 & J4 & T7 & F7 & _).
    destruct (judge Lipsync (post_result Lipsync rq4) fl3)
      as [d4 fl4|[x|e]] eqn:W4; [|rewrite J4 in H; stopped..].
    destruct J4 as (r7 & E7 & (tm4 & ->)). rewrite E7 in H.
    pose proof (@calls_snoc _ Lipsync rq4 (post_result Lipsync rq4) _ C6) as C7.
    rewrite <- T7 in C7. cbn in C7.
    (* no VSR *)
    unfold step_vsr, ret in H. rewrite (standard_not_silent Hstd) in H.
    cbv beta iota zeta in H.
    apply fusion_tail in H; [|congruence|rewrite Hap; congruence].
    wrap_up H C7 S3.
  - (* STRICT_SILENT *)
    destruct Hpol as [|Hsil]; [discriminate|].
    specialize (Hab0 eq_refl). subst ab.
    destruct (audio_path ses) as [ap|] eqn:Hap; [destruct A3 as (_ & ? & _); discriminate|].
    specialize (S3 eq_refl).
    (* challenge *)
    destruct (@step_challenge_judge_silent mode ses vb None initial_flags timings0 s3 Hstd)
      as (rq1 & P1 & s4 & J1 & T4 & F4 & _).
    destruct (judge Challenge (post_result Challenge rq1) initial_flags)
      as [d1 fl1|[x|e]] eqn:W1; [|rewrite J1 in H; stopped..].
    destruct J1 as (r4 & E4 & (tm1 & ->)). rewrite E4 in H.
    pose proof (@calls_snoc _ Challenge rq1 (post_result Challenge rq1) _ C3) as C4.
    rewrite <- T4 in C4. cbn in C4.
    assert (S4 : Forall (audio_free vb) (trace s4)).
    { rewrite T4. apply Forall_app. split; [assumption|constructor; [exact P1|constructor]]. }
    (* face *)
    destruct (@step_face_judge ses vb fl1 tm1 s4) as (rq2 & P2 & s5 & J2 & T5 & F5 & _).
    destruct (judge Face (post_result Face rq2) fl1)
      as [d2 fl2|[x|e]] eqn:W2; [|rewrite J2 in H; stopped..].
    destruct J2 as (r5 & E5 & (tm2 & ->)). rewrite E5 in H.
    pose proof (@calls_snoc _ Face rq2 (post_result Face rq2) _ C4) as C5.
    rewrite <- T5 in C5. cbn in C5.
    assert (S5 : Forall (audio_free vb) (trace s5)).
    { rewrite T5. apply Forall_app. split; [assumption|constructor; [exact P2|constructor]]. }
    (* no voice, no lip-sync *)
    unfold step_voice_lipsync, ret in H. cbv beta iota zeta in H.
    (* VSR *)
    destruct (@step_vsr_judge ses vb fl2 tm2 s5 Hstd Hsil)
      as (rq3 & P3 & s6 & J3 & T6 & F6 & _).
    destruct (judge Vsr (post_result Vsr rq3) fl2)
      as [d3 fl3|[x|e]] eqn:W3; [|rewrite J3 in H; stopped..].
    destruct J3 as (r6 & E6 & (tm3 & ->)). rewrite E6 in H.
    pose proof (@calls_snoc _ Vsr rq3 (post_result Vsr rq3) _ C5) as C6.
    rewrite <- T6 in C6. cbn in C6.
    assert (S6 : Forall (audio_free vb) (trace s6)).
    { rewrite T6. apply Forall_app. split; [assumption|constructor; [exact P3|constructor]]. }
    apply fusion_tail in H; [|congruence|rewrite Hap; exact I].
    wrap_up H C6 (fun _ : is_standard req = false => S6).
Qed.


(** Every run of the endpoint has the shape [walked]. *)
Theorem run_walked : walked (fst run) (trace (snd run)).
Proof.
  unfold multimodal_verify.
  destruct (handler init_state) as [r s] eqn:H.
  pose proof (@handler_walked init_state r s eq_refl H) as W.
  destruct r; exact W.
Qed.

(** ** Rejections before any input is read *)

(** C3. A request whose policy is neither STRICT_STANDARD nor
    STRICT_SILENT is answered 400 INVALID_POLICY, and the run has done
    no disk or network operation: the log is empty (no upload read, no
    file written, no module called), no file exists and no session
    identifier was drawn. *)
Theorem C3_invalid_policy_rejected_before_io :
  policy_id req <> "STRICT_STANDARD" ->
  policy_id req <> "STRICT_SILENT" ->
  fst run = Responded (_err (JInt 400) "INVALID_POLICY" "policy_id not supported" JNull) /\
  trace (snd run) = [] /\
  files (snd run) = [] /\
  draws (snd run) = 0%nat.
Proof.
  intros H1 H2.
  apply String.eqb_neq in H1, H2.
  unfold multimodal_verify, handler, bind, step_validate, bind, time_time, _policy_to_mode.
  cbn. rewrite H1, H2. cbn. repeat split.
Qed.

(** Validation lets a well-formed request through. *)
Lemma step_validate_passes mode s :
  _policy_to_mode (policy_id req) = inr mode ->
  enrollment_id_face req <> "" ->
  (policy_id req = "STRICT_STANDARD" ->
   str_or (enrollment_id_voice req) "" <> "" /\ clip_audio req <> None) ->
  exists t0 s',
    step_validate s = (Val (t0, mode, initial_flags), s') /\
    trace s' = trace s /\ files s' = files s /\ draws s' = draws s.
Proof.
  intros Hm Hf Hs.
  unfold step_validate, bind, time_time, ret, initial_flags. cbn.
  rewrite Hm. cbn.
  apply String.eqb_neq in Hf. rewrite Hf. cbn.
  fold standard. fold silent.
  destruct standard eqn:E; cbn.
  - apply String.eqb_eq in E. destruct (Hs E) as (Hv & Ha).
    apply String.eqb_neq in Hv. rewrite Hv. cbn.
    rewrite (standard_not_silent); [|now apply String.eqb_eq]. cbn.
    destruct (clip_audio req); [|congruence]. cbn.
    do 2 eexists. split; [reflexivity|]. repeat split.
  - destruct silent, (clip_audio req); cbn; do 2 eexists; (split; [reflexivity|]);
      repeat split.
Qed.

(** C7. A request that passes validation and whose video clip is larger
    than [MAX_VIDEO_MB] megabytes -- one byte over is enough -- is
    answered 413 VIDEO_TOO_LARGE.  The only operation of the run is the
    reading of the video upload: no module is called, no session
    directory is made and no file is written. *)
Theorem C7_video_too_large mode :
  _policy_to_mode (policy_id req) = inr mode ->
  enrollment_id_face req <> "" ->
  (policy_id req = "STRICT_STANDARD" ->
   str_or (enrollment_id_voice req) "" <> "" /\ clip_audio req <> None) ->
  Z.of_nat (List.length (content (clip_video req))) > MAX_VIDEO_MB cfg * 1024 * 1024 ->
  fst run = Responded (_err (JInt 413) "VIDEO_TOO_LARGE"
                         ("clip_video exceeds " ++ Py.str_of_int (MAX_VIDEO_MB cfg) ++ "MB")
                         JNull) /\
  trace (snd run) = [EvReadUpload ClipVideo] /\
  calls (trace (snd run)) = [] /\
  files (snd run) = [] /\
  draws (snd run) = 0%nat.
Proof.
  intros Hm Hf Hs Hbig.
  destruct (@step_validate_passes mode init_state Hm Hf Hs) as (t0 & s1 & E1 & T1 & F1 & D1).
  unfold multimodal_verify, handler, bind. rewrite E1.
  unfold step_read, bind, read_upload. cbn.
  apply Z.gtb_gt in Hbig. rewrite Hbig. cbn.
  rewrite T1, F1, D1. repeat split.
Qed.

(** ** Success and error responses *)

Lemma err_not_ok st code msg flags st' c :
  _err st code msg flags = JSONResponse st' (JObj c) -> Py.get c "ok" = JBool false.
Proof. unfold _err. intros [= _ <-]. reflexivity. Qed.

Lemma err_has_no_breakdown st code msg flags st' c :
  _err st code msg flags = JSONResponse st' (JObj c) -> Py.has_key c "breakdown" = false.
Proof. unfold _err. intros [= _ <-]. reflexivity. Qed.

Lemma err_code st code msg flags st' c :
  _err st code msg flags = JSONResponse st' (JObj c) -> Py.get c "error_code" = JStr code.
Proof. unfold _err. intros [= _ <-]. reflexivity. Qed.

(** A run that succeeded went through the whole plan. *)
Lemma success_inv c :
  succeeded (fst run) c ->
  exists ds fl pid file tms,
    Walk initial_flags (calls (trace (snd run))) ds (inl fl) /\
    map fst ds = plan standard /\
    forallb Py.hashable fl = true /\
    JObj c = success_content (score Fusion ds) (breakdown_of ds) pid file
                             (firstn 20 (Py.fromkeys fl)) tms /\
    proof_written (trace (snd run)) file (score Fusion ds) (breakdown_of ds)
                  (firstn 20 (Py.fromkeys fl)).
Proof.
  intros (st & Hout & Hok).
  destruct run_walked as (ds & v & W & _ & _ & V).
  destruct v as [fl|o].
  - destruct V as [(_ & x & Hx & (st' & code & msg & _ & -> & _))|(Hp & C)].
    + assert (E : _err (JInt st') code msg JNull = JSONResponse st (JObj c)) by congruence.
      apply err_not_ok in E. congruence.
    + unfold completed in C.
      destruct (forallb Py.hashable fl) eqn:Hh; [|congruence].
      destruct C as (pid & file & tms & Hr & PW).
      exists ds, fl, pid, file, tms. repeat split; auto. congruence.
  - destruct (@Walk_stopped _ _ _ _ W) as (m & res & fl1 & _ & J).
    destruct o as [x|e]; [|congruence].
    apply judge_stop_shape in J. destruct J as (st' & j & ->).
    assert (E : _err st' (error_code m) (error_message m) (error_flags m j) =
                JSONResponse st (JObj c)) by congruence.
    apply err_not_ok in E. congruence.
Qed.

Lemma module_error_in_table m : In (error_code m, error_message m) error_table.
Proof.
  unfold error_table. apply in_or_app. right.
  apply (in_map (fun m => (error_code m, error_message m))).
  destruct m; simpl; tauto.
Qed.

(** C1 (as amended).  Every response of the endpoint is the success
    response or an error response [{ok: false, error_code, error_message,
    flags_summary}] whose code and message are one of the fixed pairs of
    [error_table]: no exception text or stack trace is ever put in a
    response.  When a module call ends with an HTTP error whose JSON body
    is an object [j], the response carries the status of that reply, the
    code and message of that module, and as flags what [j] reports -- not
    the flags accumulated before the failure.  When a module call ends
    with a transport failure after the retries, the exception leaves the
    handler: no error response is built. *)
Theorem C1_error_responses :
  (forall x, fst run = Responded x ->
     (exists c, x = JSONResponse (JInt 200) (JObj c) /\ Py.get c "ok" = JBool true) \/
     (exists st code msg flags,
        x = _err st code msg flags /\ In (code, msg) error_table)) /\
  (forall m d j,
     In (m, inr (JObj d)) (calls (trace (snd run))) ->
     Py.truthy (Py.get d "__http_error__") = true ->
     Py.or (Py.get d "__json__") (JObj []) = JObj j ->
     fst run = Responded (_err (Py.get_default d "__status__" (JInt 500))
                               (error_code m) (error_message m) (error_flags m j))) /\
  (forall m e,
     In (m, inl e) (calls (trace (snd run))) -> fst run = Failed e).
Proof.
  destruct run_walked as (ds & v & W & _ & _ & V).
  split; [|split].
  - intros x Hx. destruct v as [fl|o].
    + destruct V as [(_ & x' & Hx' & (st' & code & msg & Hin & -> & _))|(Hp & C)].
      * right. assert (x = _err (JInt st') code msg JNull) as -> by congruence.
        exists (JInt st'), code, msg, JNull. split; [reflexivity|].
        unfold error_table. apply in_or_app. left.
        apply (in_map (fun e => (snd (fst e), snd e))) in Hin. exact Hin.
      * left. unfold completed in C.
        destruct (forallb Py.hashable fl); [|congruence].
        destruct C as (pid & file & tms & Hr & _).
        rewrite Hr in Hx. injection Hx as <-. unfold success_content.
        eexists. split; reflexivity.
    + right. destruct (@Walk_stopped _ _ _ _ W) as (m & res & fl1 & _ & J).
      assert (o = Responded x) as -> by congruence.
      apply judge_stop_shape in J. destruct J as (st' & j & ->).
      do 4 eexists. split; [reflexivity|apply module_error_in_table].
  - intros m d j Hin Ht Hj.
    destruct (@Walk_stopper _ _ _ _ _ _
                (Responded (_err (Py.get_default d "__status__" (JInt 500))
                                 (error_code m) (error_message m) (error_flags m j)))
                W Hin) as (-> & _).
    { intros fl1. now apply judge_http_error. }
    exact V.
  - intros m e Hin.
    destruct (@Walk_stopper _ _ _ _ _ _ (Failed e) W Hin) as (-> & _).
    { intros fl1. apply judge_raised. }
    exact V.
Qed.

(** ** Short circuit *)

Lemma plan_up_to_face b (pre : list (module_id * (exn + json))) rest :
  plan b = ((map fst pre ++ [Face]) ++ rest)%list -> map fst pre = [Challenge].
Proof.
  destruct pre as [|p1 [|p2 pre]]; simpl.
  - destruct b; discriminate.
  - destruct b; intros [= <- _]; reflexivity.
  - intros E. exfalso.
    assert (Hin : In Face (skipn 2 (plan b))).
    { rewrite E. simpl. apply in_or_app. left. apply in_or_app. right. now left. }
    destruct b; simpl in Hin; intuition discriminate.
Qed.

(** C2 (as amended).  When the Face call ends with an HTTP error, the
    module calls of the run are the Challenge call and the Face call and
    no other: no Voice, Lip-sync, VSR or Fusion call is made.  The
    response is the FACE_ERROR error response, with the status and the
    flags of the Face reply; it has no [breakdown] field at all.  (When
    the JSON body of the error reply is not an object, the handler raises
    instead of responding.) *)
Theorem C2_face_error_stops_pipeline d :
  In (Face, inr (JObj d)) (calls (trace (snd run))) ->
  Py.truthy (Py.get d "__http_error__") = true ->
  map fst (calls (trace (snd run))) = [Challenge; Face] /\
  (fst run = Failed AttributeError \/
   exists j c,
     Py.or (Py.get d "__json__") (JObj []) = JObj j /\
     fst run = Responded (_err (Py.get_default d "__status__" (JInt 500))
                               "FACE_ERROR" "face verify failed" (error_flags Face j)) /\
     fst run = Responded (JSONResponse (Py.get_default d "__status__" (JInt 500)) (JObj c)) /\
     Py.has_key c "breakdown" = false).
Proof.
  intros Hin Ht.
  destruct run_walked as (ds & v & W & (rest & P) & _ & V).
  assert (Hstop : exists o,
             (forall fl, judge Face (inr (JObj d)) fl = Stop o) /\
             (o = Failed AttributeError \/
              exists j, Py.or (Py.get d "__json__") (JObj []) = JObj j /\
                        o = Responded (_err (Py.get_default d "__status__" (JInt 500))
                                            "FACE_ERROR" "face verify failed"
                                            (error_flags Face j)))).
  { unfold judge. rewrite Ht.
    destruct (Py.or (Py.get d "__json__") (JObj [])) as [| | | | | |j] eqn:E;
      try (eexists; split; [reflexivity|left; reflexivity]).
    eexists. split; [reflexivity|]. right. exists j. split; reflexivity. }
  destruct Hstop as (o & Hstop & Ho).
  destruct (@Walk_stopper _ _ _ _ _ _ o W Hin Hstop) as (-> & pre & Hpre).
  rewrite Hpre in *. rewrite map_app in *. simpl in *.
  rewrite (plan_up_to_face _ _ _ P). split; [reflexivity|].
  destruct Ho as [->|(j & Hj & ->)]; [left; exact V|right].
  exists j. eexists. split; [exact Hj|]. split; [exact V|].
  split; [rewrite V; unfold _err; reflexivity|reflexivity].
Qed.

(** ** The audio clip under STRICT_SILENT *)

Lemma silent_not_standard : policy_id req = "STRICT_SILENT" -> standard = false.
Proof. unfold is_standard. intros ->. reflexivity. Qed.

Lemma silent_is_silent : policy_id req = "STRICT_SILENT" -> silent = true.
Proof. unfold is_silent. intros ->. reflexivity. Qed.

Lemma first_seen_head x l n :
  firstn (S n) (Py.fromkeys (x :: l)) =
  x :: firstn n (filter (fun y => negb (Py.key_eqb x y)) (first_seen l)).
Proof. rewrite fromkeys_first_seen. reflexivity. Qed.

(** C4 (as amended).  A STRICT_SILENT request that supplies an audio
    clip (and names a face enrollment) passes validation, which records
    the flag AUDIO_IGNORED_SILENT.  The run never reads the audio upload,
    writes no bytes but those of the video, and every module request
    carries the video as its only file part.  When the run succeeds, the
    flag is the first entry of [flags_summary] in the response and in the
    proof.  (An error response carries only the flags of the failing
    module, so the flag is absent from it.) *)
Theorem C4_silent_audio_ignored ca :
  policy_id req = "STRICT_SILENT" ->
  clip_audio req = Some ca ->
  enrollment_id_face req <> "" ->
  (exists t0 s',
     step_validate init_state = (Val (t0, "SILENT", [JStr "AUDIO_IGNORED_SILENT"]), s')) /\
  Forall (audio_free (content (clip_video req))) (trace (snd run)) /\
  ~ In (EvReadUpload ClipAudio) (trace (snd run)) /\
  (forall c, succeeded (fst run) c ->
     exists rest file fd bd,
       Py.get c "flags_summary" = JArr (JStr "AUDIO_IGNORED_SILENT" :: rest) /\
       proof_written (trace (snd run)) file fd bd (JStr "AUDIO_IGNORED_SILENT" :: rest)).
Proof.
  intros Hp Ha Hf.
  pose proof (silent_not_standard Hp) as Hstd.
  assert (Hinit : initial_flags = [JStr "AUDIO_IGNORED_SILENT"]).
  { unfold initial_flags. rewrite (silent_is_silent Hp), Ha. reflexivity. }
  assert (Hsafe : Forall (audio_free (content (clip_video req))) (trace (snd run))).
  { destruct run_walked as (_ & _ & _ & _ & S & _). exact (S Hstd). }
  split; [|split; [exact Hsafe|split]].
  - assert (Hm : _policy_to_mode (policy_id req) = inr "SILENT") by now rewrite Hp.
    destruct (@step_validate_passes "SILENT" init_state Hm Hf) as (t0 & s' & E & _).
    { rewrite Hp. discriminate. }
    rewrite Hinit in E. eauto.
  - intros Hin. rewrite Forall_forall in Hsafe. apply Hsafe in Hin.
    simpl in Hin. discriminate.
  - intros c Hc.
    destruct (success_inv Hc) as (ds & fl & pid & file & tms & W & _ & _ & E & PW).
    apply Walk_through in W. destruct W as (_ & _ & ->).
    rewrite Hinit in E, PW. simpl app in E, PW.
    rewrite (first_seen_head _ _ 19) in E, PW.
    unfold success_content in E. injection E as ->.
    do 4 eexists. split; [reflexivity|exact PW].
Qed.

(** C10.  Under STRICT_SILENT the audio upload is never read, and the run
    is the same whatever the audio clip holds: replacing the clip by any
    other, of any size, changes neither the response nor the log.  An
    AUDIO_TOO_LARGE response is only ever given to a STRICT_STANDARD
    request. *)
Theorem C10_silent_audio_not_measured :
  (policy_id req = "STRICT_SILENT" ->
   ~ In (EvReadUpload ClipAudio) (trace (snd run)) /\
   forall a a',
     multimodal_verify json_dumps encode_utf8 path_suffix strftime_utc cfg w
                       (with_audio req (Some a)) =
     multimodal_verify json_dumps encode_utf8 path_suffix strftime_utc cfg w
                       (with_audio req (Some a'))) /\
  (forall st c,
     fst run = Responded (JSONResponse st (JObj c)) ->
     Py.get c "error_code" = JStr "AUDIO_TOO_LARGE" ->
     policy_id req = "STRICT_STANDARD").
Proof.
  split.
  - intros Hp. split.
    + destruct run_walked as (_ & _ & _ & _ & S & _).
      specialize (S (silent_not_standard Hp)).
      intros Hin. rewrite Forall_forall in S. apply S in Hin. discriminate Hin.
    + intros a a'. unfold multimodal_verify.
      now rewrite (@silent_handler_ignores_audio json_dumps encode_utf8 path_suffix strftime_utc
                   HL cfg w req a a' init_state Hp).
  - intros st c Hout Hcode.
    destruct run_walked as (ds & v & W & _ & _ & V).
    destruct v as [fl|o].
    + destruct V as [(_ & x & Hx & (st' & code & msg & _ & -> & Hstd))|(_ & C)].
      * assert (E : _err (JInt st') code msg JNull = JSONResponse st (JObj c)) by congruence.
        apply err_code in E. rewrite E in Hcode. injection Hcode as ->.
        apply String.eqb_eq. exact (Hstd eq_refl).
      * unfold completed in C. destruct (forallb Py.hashable fl); [|congruence].
        destruct C as (pid & file & tms & Hr & _).
        rewrite Hr in Hout. unfold success_content in Hout. injection Hout as _ <-.
        discriminate Hcode.
    + destruct (@Walk_stopped _ _ _ _ W) as (m & res & fl1 & _ & J).
      destruct o as [x|e]; [|congruence].
      apply judge_stop_shape in J. destruct J as (st' & j & ->).
      assert (E : _err st' (error_code m) (error_message m) (error_flags m j) =
                  JSONResponse st (JObj c)) by congruence.
      apply err_code in E. rewrite E in Hcode. destruct m; discriminate Hcode.
Qed.


(** ** The success response *)

Lemma walk_reply m d ds fl fl' cs :
  Walk fl cs ds (inl fl') -> NoDup (map fst ds) ->
  In (m, inr (JObj d)) cs -> reply_of m ds = Some d.
Proof.
  intros W N Hin. apply Walk_through in W. destruct W as (-> & _ & _).
  apply in_map_iff in Hin. destruct Hin as ([m' d'] & E & Hin).
  simpl in E. injection E as -> ->. now apply reply_of_in.
Qed.

Lemma fromkeys_abac a b d :
  a <> b -> a <> d -> b <> d ->
  Py.fromkeys [JStr a; JStr b; JStr a; JStr d] = [JStr a; JStr b; JStr d].
Proof.
  intros Hab Had Hbd. rewrite fromkeys_first_seen.
  assert (Hba : (b =? a)%string = false) by (apply String.eqb_neq; congruence).
  apply String.eqb_neq in Hab, Had, Hbd.
  repeat (simpl; rewrite ?Hab, ?Hba, ?Had, ?Hbd, ?String.eqb_refl).
  reflexivity.
Qed.

(** C5.  In every run that succeeds, the [flags_summary] of the response
    and of the proof is the list of the flags appended across the module
    replies (after the flag of validation, if any), deduplicated with
    every flag kept where it is first seen, and cut to its first 20
    entries: no two entries are equal, there are at most 20, each comes
    from a module reply, and when nothing is cut every reported flag is
    there.  In particular [A, B, A, C] gives [A, B, C]. *)
Theorem C5_flags_summary_unique_ordered_bounded c :
  succeeded (fst run) c ->
  let acc := (initial_flags ++ appended (calls (trace (snd run))))%list in
  let flags := firstn 20 (first_seen acc) in
  Py.get c "flags_summary" = JArr flags /\
  (exists file fd bd,
     Py.get c "proof_file" = JStr file /\
     proof_written (trace (snd run)) file fd bd flags) /\
  distinct_keys flags /\
  (List.length flags <= 20)%nat /\
  (forall x, In x flags -> In x acc) /\
  ((List.length (first_seen acc) <= 20)%nat ->
   forall x, In x acc -> exists y, In y flags /\ Py.key_eqb y x = true) /\
  (forall a b d, a <> b -> a <> d -> b <> d ->
     firstn 20 (Py.fromkeys [JStr a; JStr b; JStr a; JStr d]) = [JStr a; JStr b; JStr d]).
Proof.
  intros Hc acc flags.
  destruct (success_inv Hc) as (ds & fl & pid & file & tms & W & _ & Hh & E & PW).
  apply Walk_through in W. destruct W as (_ & _ & ->).
  fold acc in E, PW, Hh. rewrite fromkeys_first_seen in E, PW. fold flags in E, PW.
  unfold success_content in E. injection E as ->.
  split; [reflexivity|]. split; [do 3 eexists; split; [reflexivity|exact PW]|].
  split; [apply distinct_keys_firstn, first_seen_distinct|].
  split; [apply firstn_le_length|].
  split; [intros x Hx; apply first_seen_incl; eapply in_firstn; exact Hx|].
  split.
  - intros Hlen x Hx. unfold flags. rewrite firstn_all2 by exact Hlen.
    apply first_seen_complete; [exact Hx|].
    rewrite forallb_forall in Hh. now apply Hh.
  - intros a b d Hab Had Hbd. now rewrite fromkeys_abac.
Qed.

(** C6 (as amended).  In every run that succeeds, the [final_decision] of
    the response and of the proof is the [final_decision] of the Fusion
    reply when that is truthy, else its [decision] when that is truthy,
    else the sentinel INCONCLUSIVE.  So a Fusion reply that omits
    [final_decision] gives INCONCLUSIVE only when it has no truthy
    [decision] either. *)
Theorem C6_final_decision_default c d :
  succeeded (fst run) c ->
  In (Fusion, inr (JObj d)) (calls (trace (snd run))) ->
  let fd := Py.or (Py.or (Py.get d "final_decision") (Py.get d "decision"))
                  (JStr "INCONCLUSIVE") in
  Py.get c "final_decision" = fd /\
  (exists file bd flags,
     Py.get c "proof_file" = JStr file /\
     proof_written (trace (snd run)) file fd bd flags) /\
  (Py.has_key d "final_decision" = false ->
   Py.truthy (Py.get d "decision") = false -> fd = JStr "INCONCLUSIVE") /\
  (Py.has_key d "final_decision" = false ->
   Py.truthy (Py.get d "decision") = true -> fd = Py.get d "decision").
Proof.
  intros Hc Hin fd.
  destruct (success_inv Hc) as (ds & fl & pid & file & tms & W & Hp & _ & E & PW).
  assert (R : reply_of Fusion ds = Some d).
  { eapply walk_reply; [exact W| |exact Hin]. rewrite Hp. apply plan_nodup. }
  unfold score in E, PW. rewrite R in E, PW. simpl score_of in E, PW. fold fd in E, PW.
  unfold success_content in E. injection E as ->.
  split; [reflexivity|]. split; [do 3 eexists; split; [reflexivity|exact PW]|].
  split; intros Hk Ht; apply get_absent in Hk; unfold fd; rewrite Hk; simpl Py.or at 2.
  - unfold Py.or. simpl. now rewrite Ht.
  - unfold Py.or. simpl. now rewrite Ht.
Qed.

Lemma score_of_two_names m d :
  two_names m = true ->
  score_of m d = Py.or (Py.get d (primary_field m)) (Py.get d (alternate_field m)).
Proof. destruct m; simpl; intros; try discriminate; reflexivity. Qed.

Lemma breakdown_entry m ds :
  two_names m = true ->
  match breakdown_of ds with
  | JObj bd => Py.get bd (breakdown_key m) = score m ds
  | _ => False
  end.
Proof. destruct m; simpl; intros; try discriminate; reflexivity. Qed.

(** C9.  In every run that succeeds, when a module whose score is read
    under two field names (face, voice, lip-sync, VSR) reports a falsy
    value -- [0], [0.0], [null], [false], an empty string, list or
    object -- under the first name, the breakdown of the response and of
    the proof holds the value of the second name instead, and [null]
    when the reply has no second name. *)
Theorem C9_falsy_score_is_replaced c m d :
  succeeded (fst run) c ->
  two_names m = true ->
  In (m, inr (JObj d)) (calls (trace (snd run))) ->
  Py.truthy (Py.get d (primary_field m)) = false ->
  exists bd,
    Py.get c "breakdown" = JObj bd /\
    Py.get bd (breakdown_key m) = Py.get d (alternate_field m) /\
    (Py.has_key d (alternate_field m) = false -> Py.get bd (breakdown_key m) = JNull) /\
    (exists file fd flags,
       Py.get c "proof_file" = JStr file /\
       proof_written (trace (snd run)) file fd (JObj bd) flags).
Proof.
  intros Hc Hm Hin Hfalsy.
  destruct (success_inv Hc) as (ds & fl & pid & file & tms & W & Hp & _ & E & PW).
  assert (R : reply_of m ds = Some d).
  { eapply walk_reply; [exact W| |exact Hin]. rewrite Hp. apply plan_nodup. }
  pose proof (breakdown_entry m ds Hm) as B.
  destruct (breakdown_of ds) as [| | | | | |bd] eqn:Ebd; try contradiction.
  unfold score in B. rewrite R, (score_of_two_names _ _ Hm), (or_falsy _ _ Hfalsy) in B.
  unfold success_content in E. injection E as ->.
  exists bd. split; [reflexivity|]. split; [exact B|].
  split; [intros Hk; rewrite B; now apply get_absent|].
  do 3 eexists. split; [reflexivity|exact PW].
Qed.


(** ** What the walk says about the calls *)

Lemma run_validated :
  trace (snd run) <> [] ->
  (policy_id req = "STRICT_STANDARD" \/ policy_id req = "STRICT_SILENT") /\
  enrollment_id_face req <> "".
Proof.
  intros H. unfold multimodal_verify, handler, bind in H.
  destruct (step_validate init_state) as [r1 s1] eqn:E1.
  destruct (@step_validate_spec _ _ _ E1) as (T1 & _ & _ & R1).
  destruct r1 as [[[t0 mode] fl0]|x|e]; [| |contradiction].
  - destruct R1 as (_ & [Hs|Hs] & _ & Hf & _); (split; [|exact Hf]);
      [left|right]; apply String.eqb_eq; exact Hs.
  - exfalso. apply H. cbn. exact T1.
Qed.

Lemma calls_need_validation :
  calls (trace (snd run)) <> [] ->
  (policy_id req = "STRICT_STANDARD" \/ policy_id req = "STRICT_SILENT") /\
  enrollment_id_face req <> "".
Proof.
  intros H. apply run_validated. intros E. apply H. rewrite E. reflexivity.
Qed.

Lemma before_the_last (A : Type) (l pre post : list A) (x y : A) :
  (l ++ [x])%list = (pre ++ y :: post)%list -> post <> [] -> In y l.
Proof.
  intros E Hp.
  assert (R : removelast (l ++ [x])%list = removelast (pre ++ y :: post)%list)
    by (now rewrite E).
  rewrite removelast_last in R.
  rewrite removelast_app in R by discriminate.
  rewrite R. apply in_or_app. right.
  destruct post; [congruence|]. left. reflexivity.
Qed.

Lemma in_prefix_of_plan (m : module_id) (ms rest : list module_id) b :
  plan b = (ms ++ rest)%list -> In m ms -> In m (plan b).
Proof. intros -> H. apply in_or_app. now left. Qed.

(** X17. The modules are called in the order of the plan -- Challenge, Face,
    then Voice and Lip-sync or VSR, then Fusion -- each at most once;
    VSR only under STRICT_SILENT, Voice and Lip-sync only under
    STRICT_STANDARD; and a module is called only when every call before
    it came back as a JSON object without error mark. *)
Theorem calls_follow_the_plan :
  let cs := calls (trace (snd run)) in
  (exists rest, plan standard = (map fst cs ++ rest)%list) /\
  NoDup (map fst cs) /\
  (In Vsr (map fst cs) -> policy_id req = "STRICT_SILENT") /\
  (In Voice (map fst cs) \/ In Lipsync (map fst cs) -> policy_id req = "STRICT_STANDARD") /\
  (forall pre m res post,
     cs = (pre ++ (m, res) :: post)%list -> post <> [] ->
     exists d, res = inr (JObj d) /\ Py.truthy (Py.get d "__http_error__") = false).
Proof.
  intros cs.
  destruct run_walked as (ds & v & W & (rest & Hplan) & _ & V). fold cs in W, Hplan.
  split; [eauto|].
  split.
  { pose proof (plan_nodup standard) as N. rewrite Hplan in N.
    now apply NoDup_app_remove_r in N. }
  assert (Hval : cs <> [] ->
                 policy_id req = "STRICT_STANDARD" \/ policy_id req = "STRICT_SILENT").
  { intros Hne. now apply calls_need_validation. }
  split; [|split].
  - intros Hin.
    assert (Hne : cs <> []) by (intros E; rewrite E in Hin; exact Hin).
    pose proof (@in_prefix_of_plan _ _ _ _ Hplan Hin) as Hp.
    destruct (Hval Hne) as [Hs|Hs]; [|exact Hs].
    exfalso. apply String.eqb_eq in Hs. fold standard in Hs. rewrite Hs in Hp.
    simpl in Hp. intuition discriminate.
  - intros Hin.
    assert (Hne : cs <> []) by (intros E; rewrite E in Hin; destruct Hin as [[]|[]]).
    assert (Hp : In Voice (plan standard) \/ In Lipsync (plan standard)).
    { destruct Hin as [Hin|Hin]; [left|right]; exact (@in_prefix_of_plan _ _ _ _ Hplan Hin). }
    destruct (Hval Hne) as [Hs|Hs]; [exact Hs|].
    exfalso. pose proof (@silent_not_standard Hs) as Hn. rewrite Hn in Hp.
    simpl in Hp. intuition discriminate.
  - intros pre m res post E Hpost.
    assert (Hin : In (m, res) (map (fun md => (fst md, inr (JObj (snd md)))) ds) /\
                  Forall (fun md => Py.truthy (Py.get (snd md) "__http_error__") = false) ds).
    { destruct v as [fl|o].
      - destruct (@Walk_through _ _ _ _ W) as (Hcs & F & _).
        split; [|exact F]. rewrite <- Hcs, E. apply in_or_app. right. left. reflexivity.
      - destruct (@Walk_stopped _ _ _ _ W) as (m' & res' & fl1 & Hcs & _).
        split.
        + rewrite E in Hcs. symmetry in Hcs. exact (@before_the_last _ _ _ _ _ _ Hcs Hpost).
        + clear - W. remember (inr o) as v eqn:Ev. revert o Ev.
          induction W as [fl|fl m res d fl1 cs ds v J W IH|fl m res o' J]; intros o Ev.
          * constructor.
          * constructor; [|eapply IH; eassumption].
            apply judge_continue in J. tauto.
          * constructor. }
    destruct Hin as (Hin & F).
    apply in_map_iff in Hin. destruct Hin as ([m' d] & [= <- <-] & Hd).
    exists d. split; [reflexivity|].
    rewrite Forall_forall in F. exact (F _ Hd).
Qed.

Lemma reply_of_absent m ds : ~ In m (map fst ds) -> reply_of m ds = None.
Proof.
  induction ds as [|[m' d] ds IH]; simpl; [reflexivity|].
  intros H. assert (m' <> m) by tauto. assert (~ In m (map fst ds)) by tauto.
  destruct m, m'; try congruence; now apply IH.
Qed.

(** X18. A run that succeeds has called every module of the plan of its
    policy, once and in order -- five calls under STRICT_STANDARD, four
    under STRICT_SILENT -- and every one of them came back as a JSON
    object without error mark. *)
Theorem success_takes_the_whole_plan c :
  succeeded (fst run) c ->
  let cs := calls (trace (snd run)) in
  map fst cs = plan standard /\
  (policy_id req = "STRICT_STANDARD" ->
   map fst cs = [Challenge; Face; Voice; Lipsync; Fusion]) /\
  (policy_id req = "STRICT_SILENT" -> map fst cs = [Challenge; Face; Vsr; Fusion]) /\
  (policy_id req = "STRICT_STANDARD" \/ policy_id req = "STRICT_SILENT") /\
  forall m res, In (m, res) cs ->
    exists d, res = inr (JObj d) /\ Py.truthy (Py.get d "__http_error__") = false.
Proof.
  intros Hc cs.
  destruct (@success_inv c Hc) as (ds & fl & pid & file & tms & W & Hp & _).
  destruct (@Walk_through _ _ _ _ W) as (Hcs & F & _). fold cs in Hcs.
  assert (Hm : map fst cs = plan standard).
  { rewrite Hcs, map_map. simpl. rewrite <- Hp. apply map_ext. reflexivity. }
  split; [exact Hm|].
  split; [intros Hs; apply String.eqb_eq in Hs; fold standard in Hs;
          rewrite Hm, Hs; reflexivity|].
  split; [intros Hs; rewrite Hm, (@silent_not_standard Hs); reflexivity|].
  split.
  { apply calls_need_validation. fold cs. intros E. rewrite E in Hm.
    destruct standard; discriminate Hm. }
  intros m res Hin. rewrite Hcs in Hin.
  apply in_map_iff in Hin. destruct Hin as ([m' d] & [= <- <-] & Hd).
  exists d. split; [reflexivity|].
  rewrite Forall_forall in F. exact (F _ Hd).
Qed.

(** X19. In the breakdown of a success response, and of the proof written
    with it, the scores of the modules the policy does not call are
    null: [voice_score] and [lipsync_score] under STRICT_SILENT,
    [vsr_score] under STRICT_STANDARD. *)
Theorem scores_of_uncalled_modules_are_null c :
  succeeded (fst run) c ->
  exists bd file fd flags,
    Py.get c "breakdown" = JObj bd /\
    Py.get c "proof_file" = JStr file /\
    proof_written (trace (snd run)) file fd (JObj bd) flags /\
    (policy_id req = "STRICT_SILENT" ->
     Py.get bd "voice_score" = JNull /\ Py.get bd "lipsync_score" = JNull) /\
    (policy_id req = "STRICT_STANDARD" -> Py.get bd "vsr_score" = JNull).
Proof.
  intros Hc.
  destruct (@success_inv c Hc) as (ds & fl & pid & file & tms & W & Hp & _ & E & PW).
  unfold success_content in E. injection E as ->.
  unfold breakdown_of, breakdown in PW |- *.
  do 4 eexists. split; [reflexivity|]. split; [reflexivity|]. split; [exact PW|].
  split.
  - intros Hs. rewrite (@silent_not_standard Hs) in Hp. cbn.
    unfold score. rewrite !reply_of_absent; [split; reflexivity| |];
      rewrite Hp; simpl; intuition discriminate.
  - intros Hs. apply String.eqb_eq in Hs. fold standard in Hs. rewrite Hs in Hp. cbn.
    unfold score. rewrite reply_of_absent; [reflexivity|].
    rewrite Hp; simpl; intuition discriminate.
Qed.

Lemma stopper_ends_the_run m res o :
  In (m, res) (calls (trace (snd run))) ->
  (forall fl, judge m res fl = Stop o) ->
  fst run = o /\ exists pre, calls (trace (snd run)) = (pre ++ [(m, res)])%list.
Proof.
  intros Hin Hstop.
  destruct run_walked as (ds & v & W & _ & _ & V).
  destruct (@Walk_stopper _ _ _ _ _ _ _ W Hin Hstop) as (-> & Hpre).
  split; [exact V|exact Hpre].
Qed.

(** X20. A module reply that is JSON but not an object -- an array, a string,
    a number, [null] -- makes the handler raise [AttributeError]; the
    call is the last one of the run and no response is built. *)
Theorem reply_that_is_no_object_raises m j :
  In (m, inr j) (calls (trace (snd run))) ->
  (forall d, j <> JObj d) ->
  fst run = Failed AttributeError /\
  exists pre, calls (trace (snd run)) = (pre ++ [(m, inr j)])%list.
Proof.
  intros Hin Hno. apply stopper_ends_the_run; [exact Hin|].
  intros fl. destruct j; try reflexivity. exfalso. eapply Hno. reflexivity.
Qed.

Lemma extend_none fl x : extend [] x = None -> extend fl x = None.
Proof. destruct x; simpl; congruence. Qed.

(** X21. A module that reports its flags as a value that cannot be iterated
    -- a non-zero number, [true] -- makes the handler raise [TypeError];
    the call is the last one of the run. *)
Theorem flags_that_are_no_collection_raise m d :
  In (m, inr (JObj d)) (calls (trace (snd run))) ->
  Py.truthy (Py.get d "__http_error__") = false ->
  extend [] (reported_flags m d) = None ->
  fst run = Failed TypeError /\
  exists pre, calls (trace (snd run)) = (pre ++ [(m, inr (JObj d))])%list.
Proof.
  intros Hin Hok Hx. apply stopper_ends_the_run; [exact Hin|].
  intros fl. unfold judge. rewrite Hok, (@extend_none fl _ Hx). reflexivity.
Qed.

Lemma ends_with_last (A : Type) (x : A) (p ms rest : list A) :
  ~ In x p -> (p ++ [x])%list = (ms ++ rest)%list -> In x ms ->
  rest = [] /\ ms = (p ++ [x])%list.
Proof.
  revert ms. induction p as [|a p IH]; intros ms Hn E Hin.
  - destruct ms as [|b ms]; [destruct Hin|].
    simpl in E. injection E as <- E. symmetry in E.
    apply app_eq_nil in E. destruct E as (-> & ->). split; reflexivity.
  - destruct ms as [|b ms]; [destruct Hin|].
    simpl in E. injection E as <- E.
    destruct Hin as [->|Hin]; [exfalso; apply Hn; left; reflexivity|].
    destruct (IH ms) as (-> & ->); auto.
    intros H. apply Hn. right. exact H.
Qed.

Lemma last_of_plan (ms rest : list module_id) b :
  plan b = (ms ++ rest)%list -> In Fusion ms ->
  rest = [] /\ exists pre, ms = (pre ++ [Fusion])%list.
Proof.
  intros E Hin.
  destruct b; simpl in E.
  - destruct (@ends_with_last _ Fusion [Challenge; Face; Voice; Lipsync] ms rest)
      as (-> & ->); [simpl; intuition discriminate|exact E|exact Hin|].
    split; [reflexivity|eauto].
  - destruct (@ends_with_last _ Fusion [Challenge; Face; Vsr] ms rest)
      as (-> & ->); [simpl; intuition discriminate|exact E|exact Hin|].
    split; [reflexivity|eauto].
Qed.

(** X22. Flags must be hashable.  When every module has answered, Fusion
    included, and one of the flags gathered is a list or an object, the
    deduplication raises [TypeError]: no response is built, although no
    module reported an error. *)
Theorem unhashable_flag_raises d x :
  In (Fusion, inr (JObj d)) (calls (trace (snd run))) ->
  Py.truthy (Py.get d "__http_error__") = false ->
  In x (initial_flags ++ appended (calls (trace (snd run))))%list ->
  Py.hashable x = false ->
  fst run = Failed TypeError.
Proof.
  intros Hin Hok Hx Hh.
  destruct run_walked as (ds & v & W & (rest & Hplan) & _ & V).
  destruct v as [fl|o].
  - destruct V as [(E & _)|(_ & C)]; [rewrite E in Hin; destruct Hin|].
    destruct (@Walk_through _ _ _ _ W) as (_ & _ & ->).
    unfold completed in C.
    destruct (forallb Py.hashable _) eqn:A; [|exact C].
    rewrite forallb_forall in A. rewrite (A _ Hx) in Hh. discriminate Hh.
  - rewrite V.
    destruct (@Walk_stopped _ _ _ _ W) as (m & res & fl1 & Hcs & J).
    assert (Hf : In Fusion (map fst (calls (trace (snd run))))).
    { change Fusion with (fst (Fusion, @inr exn json (JObj d))). now apply in_map. }
    destruct (@last_of_plan _ _ _ Hplan Hf) as (_ & pre & Hpre).
    rewrite Hcs, map_app in Hpre. simpl in Hpre.
    apply app_inj_tail in Hpre. destruct Hpre as (Hpre & ->).
    assert (Hres : res = inr (JObj d)).
    { pose proof (plan_nodup standard) as N. rewrite Hplan in N.
      apply NoDup_app_remove_r in N. rewrite Hcs in Hin, N.
      apply in_app_or in Hin. destruct Hin as [Hin|[Hin|[]]]; [|congruence].
      exfalso. rewrite map_app in N. simpl in N.
      apply NoDup_remove_2 in N. apply N. rewrite app_nil_r.
      change Fusion with (fst (Fusion, @inr exn json (JObj d))). now apply in_map. }
    subst res. unfold judge in J. rewrite Hok in J.
    destruct (extend fl1 _); [discriminate J|]. congruence.
Qed.

(** ** More rejections before the first call *)

(** X13. A request with a supported policy that lacks a required field is
    answered 400 MISSING_FIELD before anything is read or written: the
    face enrollment whatever the policy; under STRICT_STANDARD also the
    voice enrollment (absent or empty) and the audio clip, checked in
    this order.  The log is empty, no file exists and no identifier was
    drawn. *)
Theorem missing_field_rejected_before_io :
  policy_id req = "STRICT_STANDARD" \/ policy_id req = "STRICT_SILENT" ->
  let untouched :=
    trace (snd run) = [] /\ files (snd run) = [] /\ draws (snd run) = 0%nat in
  (enrollment_id_face req = "" ->
   fst run = Responded (_err (JInt 400) "MISSING_FIELD"
                             "enrollment_id_face required" JNull) /\ untouched) /\
  (enrollment_id_face req <> "" ->
   policy_id req = "STRICT_STANDARD" ->
   enrollment_id_voice req = None \/ enrollment_id_voice req = Some "" ->
   fst run = Responded (_err (JInt 400) "MISSING_FIELD"
                             "enrollment_id_voice required for STRICT_STANDARD" JNull) /\
   untouched) /\
  (enrollment_id_face req <> "" ->
   policy_id req = "STRICT_STANDARD" ->
   (exists v, enrollment_id_voice req = Some v /\ v <> "") ->
   clip_audio req = None ->
   fst run = Responded (_err (JInt 400) "MISSING_FIELD"
                             "clip_audio required for STRICT_STANDARD" JNull) /\
   untouched).
Proof.
  intros Hpol untouched. subst untouched.
  assert (Hmode : exists mode, _policy_to_mode (policy_id req) = inr mode).
  { unfold _policy_to_mode. destruct Hpol as [->| ->]; cbn; eauto. }
  destruct Hmode as (mode & Hmode).
  split; [|split].
  - intros Hf.
    unfold multimodal_verify, handler, bind, step_validate, bind, time_time.
    cbn. rewrite Hmode, Hf. cbn. repeat split.
  - intros Hf Hs Hv. apply String.eqb_neq in Hf.
    assert (Hvo : String.eqb (str_or (enrollment_id_voice req) "") "" = true)
      by (destruct Hv as [-> | ->]; reflexivity).
    unfold multimodal_verify, handler, bind, step_validate, bind, time_time, is_standard.
    cbn. rewrite Hmode, Hf, Hs, Hvo. cbn. repeat split.
  - intros Hf Hs (v & Hv & Hne) Ha. apply String.eqb_neq in Hf.
    assert (Hvo : String.eqb (str_or (enrollment_id_voice req) "") "" = false).
    { rewrite Hv. unfold str_or. apply String.eqb_neq in Hne. rewrite Hne. exact Hne. }
    unfold multimodal_verify, handler, bind, step_validate, bind, time_time, is_standard.
    cbn. rewrite Hmode, Hf, Hs, Hvo, Ha. cbn. repeat split.
Qed.

(** X14. A STRICT_STANDARD request that passes validation, whose video clip
    is within its ceiling and whose audio clip is larger than
    [MAX_AUDIO_MB] megabytes, is answered 413 AUDIO_TOO_LARGE.  Both
    uploads have been read, the video first; no module is called, no
    session directory is made and no file is written. *)
Theorem audio_too_large ca :
  policy_id req = "STRICT_STANDARD" ->
  enrollment_id_face req <> "" ->
  str_or (enrollment_id_voice req) "" <> "" ->
  clip_audio req = Some ca ->
  Z.of_nat (List.length (content (clip_video req))) <= MAX_VIDEO_MB cfg * 1024 * 1024 ->
  Z.of_nat (List.length (content ca)) > MAX_AUDIO_MB cfg * 1024 * 1024 ->
  fst run = Responded (_err (JInt 413) "AUDIO_TOO_LARGE"
                         ("clip_audio exceeds " ++ Py.str_of_int (MAX_AUDIO_MB cfg) ++ "MB")
                         JNull) /\
  trace (snd run) = [EvReadUpload ClipVideo; EvReadUpload ClipAudio] /\
  files (snd run) = [] /\
  draws (snd run) = 0%nat.
Proof.
  intros Hs Hf Hv Ha Hsmall Hbig.
  assert (Hm : _policy_to_mode (policy_id req) = inr "SPOKEN") by (now rewrite Hs).
  destruct (@step_validate_passes "SPOKEN" init_state Hm Hf) as (t0 & s1 & E1 & T1 & F1 & D1).
  { intros _. split; [exact Hv|congruence]. }
  unfold multimodal_verify, handler, bind. rewrite E1.
  unfold step_read, bind, read_upload, is_standard. cbn.
  assert (Hsm : (Z.of_nat (List.length (content (clip_video req))) >?
                 MAX_VIDEO_MB cfg * 1024 * 1024) = false).
  { rewrite Z.gtb_ltb. apply Z.ltb_ge. exact Hsmall. }
  rewrite Hsm, Ha, Hs. cbn.
  apply Z.gtb_gt in Hbig. rewrite Hbig. cbn.
  rewrite T1, F1, D1. repeat split.
Qed.

(** ** The log of a run, step by step *)

Local Abbreviation expected := (expected cfg w).
Local Abbreviation sid := (the_session_id w).
Local Abbreviation dir := (the_session_dir cfg w).
Local Abbreviation the_session := (the_session cfg w).

Lemma hoare_bind A B (P : event -> Prop) pre (m : M A) mid (k : A -> M B) post :
  hoare P pre m mid -> (forall a, hoare P (mid a) (k a) post) ->
  hoare P pre (bind m k) post.
Proof.
  intros Hm Hk s r s' Hpre H. unfold bind in H.
  destruct (m s) as [r1 s1] eqn:E1.
  destruct (Hm _ _ _ Hpre E1) as ((evs1 & T1 & F1) & R1).
  destruct r1 as [a|x|e].
  - destruct (Hk a _ _ _ R1 H) as ((evs2 & T2 & F2) & R2).
    split; [|exact R2]. exists (evs1 ++ evs2)%list.
    rewrite T2, T1, app_assoc. split; [reflexivity|]. apply Forall_app. auto.
  - inversion H; subst. split; [eauto|exact R1].
  - inversion H; subst. split; [eauto|exact I].
Qed.

Lemma hoare_pre A (P : event -> Prop) (pre pre' : state -> Prop) (m : M A) post :
  (forall s, pre' s -> pre s) -> hoare P pre m post -> hoare P pre' m post.
Proof. intros Hp Hm s r s' Hpre H. exact (Hm _ _ _ (Hp _ Hpre) H). Qed.

Lemma hoare_post A (P : event -> Prop) pre (m : M A) (post post' : A -> state -> Prop) :
  (forall a s, post a s -> post' a s) -> hoare P pre m post -> hoare P pre m post'.
Proof.
  intros Hp Hm s r s' Hpre H. destruct (Hm _ _ _ Hpre H) as (T & R).
  split; [exact T|]. destruct r; auto.
Qed.

Lemma hoare_pure A (P : event -> Prop) (pre : state -> Prop) (m : M A) post (Q : Prop) :
  (forall s, pre s -> Q) -> (Q -> hoare P pre m post) -> hoare P pre m post.
Proof. intros HQ Hm s r s' Hpre H. exact (Hm (HQ _ Hpre) _ _ _ Hpre H). Qed.

Lemma hoare_ret A (P : event -> Prop) (pre : state -> Prop) (a : A) :
  hoare P pre (ret a) (fun b s => b = a /\ pre s).
Proof.
  intros s r s' Hpre [= <- <-]. split; [|auto].
  exists []. rewrite app_nil_r. split; [reflexivity|constructor].
Qed.

Lemma get_set_other d k v k' :
  String.eqb k k' = false -> Py.get (Py.set d k v) k' = Py.get d k'.
Proof.
  intros Hk. induction d as [|[k0 v0] d IH]; simpl.
  - now rewrite Hk.
  - destruct (String.eqb k0 k) eqn:E; simpl.
    + apply String.eqb_eq in E. subst k0. now rewrite Hk.
    + now rewrite IH.
Qed.

Lemma kept_stable ses vb ab s s' :
  files s' = files s -> draws s' = draws s -> kept ses vb ab s -> kept ses vb ab s'.
Proof. unfold kept. intros -> ->. exact (fun H => H). Qed.

(** *** Validation and reading *)

Lemma step_validate_hoare :
  hoare expected (fun s => draws s = 0%nat) step_validate
        (fun _ s => draws s = 0%nat).
Proof.
  intros s r s' Hpre H.
  destruct (@step_validate_spec _ _ _ H) as (T & _ & D & R).
  split.
  - exists []. rewrite app_nil_r. split; [exact T|constructor].
  - destruct r as [[[t0 mode] fl]|x|e]; [congruence| |exact I].
    destruct R as (st & code & msg & _ & -> & _). eauto.
Qed.

Lemma step_read_hoare :
  (standard = true -> clip_audio req <> None) ->
  hoare expected (fun s => draws s = 0%nat) step_read
        (fun '(vb, ab) s =>
           draws s = 0%nat /\ vb = content (clip_video req) /\
           (forall b, ab = Some b ->
              exists ca, clip_audio req = Some ca /\ standard = true /\ b = content ca) /\
           (standard = true -> ab <> None)).
Proof.
  intros Haud s r s' Hpre H.
  unfold step_read, bind, read_upload, ret, done in H. fold standard in H. cbn in H.
  destruct (_ >? _).
  { inversion H; subst. split; [|eauto].
    eexists. split; [reflexivity|repeat constructor]. }
  destruct (clip_audio req) as [ca|] eqn:Hca; cbn in H.
  - destruct standard eqn:Hs; cbn in H.
    + destruct (_ >? _); inversion H; subst; cbn.
      * split; [|eauto]. rewrite <- app_assoc.
        eexists. split; [reflexivity|repeat constructor].
      * split.
        -- rewrite <- app_assoc. eexists. split; [reflexivity|repeat constructor].
        -- repeat split; auto; [intros b [= <-]; eauto|discriminate].
    + inversion H; subst; cbn. split.
      * eexists. split; [reflexivity|repeat constructor].
      * repeat split; auto; discriminate.
  - inversion H; subst; cbn. split.
    + eexists. split; [reflexivity|repeat constructor].
    + repeat split; auto; [discriminate|].
      intros Hs E. now apply (Haud Hs).
Qed.

(** *** Persistence *)

Lemma eqb_common_prefix a b c : String.eqb (a ++ b) (a ++ c) = String.eqb b c.
Proof.
  induction a as [|x a IH]; simpl; [reflexivity|].
  now rewrite Ascii.eqb_refl.
Qed.

Lemma metadata_is_no_clip d nm :
  String.eqb (d ++ "/metadata.json") (path_str {| parent := d; name := String "c" nm |})
  = false.
Proof. unfold path_str. cbn. rewrite eqb_common_prefix. reflexivity. Qed.

Lemma audio_is_no_video d e e' :
  String.eqb
    (path_str {| parent := d;
                 name := String "c" (String "l" (String "i" (String "p" (String "_"
                           (String "a" e))))) |})
    (path_str {| parent := d;
                 name := String "c" (String "l" (String "i" (String "p" (String "_"
                           (String "v" e'))))) |}) = false.
Proof. unfold path_str. cbn. rewrite eqb_common_prefix. reflexivity. Qed.

Lemma step_persist_hoare mode vb ab :
  hoare expected (fun s => draws s = 0%nat) (step_persist mode vb ab)
        (fun ses s =>
           exists ext aext,
             ses = the_session ext aext /\ kept ses vb ab s /\
             (aext <> None -> standard = true) /\
             (forall b, ab = Some b -> standard = true -> aext <> None)).
Proof.
  intros s r s' Hpre H.
  unfold step_persist, bind, _new_session_id, _now_utc_iso, uuid4, mkdir, write_bytes,
    write_text, time_time, ret, bind in H.
  fold standard in H. cbn in H. rewrite Hpre in H.
  destruct ab as [b|]; cbn in H.
  - destruct standard eqn:Hs; cbn in H; injection H as <- <-.
    + split.
      * cbn. rewrite <- !app_assoc. eexists. split; [reflexivity|].
        repeat constructor; cbn; unfold clip_path, path_str; cbn; eauto.
      * eexists _, (Some _). split; [reflexivity|].
        split; [|split; [reflexivity|discriminate]].
        unfold kept, store, log. cbn. split; [reflexivity|].
        unfold lookup_file.
        rewrite !metadata_is_no_clip, audio_is_no_video, !String.eqb_refl. eauto.
    + split.
      * cbn. rewrite <- !app_assoc. eexists. split; [reflexivity|].
        repeat constructor; cbn; unfold clip_path, path_str; cbn; eauto.
      * eexists _, None. split; [reflexivity|].
        split; [|split; [congruence|intros; congruence]].
        unfold kept, store, log. cbn. split; [reflexivity|].
        unfold lookup_file.
        rewrite !metadata_is_no_clip, !String.eqb_refl. auto.
  - injection H as <- <-. split.
    + cbn. rewrite <- !app_assoc. eexists. split; [reflexivity|].
      repeat constructor; cbn; unfold clip_path, path_str; cbn; eauto.
    + eexists _, None. split; [reflexivity|].
      split; [|split; [congruence|intros; congruence]].
      unfold kept, store, log. cbn. split; [reflexivity|].
      unfold lookup_file.
      rewrite !metadata_is_no_clip, !String.eqb_refl. auto.
Qed.

(** *** The module steps *)

Ltac split_run H :=
  repeat match type of H with
  | context [match ?x with _ => _ end] =>
      match x with
      | extend _ _ => destruct x eqn:?
      | forallb _ _ => destruct x eqn:?
      | Py.truthy _ => destruct x eqn:?
      | Py.or _ _ => destruct x eqn:?
      | _post_multipart _ _ _ => destruct x as [?e|[]] eqn:?
      | _post_json _ _ _ => destruct x as [?e|[]] eqn:?
      end; cbn in H
  end.

Ltac one_call Hh :=
  first
    [ eexists; split; [reflexivity|];
      constructor; [|constructor];
      cbn; split; [reflexivity|]; split; [exact Hh|];
      unfold post_result; symmetry; eassumption
    | exists []; rewrite app_nil_r; split; [reflexivity|constructor] ].

Ltac module_step Hh Hst Hpre H :=
  unfold bind, time_time, post_multipart, post_json, lift, dict_of, iadd, ret, done,
    raise in H;
  cbn in H; split_run H; injection H as <- <-;
  (split; [one_call Hh|]);
  try exact I; try (do 4 eexists; reflexivity);
  (split; [eapply Hst; [| |exact Hpre]; reflexivity|]).

Section Steps.

Variable ses : session.
Variable I : state -> Prop.
Hypothesis Hh : headers_of ses = [("X-Veritas-Session", sid)].
Hypothesis Hst : forall s s', files s' = files s -> draws s' = draws s -> I s -> I s'.

Lemma step_face_hoare vb fl tm :
  hoare expected I (step_face ses vb fl tm)
        (fun '(_, _, tm') s' => I s' /\ Py.get tm' "total" = Py.get tm "total").
Proof.
  intros s r s' Hpre H. unfold step_face in H.
  module_step Hh Hst Hpre H.
  all: now apply get_set_other.
Qed.

Lemma step_vsr_hoare vb fl tm :
  hoare expected I (step_vsr ses vb fl tm)
        (fun '(_, _, tm') s' => I s' /\ Py.get tm' "total" = Py.get tm "total").
Proof.
  intros s r s' Hpre H. unfold step_vsr in H.
  destruct (is_silent req).
  - module_step Hh Hst Hpre H.
    all: now apply get_set_other.
  - module_step Hh Hst Hpre H. reflexivity.
Qed.

Lemma step_voice_hoare ap ab fl tm :
  hoare expected I (step_voice ses ap ab fl tm)
        (fun '(_, _, tm') s' => I s' /\ Py.get tm' "total" = Py.get tm "total").
Proof.
  intros s r s' Hpre H. unfold step_voice, audio_part in H.
  destruct (clip_audio req).
  - module_step Hh Hst Hpre H.
    all: now apply get_set_other.
  - module_step Hh Hst Hpre H.
Qed.

Lemma step_lipsync_hoare vb ap ab fl tm :
  hoare expected I (step_lipsync ses vb ap ab fl tm)
        (fun '(_, _, tm') s' => I s' /\ Py.get tm' "total" = Py.get tm "total").
Proof.
  intros s r s' Hpre H. unfold step_lipsync, audio_part in H.
  destruct (clip_audio req).
  - module_step Hh Hst Hpre H.
    all: now apply get_set_other.
  - module_step Hh Hst Hpre H.
Qed.

Lemma step_challenge_hoare mode vb ab fl tm :
  hoare expected I (step_challenge mode ses vb ab fl tm)
        (fun '(_, _, _, tm') s' => I s' /\ Py.get tm' "total" = Py.get tm "total").
Proof.
  intros s r s' Hpre H. unfold step_challenge, audio_part in H.
  destruct ab as [b|], (audio_path ses) as [ap|], (is_standard req), (clip_audio req);
    module_step Hh Hst Hpre H.
  all: now apply get_set_other.
Qed.

Lemma step_voice_lipsync_hoare vb ab fl tm :
  hoare expected I (step_voice_lipsync ses vb ab fl tm)
        (fun '(_, _, _, tm') s' => I s' /\ Py.get tm' "total" = Py.get tm "total").
Proof.
  unfold step_voice_lipsync.
  destruct ab as [b|], (audio_path ses) as [ap|], (is_standard req);
    try (intros s r s' Hpre [= <- <-]; split;
         [exists []; rewrite app_nil_r; split; [reflexivity|constructor]|auto]).
  eapply hoare_bind; [apply step_voice_hoare|].
  intros [[vs fl1] tm1]. cbn.
  apply hoare_pure with (Q := Py.get tm1 "total" = Py.get tm "total"); [tauto|].
  intros Htm.
  eapply hoare_bind.
  { eapply hoare_pre; [|apply step_lipsync_hoare]. cbn. tauto. }
  intros [[ls fl2] tm2]. cbn.
  intros s r s' (Hpre & Htm2) [= <- <-]. split.
  - exists []. rewrite app_nil_r. split; [reflexivity|constructor].
  - split; [exact Hpre|congruence].
Qed.

Lemma step_fusion_hoare cs cd fs vs ls ss fl tm :
  hoare expected I (step_fusion ses cs cd fs vs ls ss fl tm)
        (fun '(_, _, tm') s' =>
           I s' /\ Py.get tm' "total" = Py.get tm "total" /\
           exists rq,
             In (EvPost Fusion rq (post_result Fusion rq)) (trace s') /\
             carries_scores req rq cs cd fs vs ls ss).
Proof.
  intros s r s' Hpre H. unfold step_fusion, unique_first_20 in H.
  module_step Hh Hst Hpre H.
  split; [now apply get_set_other|].
  eexists. split.
  - cbn. apply in_or_app. right. left. f_equal. unfold post_result. symmetry. eassumption.
  - eexists. cbn. repeat split.
Qed.

End Steps.

(** *** The proof, and the whole handler *)

Ltac expect :=
  cbn; unfold clip_path, path_str; cbn;
  first [ exact I | reflexivity
        | eexists; left; reflexivity | eexists; right; reflexivity
        | left; reflexivity | right; left; reflexivity | right; right; reflexivity
        | left; eexists; left; reflexivity | left; eexists; right; reflexivity
        | right; reflexivity ].

Local Abbreviation pid := (the_proof_id w).
Local Abbreviation proof_file := (the_proof_file cfg w).
Local Abbreviation recorded := (@recorded json_dumps encode_utf8 HL cfg w req).

Lemma step_proof_hoare t0 mode ext aext vb ab fd bd flags tm rq :
  hoare expected
        (fun s => kept (the_session ext aext) vb ab s /\
                  In (EvPost Fusion rq (post_result Fusion rq)) (trace s))
        (step_proof t0 mode (the_session ext aext) fd bd flags tm)
        (fun x s' =>
           exists now t sha_audio,
             let po := proof_obj cfg req pid now mode (the_session ext aext) fd bd flags
                                 (_sha256_file vb) sha_audio tm in
             x = JSONResponse (JInt 200)
                   (success_content fd bd pid proof_file flags
                                    (Py.set tm "total" (JInt t))) /\
             match aext with
             | Some _ => exists b, ab = Some b /\ sha_audio = JStr (_sha256_file b)
             | None => sha_audio = JNull
             end /\
             In (EvPost Fusion rq (post_result Fusion rq)) (trace s') /\
             In (EvWriteText proof_file (json_dumps po)) (trace s') /\
             In (EvWriteText (dir ++ "/sha256.json")
                   (json_dumps
                      (JObj [ ("clip_video_sha256", JStr (_sha256_file vb));
                              ("clip_audio_sha256", sha_audio);
                              ("proof_sha256",
                               JStr (_sha256_file (encode_utf8 (json_dumps po)))) ])))
                (trace s')).
Proof.
  intros s r s' ((D & V & A) & Hin) H.
  unfold step_proof, bind, _new_proof_id, _now_utc_iso, uuid4, sha256_file, write_text,
    time_time, ret, bind in H.
  cbn in H. cbn in V. rewrite V in H. cbn in H. rewrite D in H.
  destruct aext as [e|]; cbn in H, A.
  - destruct A as (b & -> & A). rewrite A in H. cbn in H.
    rewrite lookup_file_here in H. cbn in H.
    injection H as <- <-. split.
    + cbn. rewrite <- !app_assoc. eexists. split; [reflexivity|].
      repeat (apply Forall_cons; [expect|]); apply Forall_nil.
    + do 3 eexists. split; [reflexivity|]. split; [eauto|].
      cbn. rewrite <- !app_assoc.
      split; [apply in_or_app; left; exact Hin|].
      split; apply in_or_app; right; cbn; [do 2 right; left|do 4 right; left]; reflexivity.
  - rewrite lookup_file_here in H. cbn in H.
    injection H as <- <-. split.
    + cbn. rewrite <- !app_assoc. eexists. split; [reflexivity|].
      repeat (apply Forall_cons; [expect|]); apply Forall_nil.
    + do 3 eexists. split; [reflexivity|]. split; [reflexivity|].
      cbn. rewrite <- !app_assoc.
      split; [apply in_or_app; left; exact Hin|].
      split; apply in_or_app; right; cbn; [right; left|do 3 right; left]; reflexivity.
Qed.

Lemma hoare_step A B (P : event -> Prop) (I : state -> Prop) (Q : A -> Prop)
      (m : M A) (k : A -> M B) post :
  hoare P I m (fun a s => I s /\ Q a) ->
  (forall a, Q a -> hoare P I (k a) post) ->
  hoare P I (bind m k) post.
Proof.
  intros Hm Hk. eapply hoare_bind; [exact Hm|].
  intros a. apply hoare_pure with (Q := Q a); [tauto|].
  intros Ha. eapply hoare_pre; [|exact (Hk a Ha)]. cbn. tauto.
Qed.

(** The handler from the Face call on. *)
Lemma rest_hoare t0 mode ext aext ab cs cd fl1 tm1 :
  _policy_to_mode (policy_id req) = inr mode ->
  Py.get tm1 "total" = JInt 0 ->
  (forall b, ab = Some b ->
     exists ca, clip_audio req = Some ca /\ standard = true /\ b = content ca) ->
  (aext = None -> standard = false) ->
  hoare expected (kept (the_session ext aext) (content (clip_video req)) ab)
    ('(face_score, flags_summary, timings) <-
       step_face (the_session ext aext) (content (clip_video req)) fl1 tm1 ;;
     '(voice_score, lipsync_score, flags_summary, timings) <-
       step_voice_lipsync (the_session ext aext) (content (clip_video req)) ab
                          flags_summary timings ;;
     '(vsr_score, flags_summary, timings) <-
       step_vsr (the_session ext aext) (content (clip_video req)) flags_summary timings ;;
     '(final_decision, flags_summary, timings) <-
       step_fusion (the_session ext aext) cs cd face_score voice_score
                   lipsync_score vsr_score flags_summary timings ;;
     step_proof t0 mode (the_session ext aext) final_decision
                (breakdown voice_score face_score lipsync_score cs vsr_score)
                flags_summary timings)
    (fun x s' => recorded x (trace s')).
Proof.
  intros Hmode Htm1 Hab Hnone.
  set (vb := content (clip_video req)).
  pose proof (fun s s' => @kept_stable (the_session ext aext) vb ab s s') as Hst.
  assert (Hh : headers_of (the_session ext aext) = [("X-Veritas-Session", sid)])
    by reflexivity.
  apply hoare_step
    with (Q := fun '(_, _, tm') => Py.get tm' "total" = JInt 0).
  { eapply hoare_post; [|exact (@step_face_hoare _ _ Hh Hst vb fl1 tm1)].
    intros [[fs fl2] tm2] s. cbn. rewrite Htm1. tauto. }
  intros [[fs fl2] tm2] Htm2.
  apply hoare_step
    with (Q := fun '(_, _, _, tm') => Py.get tm' "total" = JInt 0).
  { eapply hoare_post; [|exact (@step_voice_lipsync_hoare _ _ Hh Hst vb ab fl2 tm2)].
    intros [[[vs ls] fl3] tm3] s. cbn. rewrite Htm2. tauto. }
  intros [[[vs ls] fl3] tm3] Htm3.
  apply hoare_step
    with (Q := fun '(_, _, tm') => Py.get tm' "total" = JInt 0).
  { eapply hoare_post; [|exact (@step_vsr_hoare _ _ Hh Hst vb fl3 tm3)].
    intros [[ss fl4] tm4] s. cbn. rewrite Htm3. tauto. }
  intros [[ss fl4] tm4] Htm4.
  eapply hoare_bind; [exact (@step_fusion_hoare _ _ Hh Hst cs cd fs vs ls ss fl4 tm4)|].
  intros [[fd flags] tm5]. cbn.
  intros s r s' (K & Htm5 & rq & Hin & Hc) H.
  destruct (@step_proof_hoare t0 mode ext aext vb ab fd (breakdown vs fs ls cs ss) flags tm5
              rq s r s' (conj K Hin) H) as (T & R).
  split; [exact T|].
  destruct r as [x|x|e]; [|exact R..].
  destruct R as (now & t & sha_audio & -> & Ha & Hf & Hp & Hs).
  exists mode, now, fd, cs, cd, fs, vs, ls, ss, flags, tm5, t, ext, aext, sha_audio, rq.
  cbn. repeat split; auto.
  - congruence.
  - destruct aext as [e|].
    + destruct Ha as (b & -> & ->).
      destruct (Hab b eq_refl) as (ca & Hca & Hs' & ->). eauto.
    + split; [exact Ha|]. now apply Hnone.
Qed.

Lemma handler_hoare :
  hoare expected (fun s => draws s = 0%nat) handler (fun x s' => recorded x (trace s')).
Proof.
  unfold handler.
  apply hoare_step
    with (Q := fun '(_, mode, _) =>
                 (standard = true -> clip_audio req <> None) /\
                 _policy_to_mode (policy_id req) = inr mode).
  { intros s r s' Hpre H.
    destruct (@step_validate_hoare s r s' Hpre H) as (T & R). split; [exact T|].
    destruct r as [[[t0 mode] fl]|x|e]; [|exact R..].
    split; [exact R|].
    destruct (@step_validate_spec _ _ _ H) as (_ & _ & _ & Hm & _ & Ha & _).
    split; [|exact Hm].
    intros Hs. destruct (Ha Hs) as (ca & ->). discriminate. }
  intros [[t0 mode] fl0] (Haud & Hmode).
  apply hoare_step
    with (Q := fun '(vb, ab) =>
                 vb = content (clip_video req) /\
                 (forall b, ab = Some b ->
                    exists ca, clip_audio req = Some ca /\ standard = true /\
                               b = content ca) /\
                 (standard = true -> ab <> None)).
  { eapply hoare_post; [|apply (step_read_hoare Haud)]. intros [vb ab] s. cbn. tauto. }
  intros [vb ab] (-> & Hab & Hab').
  eapply hoare_bind; [apply step_persist_hoare|]. intros ses. cbn.
  apply hoare_pure
    with (Q := exists ext aext, ses = the_session ext aext /\
                                (aext = None -> standard = false)).
  { intros s (ext & aext & E & _ & _ & Hn). exists ext, aext. split; [exact E|].
    intros ->. destruct standard eqn:Hs; [|reflexivity].
    exfalso. destruct ab as [b|]; [|now apply Hab'].
    now apply (Hn b). }
  intros (ext & aext & -> & Hnone).
  set (vb := content (clip_video req)).
  apply hoare_pre with (pre := kept (the_session ext aext) vb ab).
  { intros s (ext' & aext' & _ & K & _). exact K. }
  pose proof (fun s s' => @kept_stable (the_session ext aext) vb ab s s') as Hst.
  assert (Hh : headers_of (the_session ext aext) = [("X-Veritas-Session", sid)])
    by reflexivity.
  apply hoare_step
    with (Q := fun '(_, _, _, tm') => Py.get tm' "total" = JInt 0).
  { eapply hoare_post; [|exact (@step_challenge_hoare _ _ Hh Hst mode vb ab fl0 timings0)].
    intros [[[cs cd] fl1] tm1] s. cbn. tauto. }
  intros [[[cs cd] fl1] tm1] Htm1.
  exact (@rest_hoare t0 mode ext aext ab cs cd fl1 tm1 Hmode Htm1 Hab Hnone).
Qed.

(** Every operation of a run is one of the expected ones, and a run
    that returned the success response has left its records. *)
Lemma run_expected :
  Forall expected (trace (snd run)) /\
  forall c, succeeded (fst run) c ->
    exists x, fst run = Responded x /\ recorded x (trace (snd run)).
Proof.
  unfold multimodal_verify.
  destruct (handler init_state) as [r s] eqn:H.
  destruct (@handler_hoare init_state r s eq_refl H) as ((evs & T & F) & R).
  cbn in T. subst evs.
  split; [destruct r; exact F|].
  intros c (st & Hout & Hok).
  destruct r as [x|x|e]; cbn in *.
  - eauto.
  - destruct R as (st' & code & msg & fl & ->).
    assert (E : _err st' code msg fl = JSONResponse st (JObj c)) by congruence.
    apply err_not_ok in E. congruence.
  - discriminate Hout.
Qed.

(** ** What a run touches *)

Lemma sha256_file_is_bytes data : _sha256_file data = _sha256_bytes data.
Proof. unfold _sha256_file, _sha256_bytes. now rewrite hash_chunks_update. Qed.

(** X24. Every module call of a run goes to the URL configured for that
    module -- its base URL joined with its path; for the challenge
    engine the validate path, never the start path -- and carries the
    header [X-Veritas-Session] with the session identifier of the run,
    which is [SES-] and the first 16 digits of the first [uuid4] in
    upper case.  All calls of a run carry the same identifier. *)
Theorem every_call_carries_the_session :
  Forall (fun e => match e with
                   | EvPost m rq res =>
                       url rq = endpoint cfg m /\
                       headers rq = [("X-Veritas-Session", sid)] /\
                       res = post_result m rq
                   | _ => True
                   end) (trace (snd run)) /\
  the_session_id w = "SES-" ++ Py.upper (Py.prefix_of 16 (uuid4_hex w 0)) /\
  endpoint cfg Challenge = _join (CHALLENGE_BASE_URL cfg) (CHALLENGE_VALIDATE_PATH cfg).
Proof.
  split; [|split; reflexivity].
  destruct run_expected as (F & _).
  eapply Forall_impl; [|exact F].
  intros [] He; try exact I. exact He.
Qed.

(** X25. The disk operations of a run stay in its session directory
    [SESSIONS_DIR/<session id>/raw] and its proof file
    [PROOFS_DIR/<proof id>.json]: the only directory made is the session
    directory; bytes are written only to [clip_video<ext>] and
    [clip_audio<ext>] there; text only to [metadata.json] and
    [sha256.json] there and to the proof file; and the files read back
    are these clips and the proof file. *)
Theorem disk_operations_stay_in_the_session :
  Forall (fun e => match e with
                   | EvMkdir d => d = dir
                   | EvWriteBytes p _ =>
                       exists ext, p = dir ++ "/clip_video" ++ ext \/
                                   p = dir ++ "/clip_audio" ++ ext
                   | EvWriteText p _ =>
                       p = dir ++ "/metadata.json" \/ p = dir ++ "/sha256.json" \/
                       p = proof_file
                   | EvReadFile p =>
                       (exists ext, p = dir ++ "/clip_video" ++ ext \/
                                    p = dir ++ "/clip_audio" ++ ext) \/
                       p = proof_file
                   | _ => True
                   end) (trace (snd run)) /\
  the_session_dir cfg w = SESSIONS_DIR cfg ++ "/" ++ the_session_id w ++ "/raw" /\
  the_proof_file cfg w = PROOFS_DIR cfg ++ "/" ++ the_proof_id w ++ ".json".
Proof.
  split; [|split; reflexivity].
  destruct run_expected as (F & _).
  eapply Forall_impl; [|exact F].
  intros [] He; try exact I; exact He.
Qed.

(** ** What a success leaves behind *)

Lemma success_recorded c :
  succeeded (fst run) c ->
  exists st, recorded (JSONResponse st (JObj c)) (trace (snd run)).
Proof.
  intros Hc. destruct run_expected as (_ & R).
  destruct (R c Hc) as (x & Hx & Hr).
  destruct Hc as (st & Hout & _).
  exists st. congruence.
Qed.

(** X26. In every run that succeeds, the digests on record are those of the
    bytes on disk.  The proof file and [sha256.json] hold the SHA-256 of
    the video as it was uploaded; under STRICT_STANDARD also the SHA-256
    of the uploaded audio, under STRICT_SILENT [null] in its place; and
    the [proof_sha256] of [sha256.json] is the SHA-256 of the UTF-8
    bytes of the proof file as it was written. *)
Theorem digests_are_of_the_stored_bytes c :
  succeeded (fst run) c ->
  exists po ev v sha_audio,
    Py.get c "proof_file" = JStr proof_file /\
    In (EvWriteText proof_file (json_dumps (JObj po))) (trace (snd run)) /\
    Py.get po "evidence_refs" = JObj ev /\
    Py.get ev "video" = JObj v /\
    Py.get v "sha256" = JStr (_sha256_bytes (content (clip_video req))) /\
    In (EvWriteText (dir ++ "/sha256.json")
          (json_dumps
             (JObj [ ("clip_video_sha256", JStr (_sha256_bytes (content (clip_video req))));
                     ("clip_audio_sha256", sha_audio);
                     ("proof_sha256",
                      JStr (_sha256_bytes (encode_utf8 (json_dumps (JObj po))))) ])))
       (trace (snd run)) /\
    (policy_id req = "STRICT_SILENT" -> sha_audio = JNull /\ Py.get ev "audio" = JNull) /\
    (forall ca, policy_id req = "STRICT_STANDARD" -> clip_audio req = Some ca ->
       sha_audio = JStr (_sha256_bytes (content ca)) /\
       exists a, Py.get ev "audio" = JObj a /\ Py.get a "sha256" = sha_audio).
Proof.
  intros Hc. destruct (@success_recorded c Hc) as (st & R).
  destruct R as (mode & now & fd & cs & cd & fs & vs & ls & ss & flags & tm & t & ext
                 & aext & sha_audio & rq & E & _ & _ & Ha & _ & _ & Hp & Hs).
  unfold success_content in E. injection E as _ ->.
  repeat rewrite sha256_file_is_bytes in Hp. repeat rewrite sha256_file_is_bytes in Hs.
  unfold proof_obj in Hp, Hs.
  do 3 eexists. exists sha_audio.
  split; [reflexivity|]. split; [exact Hp|].
  split; [reflexivity|]. split; [reflexivity|]. split; [reflexivity|].
  split; [exact Hs|].
  split.
  - intros Hsil. pose proof (@silent_not_standard Hsil) as Hn.
    destruct aext as [e|].
    + destruct Ha as (ca & _ & Hstd & _). congruence.
    + destruct Ha as (-> & _). split; reflexivity.
  - intros ca Hstd Hca. apply String.eqb_eq in Hstd. fold standard in Hstd.
    destruct aext as [e|].
    + destruct Ha as (ca' & Hca' & _ & ->).
      assert (ca' = ca) by congruence. subst ca'.
      rewrite sha256_file_is_bytes. split; [reflexivity|].
      eexists. split; reflexivity.
    + destruct Ha as (_ & Hn). congruence.
Qed.

(** X27. The proof file is written before the total time is measured: in
    every run that succeeds its [timings_ms.total] is 0, whatever time
    the run took.  The response carries the measured total; all other
    timings are the same in both. *)
Theorem proof_file_total_time_is_zero c :
  succeeded (fst run) c ->
  exists po tm t,
    In (EvWriteText proof_file (json_dumps (JObj po))) (trace (snd run)) /\
    Py.get po "timings_ms" = JObj tm /\
    Py.get tm "total" = JInt 0 /\
    Py.get c "timings_ms" = JObj (Py.set tm "total" (JInt t)) /\
    forall k, k <> "total" ->
      Py.get (Py.set tm "total" (JInt t)) k = Py.get tm k.
Proof.
  intros Hc. destruct (@success_recorded c Hc) as (st & R).
  destruct R as (mode & now & fd & cs & cd & fs & vs & ls & ss & flags & tm & t & ext
                 & aext & sha_audio & rq & E & _ & Htm & _ & _ & _ & Hp & _).
  unfold success_content in E. injection E as _ ->.
  unfold proof_obj in Hp.
  eexists. exists tm, t.
  split; [exact Hp|]. split; [reflexivity|]. split; [exact Htm|].
  split; [reflexivity|].
  intros k Hk. apply get_set_other. apply String.eqb_neq. congruence.
Qed.

(** X28. In every run that succeeds the proof names the run.  The response,
    the name of the proof file and the proof itself carry the same proof
    identifier -- [PROOF-] and the first 16 digits of the second [uuid4]
    in upper case; the proof carries the session identifier that every
    module call had in its header, the policy and its mode, and the
    enrollments and the challenge of the request. *)
Theorem proof_names_the_run c :
  succeeded (fst run) c ->
  exists po mode,
    Py.get c "proof_id" = JStr pid /\
    Py.get c "proof_file" = JStr (PROOFS_DIR cfg ++ "/" ++ pid ++ ".json") /\
    pid = "PROOF-" ++ Py.upper (Py.prefix_of 16 (uuid4_hex w 1)) /\
    In (EvWriteText (PROOFS_DIR cfg ++ "/" ++ pid ++ ".json") (json_dumps (JObj po)))
       (trace (snd run)) /\
    Py.get po "proof_id" = JStr pid /\
    Py.get po "session_id" = JStr sid /\
    Py.get po "policy_id" = JStr (policy_id req) /\
    _policy_to_mode (policy_id req) = inr mode /\
    Py.get po "mode" = JStr mode /\
    Py.get po "inputs" =
      JObj [ ("enrollment_id_face", JStr (enrollment_id_face req));
             ("enrollment_id_voice", opt_str (enrollment_id_voice req));
             ("challenge_id", JStr (challenge_id req)) ].
Proof.
  intros Hc. destruct (@success_recorded c Hc) as (st & R).
  destruct R as (mode & now & fd & cs & cd & fs & vs & ls & ss & flags & tm & t & ext
                 & aext & sha_audio & rq & E & Hmode & _ & _ & _ & _ & Hp & _).
  unfold success_content in E. injection E as _ ->.
  unfold proof_obj in Hp.
  eexists. exists mode.
  split; [reflexivity|]. split; [reflexivity|]. split; [reflexivity|].
  split; [exact Hp|]. repeat split. exact Hmode.
Qed.

(** X29. In every run that succeeds, Fusion decided on the scores that the
    response reports: the [inputs] of the Fusion request are the five
    scores of the breakdown (with the decision of the challenge), its
    thresholds are the four of the request, and its policy is the
    policy of the request. *)
Theorem fusion_is_given_the_reported_scores c :
  succeeded (fst run) c ->
  exists rq p cs cd fs vs ls ss,
    In (EvPost Fusion rq (post_result Fusion rq)) (trace (snd run)) /\
    body rq = JsonBody (JObj p) /\
    Py.get c "breakdown" =
      JObj [ ("voice_score", vs); ("face_score", fs); ("lipsync_score", ls);
             ("challenge_score", cs); ("vsr_score", ss) ] /\
    Py.get p "inputs" =
      JObj [ ("challenge", JObj [ ("score", cs); ("decision", cd) ]);
             ("face", JObj [ ("score", fs) ]);
             ("voice", JObj [ ("score", vs) ]);
             ("lipsync", JObj [ ("score", ls) ]);
             ("vsr", JObj [ ("score", ss) ]) ] /\
    Py.get p "thresholds" =
      JObj [ ("accept_face", JFloat (accept_face req));
             ("reject_face", JFloat (reject_face req));
             ("accept_voice", JFloat (accept_voice req));
             ("reject_voice", JFloat (reject_voice req)) ] /\
    Py.get p "policy_id" = JStr (policy_id req).
Proof.
  intros Hc. destruct (@success_recorded c Hc) as (st & R).
  destruct R as (mode & now & fd & cs & cd & fs & vs & ls & ss & flags & tm & t & ext
                 & aext & sha_audio & rq & E & _ & _ & _ & Hf & Hsc & _).
  unfold success_content in E. injection E as _ ->.
  destruct Hsc as (p & Hb & Hpol & Hth & Hin).
  exists rq, p, cs, cd, fs, vs, ls, ss.
  split; [exact Hf|]. split; [exact Hb|]. split; [reflexivity|].
  split; [exact Hin|]. split; [exact Hth|exact Hpol].
Qed.

(** ** From a valid request to the first call *)

Lemma bind_val A B (m : M A) (k : A -> M B) s a s1 :
  m s = (Val a, s1) -> bind m k s = k a s1.
Proof. intros E. unfold bind. now rewrite E. Qed.

Lemma bind_done A B (m : M A) (k : A -> M B) s x s1 :
  m s = (Done x, s1) -> bind m k s = (Done x, s1).
Proof. intros E. unfold bind. now rewrite E. Qed.

Lemma bind_raised A B (m : M A) (k : A -> M B) s e s1 :
  m s = (Raised e, s1) -> bind m k s = (Raised e, s1).
Proof. intros E. unfold bind. now rewrite E. Qed.

Lemma step_read_passes s :
  Z.of_nat (List.length (content (clip_video req))) <= MAX_VIDEO_MB cfg * 1024 * 1024 ->
  (forall ca, standard = true -> clip_audio req = Some ca ->
     Z.of_nat (List.length (content ca)) <= MAX_AUDIO_MB cfg * 1024 * 1024) ->
  exists ab s' evs,
    step_read s = (Val (content (clip_video req), ab), s') /\
    (forall ca, standard = true -> clip_audio req = Some ca -> ab = Some (content ca)) /\
    trace s' = (trace s ++ evs)%list /\
    Forall (fun e => exists k, e = EvReadUpload k) evs.
Proof.
  intros Hv Ha.
  assert (Hsm : (Z.of_nat (List.length (content (clip_video req))) >?
                 MAX_VIDEO_MB cfg * 1024 * 1024) = false).
  { rewrite Z.gtb_ltb. apply Z.ltb_ge. exact Hv. }
  unfold step_read, bind, read_upload, ret. fold standard. cbn. rewrite Hsm.
  destruct (clip_audio req) as [ca|] eqn:Hca; cbn.
  - destruct standard eqn:Hs; cbn.
    + assert (Hsa : (Z.of_nat (List.length (content ca)) >?
                     MAX_AUDIO_MB cfg * 1024 * 1024) = false).
      { rewrite Z.gtb_ltb. apply Z.ltb_ge. now apply Ha. }
      rewrite Hsa. do 3 eexists. split; [reflexivity|].
      split; [intros ? _ [= <-]; reflexivity|].
      cbn. rewrite <- app_assoc. split; [reflexivity|]. repeat constructor; eauto.
    + do 3 eexists. split; [reflexivity|]. split; [discriminate|].
      cbn. split; [reflexivity|]. repeat constructor; eauto.
  - do 3 eexists. split; [reflexivity|]. split; [discriminate|].
    cbn. split; [reflexivity|]. repeat constructor; eauto.
Qed.

Lemma step_persist_writes mode vb ab s :
  draws s = 0%nat ->
  exists ext aext s' evs,
    step_persist mode vb ab s = (Val (the_session ext aext), s') /\
    trace s' = (trace s ++ evs)%list /\
    calls evs = [] /\
    In (EvMkdir dir) evs /\
    In (EvWriteBytes (dir ++ "/clip_video" ++ ext) vb) evs /\
    (exists text, In (EvWriteText (dir ++ "/metadata.json") text) evs) /\
    (forall b, ab = Some b -> standard = true ->
       exists e, aext = Some e /\ In (EvWriteBytes (dir ++ "/clip_audio" ++ e) b) evs) /\
    (standard = false -> aext = None) /\
    Forall (fun e => match e with
                     | EvMkdir _ | EvWriteBytes _ _ => True
                     | EvWriteText p _ => p = dir ++ "/metadata.json"
                     | _ => False
                     end) evs.
Proof.
  intros Hd.
  unfold step_persist, bind, _new_session_id, _now_utc_iso, uuid4, mkdir, write_bytes,
    write_text, time_time, ret, bind.
  fold standard. cbn. rewrite Hd.
  destruct ab as [b|]; cbn.
  - destruct standard eqn:Hs; cbn.
    + eexists _, (Some _), _, _. split; [reflexivity|]. cbn. rewrite <- !app_assoc. cbn.
      split; [reflexivity|]. split; [reflexivity|].
      split; [left; reflexivity|]. split; [right; left; reflexivity|].
      split; [eexists; do 3 right; left; reflexivity|].
      split; [|split; [discriminate|repeat constructor]].
      intros b' [= <-] _. eexists. split; [reflexivity|]. do 2 right. left. reflexivity.
    + eexists _, None, _, _. split; [reflexivity|]. cbn. rewrite <- !app_assoc. cbn.
      split; [reflexivity|]. split; [reflexivity|].
      split; [left; reflexivity|]. split; [right; left; reflexivity|].
      split; [eexists; do 2 right; left; reflexivity|].
      split; [discriminate|]. split; [reflexivity|repeat constructor].
  - eexists _, None, _, _. split; [reflexivity|]. cbn. rewrite <- !app_assoc. cbn.
    split; [reflexivity|]. split; [reflexivity|].
    split; [left; reflexivity|]. split; [right; left; reflexivity|].
    split; [eexists; do 2 right; left; reflexivity|].
    split; [discriminate|]. split; [reflexivity|repeat constructor].
Qed.

Lemma reaches_challenge mode :
  _policy_to_mode (policy_id req) = inr mode ->
  enrollment_id_face req <> "" ->
  (policy_id req = "STRICT_STANDARD" ->
   str_or (enrollment_id_voice req) "" <> "" /\ clip_audio req <> None) ->
  Z.of_nat (List.length (content (clip_video req))) <= MAX_VIDEO_MB cfg * 1024 * 1024 ->
  (forall ca, policy_id req = "STRICT_STANDARD" -> clip_audio req = Some ca ->
     Z.of_nat (List.length (content ca)) <= MAX_AUDIO_MB cfg * 1024 * 1024) ->
  exists pre rq evs ext,
    trace (snd run) = (pre ++ EvPost Challenge rq (post_result Challenge rq) :: evs)%list /\
    Forall (fun e => match e with
                     | EvReadUpload _ | EvMkdir _ | EvWriteBytes _ _ => True
                     | EvWriteText p _ => p = dir ++ "/metadata.json"
                     | _ => False
                     end) pre /\
    In (EvMkdir dir) pre /\
    In (EvWriteBytes (dir ++ "/clip_video" ++ ext) (content (clip_video req))) pre /\
    (exists text, In (EvWriteText (dir ++ "/metadata.json") text) pre) /\
    (forall ca, policy_id req = "STRICT_STANDARD" -> clip_audio req = Some ca ->
       exists e, In (EvWriteBytes (dir ++ "/clip_audio" ++ e) (content ca)) pre) /\
    url rq = endpoint cfg Challenge /\
    headers rq = [("X-Veritas-Session", sid)] /\
    (forall o, judge Challenge (post_result Challenge rq) initial_flags = Stop o ->
       fst run = o /\ evs = []).
Proof.
  intros Hm Hf Hs Hv Ha.
  destruct (@step_validate_passes mode init_state Hm Hf Hs) as (t0 & s1 & E1 & T1 & F1 & D1).
  cbn in T1, D1.
  destruct (@step_read_passes s1 Hv) as (ab & s2 & evs2 & E2 & Hab & T2 & R2).
  { intros ca Hstd. apply Ha. now apply String.eqb_eq. }
  destruct (@step_read_spec _ _ _ E2) as (_ & D2 & C2 & _).
  assert (Haud : standard = true -> clip_audio req <> None).
  { intros E. apply String.eqb_eq in E. exact (proj2 (Hs E)). }
  destruct (@step_read_hoare Haud s1 _ s2 D1 E2) as (_ & _ & _ & Hab' & _).
  rewrite T1 in T2, C2. cbn in T2, C2. rewrite D1 in D2.
  destruct (@step_persist_writes mode (content (clip_video req)) ab s2 D2)
    as (ext & aext & s3 & evs3 & E3 & T3 & C3 & Hmk & Hwv & Hmeta & Hwa & Hnone & R3).
  destruct (@step_persist_hoare mode (content (clip_video req)) ab s2 _ s3 D2 E3)
    as (_ & ext' & aext' & Eses & K & _).
  clear ext' aext' Eses.
  set (ses := the_session ext aext) in *.
  set (vb := content (clip_video req)) in *.
  pose proof (fun s s' => @kept_stable ses vb ab s s') as Hst.
  assert (Hh : headers_of ses = [("X-Veritas-Session", sid)]) by reflexivity.
  (* the challenge call *)
  assert (Hcall : exists rq s4,
             match judge Challenge (post_result Challenge rq) initial_flags with
             | Continue d fl' =>
                 exists r, step_challenge mode ses vb ab initial_flags timings0 s3 = (r, s4) /\
                           challenged d fl' r
             | Stop (Responded x) =>
                 step_challenge mode ses vb ab initial_flags timings0 s3 = (Done x, s4)
             | Stop (Failed e) =>
                 step_challenge mode ses vb ab initial_flags timings0 s3 = (Raised e, s4)
             end /\
             trace s4 = (trace s3 ++ [EvPost Challenge rq (post_result Challenge rq)])%list).
  { destruct standard eqn:Hstd.
    - assert (Hpol : policy_id req = "STRICT_STANDARD") by (now apply String.eqb_eq).
      destruct (clip_audio req) as [ca|] eqn:Hca; [|now destruct (proj2 (Hs Hpol))].
      pose proof (Hab ca eq_refl eq_refl) as ->.
      destruct (Hwa _ eq_refl eq_refl) as (e & -> & _).
      destruct (@step_challenge_judge_standard mode ses vb (content ca) _ ca initial_flags
                  timings0 s3 Hstd eq_refl Hca) as (rq & _ & s4 & J & T4 & _).
      exists rq, s4. split; [exact J|exact T4].
    - destruct (@step_challenge_judge_silent mode ses vb ab initial_flags timings0 s3 Hstd)
        as (rq & _ & s4 & J & T4 & _).
      exists rq, s4. split; [exact J|exact T4]. }
  destruct Hcall as (rq & s4 & J & T4).
  assert (Hrq : forall r4, step_challenge mode ses vb ab initial_flags timings0 s3 = (r4, s4) ->
                url rq = endpoint cfg Challenge /\
                headers rq = [("X-Veritas-Session", sid)] /\
                match r4 with
                | Val (_, _, _, tm') => kept ses vb ab s4 /\ Py.get tm' "total" = JInt 0
                | _ => True
                end).
  { intros r4 E4.
    destruct (@step_challenge_hoare ses _ Hh Hst mode vb ab initial_flags timings0
                s3 r4 s4 K E4) as ((evs4 & T4' & F4) & R4).
    rewrite T4 in T4'. apply app_inv_head in T4'. subst evs4.
    apply Forall_inv in F4. destruct F4 as (Hu & Hhd & _).
    split; [exact Hu|]. split; [exact Hhd|].
    destruct r4 as [[[[? ?] ?] tm']|?|?]; auto. }
  (* the run *)
  assert (Hpre :
             let pre := (evs2 ++ evs3)%list in
             Forall (fun e => match e with
                              | EvReadUpload _ | EvMkdir _ | EvWriteBytes _ _ => True
                              | EvWriteText p _ => p = dir ++ "/metadata.json"
                              | _ => False
                              end) pre /\
             In (EvMkdir dir) pre /\
             In (EvWriteBytes (dir ++ "/clip_video" ++ ext) vb) pre /\
             (exists text, In (EvWriteText (dir ++ "/metadata.json") text) pre) /\
             (forall ca, policy_id req = "STRICT_STANDARD" -> clip_audio req = Some ca ->
                exists e, In (EvWriteBytes (dir ++ "/clip_audio" ++ e) (content ca)) pre)).
  { intros pre. subst pre.
    split.
    { apply Forall_app. split.
      - eapply Forall_impl; [|exact R2]. intros e (k & ->). exact I.
      - eapply Forall_impl; [|exact R3]. intros []; auto. }
    split; [apply in_or_app; right; exact Hmk|].
    split; [apply in_or_app; right; exact Hwv|].
    split; [destruct Hmeta as (text & Hin); exists text; apply in_or_app; right; exact Hin|].
    intros ca Hpol Hca. apply String.eqb_eq in Hpol. fold standard in Hpol.
    destruct (Hwa _ (Hab ca Hpol Hca) Hpol) as (e & _ & Hin).
    exists e. apply in_or_app. right. exact Hin. }
  assert (T4f : trace s4 =
                ((evs2 ++ evs3) ++ [EvPost Challenge rq (post_result Challenge rq)])%list).
  { rewrite T4, T3, T2. reflexivity. }
  unfold multimodal_verify.
  destruct (handler init_state) as [r s] eqn:H.
  assert (Hrs : match r with
                | Val r0 => (Responded r0, s)
                | Done r0 => (Responded r0, s)
                | Raised e => (Failed e, s)
                end = (finish r, s)) by (destruct r; reflexivity).
  rewrite Hrs. clear Hrs. cbn [fst snd].
  unfold handler in H.
  rewrite (@bind_val _ _ _ _ _ _ _ E1) in H. cbv beta iota zeta in H.
  rewrite (@bind_val _ _ _ _ _ _ _ E2) in H. cbv beta iota zeta in H.
  rewrite (@bind_val _ _ _ _ _ _ _ E3) in H. fold ses vb in H.
  destruct (judge Challenge (post_result Challenge rq) initial_flags) as [d fl1|o] eqn:W.
  - destruct J as (r4 & E4 & (tm1 & ->)).
    destruct (Hrq _ E4) as (Hu & Hhd & K4 & Htm1).
    rewrite (@bind_val _ _ _ _ _ _ _ E4) in H. cbv beta iota zeta in H.
    assert (Hnone' : aext = None -> standard = false).
    { intros ->. destruct standard eqn:Hstd; [|reflexivity]. exfalso.
      assert (Hpol : policy_id req = "STRICT_STANDARD") by (now apply String.eqb_eq).
      destruct (clip_audio req) as [ca|] eqn:Hca; [|now destruct (proj2 (Hs Hpol))].
      destruct (Hwa _ (Hab ca eq_refl eq_refl) eq_refl) as (e & He & _). discriminate He. }
    destruct (@rest_hoare t0 mode ext aext ab _ _ fl1 tm1 Hm Htm1 Hab' Hnone' s4 r s K4 H)
      as ((evs & T & _) & _).
    exists (evs2 ++ evs3)%list, rq, evs, ext.
    split; [rewrite T, T4f, <- app_assoc; reflexivity|].
    destruct Hpre as (P1 & P2 & P3 & P4 & P5).
    do 7 (split; [assumption|]).
    intros o Ho. rewrite W in Ho. discriminate Ho.
  - destruct Hpre as (P1 & P2 & P3 & P4 & P5).
    destruct o as [x|e].
    + rewrite (@bind_done _ _ _ _ _ _ _ J) in H. injection H as <- <-.
      destruct (Hrq _ J) as (Hu & Hhd & _).
      exists (evs2 ++ evs3)%list, rq, [], ext.
      split; [exact T4f|].
      do 7 (split; [assumption|]).
      intros o' Ho. rewrite W in Ho. injection Ho as <-. split; reflexivity.
    + rewrite (@bind_raised _ _ _ _ _ _ _ J) in H. injection H as <- <-.
      destruct (Hrq _ J) as (Hu & Hhd & _).
      exists (evs2 ++ evs3)%list, rq, [], ext.
      split; [exact T4f|].
      do 7 (split; [assumption|]).
      intros o' Ho. rewrite W in Ho. injection Ho as <-. split; reflexivity.
Qed.

(** X15. A request that passes validation and whose clips are within their
    ceilings always gets to the Challenge call, and the evidence is on
    disk before that call is made: up to it the run has only read the
    uploads, made the session directory, written the video as uploaded
    under [clip_video<ext>] -- under STRICT_STANDARD also the audio
    under [clip_audio<ext>] -- and written [metadata.json].  The call
    goes to the validate URL of the challenge engine with the session
    header. *)
Theorem valid_request_is_stored_then_challenged mode :
  _policy_to_mode (policy_id req) = inr mode ->
  enrollment_id_face req <> "" ->
  (policy_id req = "STRICT_STANDARD" ->
   str_or (enrollment_id_voice req) "" <> "" /\ clip_audio req <> None) ->
  Z.of_nat (List.length (content (clip_video req))) <= MAX_VIDEO_MB cfg * 1024 * 1024 ->
  (forall ca, policy_id req = "STRICT_STANDARD" -> clip_audio req = Some ca ->
     Z.of_nat (List.length (content ca)) <= MAX_AUDIO_MB cfg * 1024 * 1024) ->
  exists pre rq evs ext,
    trace (snd run) = (pre ++ EvPost Challenge rq (post_result Challenge rq) :: evs)%list /\
    Forall (fun e => match e with
                     | EvReadUpload _ | EvMkdir _ | EvWriteBytes _ _ => True
                     | EvWriteText p _ => p = dir ++ "/metadata.json"
                     | _ => False
                     end) pre /\
    In (EvMkdir dir) pre /\
    In (EvWriteBytes (dir ++ "/clip_video" ++ ext) (content (clip_video req))) pre /\
    (exists text, In (EvWriteText (dir ++ "/metadata.json") text) pre) /\
    (forall ca, policy_id req = "STRICT_STANDARD" -> clip_audio req = Some ca ->
       exists e, In (EvWriteBytes (dir ++ "/clip_audio" ++ e) (content ca)) pre) /\
    url rq = _join (CHALLENGE_BASE_URL cfg) (CHALLENGE_VALIDATE_PATH cfg) /\
    headers rq = [("X-Veritas-Session", sid)].
Proof.
  intros Hm Hf Hs Hv Ha.
  destruct (@reaches_challenge mode Hm Hf Hs Hv Ha)
    as (pre & rq & evs & ext & T & P0 & P1 & P2 & P3 & P4 & Hu & Hh & _).
  exists pre, rq, evs, ext. repeat split; auto.
Qed.

(** X16. When the challenge engine cannot be reached -- every attempt of the
    client fails -- a valid request ends with the [RuntimeError] of the
    client, which names the validate URL and the last failure: no
    response is built.  The Challenge call is the last operation of the
    run; the session directory, the clips and [metadata.json] written
    before it stay behind, and nothing else was written. *)
Theorem unreachable_challenge_fails_after_storing mode :
  _policy_to_mode (policy_id req) = inr mode ->
  enrollment_id_face req <> "" ->
  (policy_id req = "STRICT_STANDARD" ->
   str_or (enrollment_id_voice req) "" <> "" /\ clip_audio req <> None) ->
  Z.of_nat (List.length (content (clip_video req))) <= MAX_VIDEO_MB cfg * 1024 * 1024 ->
  (forall ca, policy_id req = "STRICT_STANDARD" -> clip_audio req = Some ca ->
     Z.of_nat (List.length (content ca)) <= MAX_AUDIO_MB cfg * 1024 * 1024) ->
  (forall rq i, (i < attempts cfg)%nat -> exists e, net w Challenge rq i = Fail e) ->
  exists e pre rq ext,
    net w Challenge rq (attempts cfg - 1)%nat = Fail e /\
    fst run = Failed (RuntimeError
                        ("HTTP_POST_MULTIPART_FAILED: " ++
                         _join (CHALLENGE_BASE_URL cfg) (CHALLENGE_VALIDATE_PATH cfg) ++
                         " :: " ++ e)) /\
    trace (snd run) = (pre ++ [EvPost Challenge rq (post_result Challenge rq)])%list /\
    In (EvMkdir dir) pre /\
    In (EvWriteBytes (dir ++ "/clip_video" ++ ext) (content (clip_video req))) pre /\
    (forall p t, In (EvWriteText p t) (trace (snd run)) -> p = dir ++ "/metadata.json") /\
    (forall p, ~ In (EvReadFile p) (trace (snd run))).
Proof.
  intros Hm Hf Hs Hv Ha Hdown.
  destruct (@reaches_challenge mode Hm Hf Hs Hv Ha)
    as (pre & rq & evs & ext & T & P0 & P1 & P2 & _ & _ & Hu & _ & Hstop).
  destruct (@client_all_raise cfg rq (net w Challenge rq)) as (t & Ht & Hp & _).
  { intros i Hi. destruct (Hdown rq i Hi) as (e & ->). exists e. reflexivity. }
  destruct (Hdown rq (attempts cfg - 1)%nat) as (e & He).
  { pose proof (attempts_positive cfg). lia. }
  rewrite He in Ht. simpl in Ht. injection Ht as <-.
  assert (Hres : post_result Challenge rq =
                 inl (RuntimeError ("HTTP_POST_MULTIPART_FAILED: " ++ url rq ++ " :: " ++ e)))
    by exact Hp.
  destruct (Hstop (Failed (RuntimeError
                             ("HTTP_POST_MULTIPART_FAILED: " ++ url rq ++ " :: " ++ e))))
    as (Hout & ->).
  { rewrite Hres. reflexivity. }
  exists e, pre, rq, ext.
  split; [exact He|]. split; [rewrite Hout, Hu; reflexivity|].
  split; [exact T|]. split; [exact P1|]. split; [exact P2|].
  rewrite Forall_forall in P0.
  split.
  - intros p t Hin. rewrite T in Hin. apply in_app_or in Hin.
    destruct Hin as [Hin|[Hin|[]]]; [exact (P0 _ Hin)|discriminate Hin].
  - intros p Hin. rewrite T in Hin. apply in_app_or in Hin.
    destruct Hin as [Hin|[Hin|[]]]; [exact (P0 _ Hin)|discriminate Hin].
Qed.

(** ** Flags that are not a list *)

Lemma appended_in m res cs x :
  In (m, res) cs -> In x (flags_of_reply m res) -> In x (appended cs).
Proof.
  induction cs as [|[m' res'] cs IH]; simpl; [tauto|].
  intros [E|Hin] Hx; apply in_or_app.
  - inversion E; subst. now left.
  - right. now apply IH.
Qed.

Lemma key_eqb_to_str y t : Py.key_eqb y (JStr t) = true -> y = JStr t.
Proof.
  destruct y as [|b|z|q|u|l|o]; simpl; try discriminate;
    try (destruct b; discriminate).
  intros E. apply String.eqb_eq in E. now subst.
Qed.

Lemma chars_are_strings s x : In x (Py.chars s) -> exists t, x = JStr t.
Proof.
  induction s as [|c s IH]; simpl; [tauto|].
  intros [<-|H]; eauto.
Qed.

(** X23. A module that reports its flags as a string instead of a list has
    the string taken apart: in a run that succeeds, every character of
    it is among the flags gathered, as a flag of its own, and is in the
    [flags_summary] of the response when that was not cut at 20. *)
Theorem flags_given_as_text_are_split c m d s :
  succeeded (fst run) c ->
  In (m, inr (JObj d)) (calls (trace (snd run))) ->
  reported_flags m d = JStr s ->
  let acc := (initial_flags ++ appended (calls (trace (snd run))))%list in
  exists flags,
    Py.get c "flags_summary" = JArr flags /\
    flags = firstn 20 (Py.fromkeys acc) /\
    (forall ch, In ch (Py.chars s) -> In ch acc) /\
    ((List.length (Py.fromkeys acc) <= 20)%nat ->
     forall ch, In ch (Py.chars s) -> In ch flags).
Proof.
  intros Hc Hin Hrep acc.
  destruct (@success_inv c Hc) as (ds & fl & pid' & file & tms & W & _ & Hh & E & _).
  apply Walk_through in W. destruct W as (_ & _ & ->). fold acc in E, Hh.
  unfold success_content in E. injection E as ->.
  assert (Hacc : forall ch, In ch (Py.chars s) -> In ch acc).
  { intros ch Hch. apply in_or_app. right.
    apply (@appended_in m (inr (JObj d)) _ ch Hin).
    unfold flags_of_reply. rewrite Hrep. exact Hch. }
  exists (firstn 20 (Py.fromkeys acc)).
  split; [reflexivity|]. split; [reflexivity|]. split; [exact Hacc|].
  intros Hlen ch Hch. rewrite firstn_all2 by exact Hlen.
  rewrite fromkeys_first_seen.
  destruct (@chars_are_strings s ch Hch) as (t & ->).
  destruct (@first_seen_complete acc (JStr t) (Hacc _ Hch) eq_refl) as (y & Hy & Hk).
  apply key_eqb_to_str in Hk. now subst y.
Qed.

End Verification.

(* ================================================================== *)
(** * Concrete runs *)
(* ================================================================== *)

#[local] Existing Instance Demo.sha256.

Lemma silent_run_succeeds :
  succeeded (fst (Demo.verify default_config Demo.w_ok Demo.silent_with_audio))
            Demo.silent_success.
Proof. exists (JInt 200). split; vm_compute; reflexivity. Defined.

(** A run with no module reachable, and one where Challenge answers 503:
    the first ends with the exception of the module client and no
    response; the second answers CHALLENGE_ERROR with an empty
    [flags_summary] although validation had recorded a flag. *)
Lemma C1_counterexample :
  In (Challenge,
      inl (RuntimeError
             "HTTP_POST_MULTIPART_FAILED: http://127.0.0.1:5012/api/challenge/validate :: ConnectError"))
     (calls (trace (snd (Demo.verify default_config Demo.w_down Demo.silent_with_audio)))) /\
  (forall x, fst (Demo.verify default_config Demo.w_down Demo.silent_with_audio)
             <> Responded x) /\
  initial_flags Demo.silent_with_audio = [JStr "AUDIO_IGNORED_SILENT"] /\
  fst (Demo.verify default_config Demo.w_challenge_503 Demo.silent_with_audio) =
  Responded (JSONResponse (JInt 503)
               (JObj [ ("ok", JBool false);
                       ("error_code", JStr "CHALLENGE_ERROR");
                       ("error_message", JStr "challenge validate failed");
                       ("flags_summary", JArr []) ])).
Proof.
  split; [vm_compute; left; reflexivity|].
  split; [intros x; vm_compute; discriminate|].
  split; vm_compute; reflexivity.
Qed.

(** Face answers 503 with a flag of its own: the response is the
    FACE_ERROR response carrying that flag. *)
Lemma C1_witness :
  fst (Demo.verify default_config Demo.w_face_503 Demo.standard_request) =
  Responded (_err (JInt 503) "FACE_ERROR" "face verify failed" (JArr [JStr "NO_FACE"])) /\
  In ("FACE_ERROR", "face verify failed") (error_table default_config).
Proof.
  destruct (@C1_error_responses Demo.dumps Demo.encode Demo.suffix Demo.strftime
              Demo.sha256 default_config Demo.w_face_503 Demo.standard_request)
    as (_ & H & _).
  split.
  - apply (H Face Demo.face_503 [ ("flags_face", JArr [JStr "NO_FACE"]) ]).
    + vm_compute. right. left. reflexivity.
    + reflexivity.
    + reflexivity.
  - vm_compute. do 7 right. left. reflexivity.
Defined.

(** The error response of a Face failure has no breakdown. *)
Lemma C2_counterexample :
  In (Face, inr (JObj Demo.face_503))
     (calls (trace (snd (Demo.verify default_config Demo.w_face_503 Demo.standard_request)))) /\
  exists c,
    fst (Demo.verify default_config Demo.w_face_503 Demo.standard_request) =
    Responded (JSONResponse (JInt 503) (JObj c)) /\
    Py.has_key c "breakdown" = false /\
    Py.get c "breakdown" = JNull.
Proof.
  split; [vm_compute; right; left; reflexivity|].
  eexists. split; [vm_compute; reflexivity|]. split; reflexivity.
Qed.

(** After the Face failure of [Demo.w_face_503] the calls made are
    Challenge and Face. *)
Lemma C2_witness :
  In (Face, inr (JObj Demo.face_503))
     (calls (trace (snd (Demo.verify default_config Demo.w_face_503 Demo.standard_request)))) /\
  Py.truthy (Py.get Demo.face_503 "__http_error__") = true /\
  map fst (calls (trace (snd (Demo.verify default_config Demo.w_face_503
                                          Demo.standard_request)))) =
  [Challenge; Face].
Proof.
  assert (Hin : In (Face, inr (JObj Demo.face_503))
                   (calls (trace (snd (Demo.verify default_config Demo.w_face_503
                                                   Demo.standard_request))))).
  { vm_compute. right. left. reflexivity. }
  split; [exact Hin|]. split; [reflexivity|].
  exact (proj1 (@C2_face_error_stops_pipeline Demo.dumps Demo.encode Demo.suffix
                  Demo.strftime Demo.sha256 default_config Demo.w_face_503
                  Demo.standard_request Demo.face_503 Hin eq_refl)).
Defined.

(** A request with the policy STRICT_LOUD leaves an empty log. *)
Lemma C3_witness :
  policy_id Demo.unknown_policy <> "STRICT_STANDARD" /\
  policy_id Demo.unknown_policy <> "STRICT_SILENT" /\
  trace (snd (Demo.verify default_config Demo.w_ok Demo.unknown_policy)) = [].
Proof.
  assert (H1 : policy_id Demo.unknown_policy <> "STRICT_STANDARD") by discriminate.
  assert (H2 : policy_id Demo.unknown_policy <> "STRICT_SILENT") by discriminate.
  split; [exact H1|]. split; [exact H2|].
  exact (proj1 (proj2 (@C3_invalid_policy_rejected_before_io Demo.dumps Demo.encode
                         Demo.suffix Demo.strftime Demo.sha256 default_config Demo.w_ok
                         Demo.unknown_policy H1 H2))).
Defined.

(** Challenge answers 503: the response lacks the flag that validation
    recorded. *)
Lemma C4_counterexample :
  policy_id Demo.silent_with_audio = "STRICT_SILENT" /\
  clip_audio Demo.silent_with_audio = Some Demo.audio /\
  exists c,
    fst (Demo.verify default_config Demo.w_challenge_503 Demo.silent_with_audio) =
    Responded (JSONResponse (JInt 503) (JObj c)) /\
    Py.get c "flags_summary" = JArr [].
Proof.
  split; [reflexivity|]. split; [reflexivity|].
  eexists. split; [vm_compute; reflexivity|reflexivity].
Qed.

(** The successful STRICT_SILENT run never reads the audio upload. *)
Lemma C4_witness :
  policy_id Demo.silent_with_audio = "STRICT_SILENT" /\
  clip_audio Demo.silent_with_audio = Some Demo.audio /\
  enrollment_id_face Demo.silent_with_audio <> "" /\
  ~ In (EvReadUpload ClipAudio)
       (trace (snd (Demo.verify default_config Demo.w_ok Demo.silent_with_audio))).
Proof.
  assert (Hf : enrollment_id_face Demo.silent_with_audio <> "") by discriminate.
  split; [reflexivity|]. split; [reflexivity|]. split; [exact Hf|].
  exact (proj1 (proj2 (proj2 (@C4_silent_audio_ignored Demo.dumps Demo.encode Demo.suffix
                                Demo.strftime Demo.sha256 default_config Demo.w_ok
                                Demo.silent_with_audio Demo.audio eq_refl eq_refl Hf)))).
Defined.

(** The flags of the successful STRICT_SILENT run: A and C are reported
    twice and stay once. *)
Lemma C5_witness :
  succeeded (fst (Demo.verify default_config Demo.w_ok Demo.silent_with_audio))
            Demo.silent_success /\
  Py.get Demo.silent_success "flags_summary" =
  JArr (firstn 20 (first_seen
          (initial_flags Demo.silent_with_audio ++
           appended (calls (trace (snd (Demo.verify default_config Demo.w_ok
                                                    Demo.silent_with_audio)))))%list)).
Proof.
  split; [exact silent_run_succeeds|].
  exact (proj1 (@C5_flags_summary_unique_ordered_bounded Demo.dumps Demo.encode
                  Demo.suffix Demo.strftime Demo.sha256 default_config Demo.w_ok
                  Demo.silent_with_audio Demo.silent_success silent_run_succeeds)).
Defined.

(** Fusion sends [decision] and no [final_decision]: the decision is
    ACCEPT, not the sentinel. *)
Lemma C6_counterexample :
  In (Fusion, inr (JObj [ ("decision", JStr "ACCEPT") ]))
     (calls (trace (snd (Demo.verify default_config Demo.w_ok Demo.silent_with_audio)))) /\
  Py.has_key [ ("decision", JStr "ACCEPT") ] "final_decision" = false /\
  succeeded (fst (Demo.verify default_config Demo.w_ok Demo.silent_with_audio))
            Demo.silent_success /\
  Py.get Demo.silent_success "final_decision" = JStr "ACCEPT" /\
  Py.get Demo.silent_success "final_decision" <> JStr "INCONCLUSIVE".
Proof.
  split; [vm_compute; do 3 right; left; reflexivity|].
  split; [reflexivity|]. split; [exact silent_run_succeeds|].
  split; [reflexivity|discriminate].
Qed.

(** The decision of the successful run is the [or] chain over the Fusion
    reply. *)
Lemma C6_witness :
  succeeded (fst (Demo.verify default_config Demo.w_ok Demo.silent_with_audio))
            Demo.silent_success /\
  In (Fusion, inr (JObj [ ("decision", JStr "ACCEPT") ]))
     (calls (trace (snd (Demo.verify default_config Demo.w_ok Demo.silent_with_audio)))) /\
  Py.get Demo.silent_success "final_decision" =
  Py.or (Py.or (Py.get [ ("decision", JStr "ACCEPT") ] "final_decision")
               (Py.get [ ("decision", JStr "ACCEPT") ] "decision"))
        (JStr "INCONCLUSIVE").
Proof.
  assert (Hin : In (Fusion, inr (JObj [ ("decision", JStr "ACCEPT") ]))
                   (calls (trace (snd (Demo.verify default_config Demo.w_ok
                                                   Demo.silent_with_audio))))).
  { vm_compute. do 3 right. left. reflexivity. }
  split; [exact silent_run_succeeds|]. split; [exact Hin|].
  exact (proj1 (@C6_final_decision_default Demo.dumps Demo.encode Demo.suffix
                  Demo.strftime Demo.sha256 default_config Demo.w_ok
                  Demo.silent_with_audio Demo.silent_success [ ("decision", JStr "ACCEPT") ]
                  silent_run_succeeds Hin)).
Defined.

(** Three bytes of video against a ceiling of zero megabytes. *)
Lemma C7_witness :
  _policy_to_mode (policy_id Demo.silent_with_audio) = inr "SILENT" /\
  Z.of_nat (List.length (content (clip_video Demo.silent_with_audio)))
  > MAX_VIDEO_MB Demo.tiny_config * 1024 * 1024 /\
  trace (snd (Demo.verify Demo.tiny_config Demo.w_ok Demo.silent_with_audio)) =
  [EvReadUpload ClipVideo].
Proof.
  assert (Hbig : Z.of_nat (List.length (content (clip_video Demo.silent_with_audio)))
                 > MAX_VIDEO_MB Demo.tiny_config * 1024 * 1024) by reflexivity.
  assert (Hf : enrollment_id_face Demo.silent_with_audio <> "") by discriminate.
  assert (Hs : policy_id Demo.silent_with_audio = "STRICT_STANDARD" ->
               str_or (enrollment_id_voice Demo.silent_with_audio) "" <> "" /\
               clip_audio Demo.silent_with_audio <> None) by discriminate.
  split; [reflexivity|]. split; [exact Hbig|].
  exact (proj1 (proj2 (@C7_video_too_large Demo.dumps Demo.encode Demo.suffix
                         Demo.strftime Demo.sha256 Demo.tiny_config Demo.w_ok
                         Demo.silent_with_audio "SILENT" eq_refl Hf Hs Hbig))).
Defined.

(** The file holding [abc] has the SHA-256 digest of [abc]. *)
Lemma C8_witness :
  lookup_file (files Demo.abc_state) "abc.bin" = Some Demo.abc /\
  fst (sha256_file (HL := Demo.sha256) "abc.bin" Demo.abc_state) =
  Val "ba7816bf8f01cfea414140de5dae2223b00361a396177a9cb410ff61f20015ad".
Proof.
  split; [reflexivity|].
  rewrite (proj1 (proj2 (@C8_streaming_digest_is_whole_digest Demo.sha256
                           Demo.abc_state "abc.bin" Demo.abc eq_refl))).
  vm_compute. reflexivity.
Defined.

(** Face reports 0 under [score_face_match] and 0.92 under [face_score]:
    the breakdown holds 0.92. *)
Lemma C9_witness :
  succeeded (fst (Demo.verify default_config Demo.w_ok Demo.silent_with_audio))
            Demo.silent_success /\
  In (Face, inr (JObj Demo.face_zero))
     (calls (trace (snd (Demo.verify default_config Demo.w_ok Demo.silent_with_audio)))) /\
  Py.truthy (Py.get Demo.face_zero (primary_field Face)) = false /\
  exists bd,
    Py.get Demo.silent_success "breakdown" = JObj bd /\
    Py.get bd (breakdown_key Face) = JFloat 0.92.
Proof.
  assert (Hin : In (Face, inr (JObj Demo.face_zero))
                   (calls (trace (snd (Demo.verify default_config Demo.w_ok
                                                   Demo.silent_with_audio))))).
  { vm_compute. right. left. reflexivity. }
  split; [exact silent_run_succeeds|]. split; [exact Hin|]. split; [reflexivity|].
  destruct (@C9_falsy_score_is_replaced Demo.dumps Demo.encode Demo.suffix Demo.strftime
              Demo.sha256 default_config Demo.w_ok Demo.silent_with_audio Demo.silent_success
              Face Demo.face_zero silent_run_succeeds eq_refl Hin eq_refl)
    as (bd & Hb & Hs & _).
  exists bd. split; [exact Hb|exact Hs].
Defined.

(** An audio clip over the ceiling of [Demo.tiny_config] (zero bytes)
    changes nothing under STRICT_SILENT. *)
Lemma C10_witness :
  policy_id Demo.silent_with_audio = "STRICT_SILENT" /\
  Z.of_nat (List.length (content Demo.audio)) > MAX_AUDIO_MB Demo.tiny_config * 1024 * 1024 /\
  ~ In (EvReadUpload ClipAudio)
       (trace (snd (Demo.verify default_config Demo.w_ok Demo.silent_with_audio))) /\
  Demo.verify default_config Demo.w_ok (with_audio Demo.silent_with_audio (Some Demo.audio)) =
  Demo.verify default_config Demo.w_ok (with_audio Demo.silent_with_audio (Some Demo.video)).
Proof.
  split; [reflexivity|]. split; [reflexivity|].
  destruct (proj1 (@C10_silent_audio_not_measured Demo.dumps Demo.encode Demo.suffix
                     Demo.strftime Demo.sha256 default_config Demo.w_ok
                     Demo.silent_with_audio)
                  eq_refl) as (H1 & H2).
  split; [exact H1|exact (H2 Demo.audio Demo.video)].
Defined.

(** ** The module client *)

(** The first attempt fails, the second is answered: the answer is what
    the client gives back. *)
Lemma client_first_reply_wins_witness :
  (1 < attempts default_config)%nat /\
  classify (Demo.flaky 1) = inr (JObj Demo.answer) /\
  _post_multipart default_config Demo.a_request Demo.flaky = inr (JObj Demo.answer).
Proof.
  assert (H1 : (1 < attempts default_config)%nat) by (apply Nat.ltb_lt; reflexivity).
  assert (H2 : forall j, (j < 1)%nat -> exists t, classify (Demo.flaky j) = inl t).
  { intros [|j] Hj; [eexists; reflexivity|]. apply Nat.ltb_lt in Hj. discriminate Hj. }
  split; [exact H1|]. split; [reflexivity|].
  exact (proj1 (@client_first_reply_wins default_config Demo.a_request Demo.flaky 1%nat
                  (JObj Demo.answer) H1 H2 eq_refl)).
Defined.

(** With one retry the client asks twice: what a third attempt would
    bring changes nothing. *)
Lemma client_attempts_are_bounded_witness :
  (forall i, (i < attempts default_config)%nat -> Demo.flaky i = Demo.flaky_cut i) /\
  _post_multipart default_config Demo.a_request Demo.flaky =
  _post_multipart default_config Demo.a_request Demo.flaky_cut.
Proof.
  assert (H : forall i, (i < attempts default_config)%nat ->
                        Demo.flaky i = Demo.flaky_cut i).
  { intros [|[|i]] Hi; [reflexivity|reflexivity|].
    apply Nat.ltb_lt in Hi. discriminate Hi. }
  split; [exact H|].
  exact (proj1 (@client_attempts_are_bounded default_config Demo.a_request Demo.flaky
                  Demo.flaky_cut H)).
Defined.

(** A 502 with a page of text: the client hands over the status and the
    text. *)
Lemma client_error_text_is_bounded_witness :
  Demo.bad_gateway 0%nat = Reply 502 "text/html" "<h1>Bad Gateway</h1>" None /\
  exists t,
    _post_multipart default_config Demo.a_request Demo.bad_gateway =
      inr (JObj [ ("__http_error__", JBool true);
                  ("__status__", JInt 502);
                  ("__text__", JStr t) ]) /\
    (String.length t <= 500)%nat.
Proof.
  split; [reflexivity|].
  destruct (@client_error_text_is_bounded default_config Demo.a_request Demo.bad_gateway
              502 "text/html" "<h1>Bad Gateway</h1>" None eq_refl
              ltac:(discriminate) eq_refl) as (t & H1 & H2 & _).
  exists t. split; [exact H1|exact H2].
Defined.


(** ** The proxy *)

(** The engine answers 503 with a page of text. *)
Lemma proxy_relays_engine_errors_witness :
  net Demo.w_challenge_text_503 Challenge
      (start_request default_config Demo.start_payload) 0%nat =
  Reply 503 "text/html" "<h1>Service Unavailable</h1>" None /\
  fst (challenge_start default_config Demo.w_challenge_text_503 Demo.start_payload) =
  Responded (_err (JInt 503) "CHALLENGE_START_ERROR" "challenge start failed" (JArr [])).
Proof.
  split; [reflexivity|].
  refine (proj1 (@proxy_relays_engine_errors default_config Demo.w_challenge_text_503
                   Demo.start_payload 503 "text/html" "<h1>Service Unavailable</h1>" None
                   eq_refl ltac:(discriminate) _)).
  intros H. discriminate H.
Defined.

(** The engine answers 200 with a JSON object. *)
Lemma proxy_passes_reply_through_witness :
  net Demo.w_ok Challenge (start_request default_config Demo.start_payload) 0%nat =
  Reply 200 "application/json" "" (Some (JObj Demo.challenge_ok)) /\
  fst (challenge_start default_config Demo.w_ok Demo.start_payload) =
  Responded (JSONResponse (JInt 200) (JObj Demo.challenge_ok)).
Proof.
  split; [reflexivity|].
  exact (proj2 (@proxy_passes_reply_through default_config Demo.w_ok Demo.start_payload
                  200 "application/json" "" (Some (JObj Demo.challenge_ok))
                  eq_refl eq_refl)
               eq_refl Demo.challenge_ok eq_refl eq_refl).
Defined.


(** The engine answers 200 with the JSON value [null]. *)
Lemma proxy_needs_a_json_object_witness :
  net Demo.w_challenge_null Challenge
      (start_request default_config Demo.start_payload) 0%nat =
  Reply 200 "application/json" "null" (Some JNull) /\
  fst (challenge_start default_config Demo.w_challenge_null Demo.start_payload) =
  Failed AttributeError.
Proof.
  split; [reflexivity|].
  refine (proj1 (@proxy_needs_a_json_object default_config Demo.w_challenge_null
                   Demo.start_payload 200 "application/json" "null" JNull
                   eq_refl eq_refl _) eq_refl).
  intros d H. discriminate H.
Defined.

(** No engine to reach. *)
Lemma proxy_transport_failure_raises_witness :
  net Demo.w_down Challenge (start_request default_config Demo.start_payload) 1%nat =
  Fail "ConnectError" /\
  fst (challenge_start default_config Demo.w_down Demo.start_payload) =
  Failed (RuntimeError
            "HTTP_POST_JSON_FAILED: http://127.0.0.1:5012/api/challenge/start :: ConnectError").
Proof.
  split; [reflexivity|].
  destruct (@proxy_transport_failure_raises default_config Demo.w_down Demo.start_payload)
    as (e & He & Hout & _).
  { intros i _. eexists. reflexivity. }
  injection He as <-. exact Hout.
Defined.

(** ** The calls of a run *)

(** The silent run of [Demo.w_ok] makes the four calls of its plan. *)
Lemma success_takes_the_whole_plan_witness :
  succeeded (fst (Demo.verify default_config Demo.w_ok Demo.silent_with_audio))
            Demo.silent_success /\
  map fst (calls (trace (snd (Demo.verify default_config Demo.w_ok
                                          Demo.silent_with_audio)))) =
  [Challenge; Face; Vsr; Fusion].
Proof.
  split; [exact silent_run_succeeds|].
  exact (proj1 (proj2 (proj2 (@success_takes_the_whole_plan Demo.dumps Demo.encode
                                Demo.suffix Demo.strftime Demo.sha256 default_config
                                Demo.w_ok Demo.silent_with_audio Demo.silent_success
                                silent_run_succeeds)))
               eq_refl).
Defined.

(** Its breakdown has no voice and no lip-sync score. *)
Lemma scores_of_uncalled_modules_are_null_witness :
  succeeded (fst (Demo.verify default_config Demo.w_ok Demo.silent_with_audio))
            Demo.silent_success /\
  exists bd,
    Py.get Demo.silent_success "breakdown" = JObj bd /\
    Py.get bd "voice_score" = JNull /\
    Py.get bd "lipsync_score" = JNull.
Proof.
  split; [exact silent_run_succeeds|].
  destruct (@scores_of_uncalled_modules_are_null Demo.dumps Demo.encode Demo.suffix
              Demo.strftime Demo.sha256 default_config Demo.w_ok Demo.silent_with_audio
              Demo.silent_success silent_run_succeeds)
    as (bd & file & fd & flags & Hb & _ & _ & Hsil & _).
  exists bd. split; [exact Hb|]. exact (Hsil eq_refl).
Defined.

(** Face answers with a JSON array. *)
Lemma reply_that_is_no_object_raises_witness :
  In (Face, inr (JArr [JInt 1]))
     (calls (trace (snd (Demo.verify default_config Demo.w_face_array
                                     Demo.silent_with_audio)))) /\
  fst (Demo.verify default_config Demo.w_face_array Demo.silent_with_audio) =
  Failed AttributeError.
Proof.
  assert (Hin : In (Face, @inr exn json (JArr [JInt 1]))
                   (calls (trace (snd (Demo.verify default_config Demo.w_face_array
                                                   Demo.silent_with_audio))))).
  { vm_compute. right. left. reflexivity. }
  split; [exact Hin|].
  refine (proj1 (@reply_that_is_no_object_raises Demo.dumps Demo.encode Demo.suffix
                   Demo.strftime Demo.sha256 default_config Demo.w_face_array
                   Demo.silent_with_audio Face (JArr [JInt 1]) Hin _)).
  intros d H. discriminate H.
Defined.

(** Face reports its flags as the number 5. *)
Lemma flags_that_are_no_collection_raise_witness :
  In (Face, inr (JObj Demo.face_flags_number))
     (calls (trace (snd (Demo.verify default_config Demo.w_face_flags_number
                                     Demo.silent_with_audio)))) /\
  extend [] (reported_flags Face Demo.face_flags_number) = None /\
  fst (Demo.verify default_config Demo.w_face_flags_number Demo.silent_with_audio) =
  Failed TypeError.
Proof.
  assert (Hin : In (Face, @inr exn json (JObj Demo.face_flags_number))
                   (calls (trace (snd (Demo.verify default_config Demo.w_face_flags_number
                                                   Demo.silent_with_audio))))).
  { vm_compute. right. left. reflexivity. }
  split; [exact Hin|]. split; [reflexivity|].
  exact (proj1 (@flags_that_are_no_collection_raise Demo.dumps Demo.encode Demo.suffix
                  Demo.strftime Demo.sha256 default_config Demo.w_face_flags_number
                  Demo.silent_with_audio Face Demo.face_flags_number Hin eq_refl eq_refl)).
Defined.

(** Face reports a flag that is a list; every module answers. *)
Lemma unhashable_flag_raises_witness :
  In (Fusion, inr (JObj [ ("decision", JStr "ACCEPT") ]))
     (calls (trace (snd (Demo.verify default_config Demo.w_face_flag_list
                                     Demo.silent_with_audio)))) /\
  In (JArr [JStr "x"])
     (initial_flags Demo.silent_with_audio ++
      appended (calls (trace (snd (Demo.verify default_config Demo.w_face_flag_list
                                               Demo.silent_with_audio)))))%list /\
  fst (Demo.verify default_config Demo.w_face_flag_list Demo.silent_with_audio) =
  Failed TypeError.
Proof.
  assert (Hin : In (Fusion, @inr exn json (JObj [ ("decision", JStr "ACCEPT") ]))
                   (calls (trace (snd (Demo.verify default_config Demo.w_face_flag_list
                                                   Demo.silent_with_audio))))).
  { vm_compute. do 3 right. left. reflexivity. }
  assert (Hx : In (JArr [JStr "x"])
                  (initial_flags Demo.silent_with_audio ++
                   appended (calls (trace (snd (Demo.verify default_config
                                                            Demo.w_face_flag_list
                                                            Demo.silent_with_audio)))))%list).
  { vm_compute. do 3 right. left. reflexivity. }
  split; [exact Hin|]. split; [exact Hx|].
  exact (@unhashable_flag_raises Demo.dumps Demo.encode Demo.suffix Demo.strftime
           Demo.sha256 default_config Demo.w_face_flag_list Demo.silent_with_audio
           [ ("decision", JStr "ACCEPT") ] (JArr [JStr "x"]) Hin eq_refl Hx eq_refl).
Defined.

(** Face reports its flags as the string [NO]: [N] and [O] are flags. *)
Lemma flags_given_as_text_are_split_witness :
  succeeded (fst (Demo.verify default_config Demo.w_face_flags_text Demo.silent_with_audio))
            (Demo.content_of
               (fst (Demo.verify default_config Demo.w_face_flags_text
                                 Demo.silent_with_audio))) /\
  reported_flags Face Demo.face_flags_text = JStr "NO" /\
  exists flags,
    Py.get (Demo.content_of
              (fst (Demo.verify default_config Demo.w_face_flags_text
                                Demo.silent_with_audio))) "flags_summary" = JArr flags /\
    In (JStr "N") flags /\ In (JStr "O") flags.
Proof.
  assert (Hs : succeeded
                 (fst (Demo.verify default_config Demo.w_face_flags_text
                                   Demo.silent_with_audio))
                 (Demo.content_of
                    (fst (Demo.verify default_config Demo.w_face_flags_text
                                      Demo.silent_with_audio)))).
  { exists (JInt 200). split; vm_compute; reflexivity. }
  assert (Hin : In (Face, @inr exn json (JObj Demo.face_flags_text))
                   (calls (trace (snd (Demo.verify default_config Demo.w_face_flags_text
                                                   Demo.silent_with_audio))))).
  { vm_compute. right. left. reflexivity. }
  split; [exact Hs|]. split; [reflexivity|].
  destruct (@flags_given_as_text_are_split Demo.dumps Demo.encode Demo.suffix
              Demo.strftime Demo.sha256 default_config Demo.w_face_flags_text
              Demo.silent_with_audio _ Face Demo.face_flags_text "NO" Hs Hin eq_refl)
    as (flags & Hf & _ & _ & Hall).
  exists flags. split; [exact Hf|].
  assert (Hlen : (List.length
                    (Py.fromkeys
                       (initial_flags Demo.silent_with_audio ++
                        appended (calls (trace (snd (Demo.verify default_config
                                                        Demo.w_face_flags_text
                                                        Demo.silent_with_audio)))))%list)
                  <= 20)%nat).
  { apply Nat.leb_le. vm_compute. reflexivity. }
  split; apply (Hall Hlen); [left|right; left]; reflexivity.
Defined.

(** ** Rejections *)

(** A request without face enrollment, one with an empty voice
    enrollment, one without audio clip. *)
Lemma missing_field_rejected_before_io_witness :
  policy_id Demo.no_face = "STRICT_SILENT" /\
  fst (Demo.verify default_config Demo.w_ok Demo.no_face) =
  Responded (_err (JInt 400) "MISSING_FIELD" "enrollment_id_face required" JNull) /\
  fst (Demo.verify default_config Demo.w_ok Demo.no_voice) =
  Responded (_err (JInt 400) "MISSING_FIELD"
                  "enrollment_id_voice required for STRICT_STANDARD" JNull) /\
  fst (Demo.verify default_config Demo.w_ok Demo.no_audio) =
  Responded (_err (JInt 400) "MISSING_FIELD"
                  "clip_audio required for STRICT_STANDARD" JNull) /\
  trace (snd (Demo.verify default_config Demo.w_ok Demo.no_audio)) = [].
Proof.
  split; [reflexivity|].
  split.
  { exact (proj1 (proj1 (@missing_field_rejected_before_io Demo.dumps Demo.encode
                           Demo.suffix Demo.strftime Demo.sha256 default_config Demo.w_ok
                           Demo.no_face (or_intror eq_refl))
                        eq_refl)). }
  split.
  { refine (proj1 (proj1 (proj2 (@missing_field_rejected_before_io Demo.dumps Demo.encode
                                   Demo.suffix Demo.strftime Demo.sha256 default_config
                                   Demo.w_ok Demo.no_voice (or_introl eq_refl)))
                         _ eq_refl (or_intror eq_refl))).
    discriminate. }
  assert (H : fst (Demo.verify default_config Demo.w_ok Demo.no_audio) =
              Responded (_err (JInt 400) "MISSING_FIELD"
                              "clip_audio required for STRICT_STANDARD" JNull) /\
              trace (snd (Demo.verify default_config Demo.w_ok Demo.no_audio)) = [] /\
              files (snd (Demo.verify default_config Demo.w_ok Demo.no_audio)) = [] /\
              draws (snd (Demo.verify default_config Demo.w_ok Demo.no_audio)) = 0%nat).
  { refine (proj2 (proj2 (@missing_field_rejected_before_io Demo.dumps Demo.encode
                            Demo.suffix Demo.strftime Demo.sha256 default_config
                            Demo.w_ok Demo.no_audio (or_introl eq_refl)))
                  _ eq_refl _ eq_refl).
    - discriminate.
    - exists "voice-1". split; [reflexivity|discriminate]. }
  split; [exact (proj1 H)|exact (proj1 (proj2 H))].
Defined.

(** Two bytes of audio against a ceiling of zero megabytes. *)
Lemma audio_too_large_witness :
  Z.of_nat (List.length (content Demo.audio)) >
  MAX_AUDIO_MB Demo.no_audio_config * 1024 * 1024 /\
  trace (snd (Demo.verify Demo.no_audio_config Demo.w_ok Demo.standard_request)) =
  [EvReadUpload ClipVideo; EvReadUpload ClipAudio].
Proof.
  assert (Hbig : Z.of_nat (List.length (content Demo.audio)) >
                 MAX_AUDIO_MB Demo.no_audio_config * 1024 * 1024) by reflexivity.
  assert (Hsmall : Z.of_nat (List.length (content (clip_video Demo.standard_request))) <=
                   MAX_VIDEO_MB Demo.no_audio_config * 1024 * 1024)
    by (vm_compute; discriminate).
  assert (Hf : enrollment_id_face Demo.standard_request <> "") by discriminate.
  assert (Hv : str_or (enrollment_id_voice Demo.standard_request) "" <> "") by discriminate.
  split; [exact Hbig|].
  exact (proj1 (proj2 (@audio_too_large Demo.dumps Demo.encode Demo.suffix Demo.strftime
                         Demo.sha256 Demo.no_audio_config Demo.w_ok Demo.standard_request
                         Demo.audio eq_refl Hf Hv eq_refl Hsmall Hbig))).
Defined.

(** ** What the silent run of [Demo.w_ok] leaves behind *)

Lemma digests_are_of_the_stored_bytes_witness :
  succeeded (fst (Demo.verify default_config Demo.w_ok Demo.silent_with_audio))
            Demo.silent_success /\
  exists po,
    In (EvWriteText "./proofs/PROOF-FEDCBA9876543210.json" (Demo.dumps (JObj po)))
       (trace (snd (Demo.verify default_config Demo.w_ok Demo.silent_with_audio))) /\
    In (EvWriteText "./sessions/SES-0123456789ABCDEF/raw/sha256.json"
          (Demo.dumps
             (JObj [ ("clip_video_sha256",
                      JStr (_sha256_bytes (content (clip_video Demo.silent_with_audio))));
                     ("clip_audio_sha256", JNull);
                     ("proof_sha256",
                      JStr (_sha256_bytes (Demo.encode (Demo.dumps (JObj po))))) ])))
       (trace (snd (Demo.verify default_config Demo.w_ok Demo.silent_with_audio))).
Proof.
  split; [exact silent_run_succeeds|].
  destruct (@digests_are_of_the_stored_bytes Demo.dumps Demo.encode Demo.suffix
              Demo.strftime Demo.sha256 default_config Demo.w_ok Demo.silent_with_audio
              Demo.silent_success silent_run_succeeds)
    as (po & ev & v & sha_audio & _ & Hp & _ & _ & _ & Hs & Hsil & _).
  destruct (Hsil eq_refl) as (-> & _).
  exists po. split; [exact Hp|exact Hs].
Defined.

(** The response says 77 ms, the proof file 0. *)
Lemma proof_file_total_time_is_zero_witness :
  succeeded (fst (Demo.verify default_config Demo.w_ok Demo.silent_with_audio))
            Demo.silent_success /\
  exists po tm t,
    In (EvWriteText "./proofs/PROOF-FEDCBA9876543210.json" (Demo.dumps (JObj po)))
       (trace (snd (Demo.verify default_config Demo.w_ok Demo.silent_with_audio))) /\
    Py.get po "timings_ms" = JObj tm /\
    Py.get tm "total" = JInt 0 /\
    Py.get Demo.silent_success "timings_ms" = JObj (Py.set tm "total" (JInt t)).
Proof.
  split; [exact silent_run_succeeds|].
  destruct (@proof_file_total_time_is_zero Demo.dumps Demo.encode Demo.suffix
              Demo.strftime Demo.sha256 default_config Demo.w_ok Demo.silent_with_audio
              Demo.silent_success silent_run_succeeds)
    as (po & tm & t & Hp & H1 & H2 & H3 & _).
  exists po, tm, t. split; [exact Hp|]. split; [exact H1|]. split; [exact H2|exact H3].
Defined.

Lemma proof_names_the_run_witness :
  succeeded (fst (Demo.verify default_config Demo.w_ok Demo.silent_with_audio))
            Demo.silent_success /\
  exists po,
    In (EvWriteText "./proofs/PROOF-FEDCBA9876543210.json" (Demo.dumps (JObj po)))
       (trace (snd (Demo.verify default_config Demo.w_ok Demo.silent_with_audio))) /\
    Py.get po "proof_id" = JStr "PROOF-FEDCBA9876543210" /\
    Py.get po "session_id" = JStr "SES-0123456789ABCDEF" /\
    Py.get po "mode" = JStr "SILENT".
Proof.
  split; [exact silent_run_succeeds|].
  destruct (@proof_names_the_run Demo.dumps Demo.encode Demo.suffix
              Demo.strftime Demo.sha256 default_config Demo.w_ok Demo.silent_with_audio
              Demo.silent_success silent_run_succeeds)
    as (po & mode & _ & _ & _ & Hp & H1 & H2 & _ & Hm & H3 & _).
  injection Hm as <-.
  exists po. split; [exact Hp|]. split; [exact H1|]. split; [exact H2|exact H3].
Defined.

Lemma fusion_is_given_the_reported_scores_witness :
  succeeded (fst (Demo.verify default_config Demo.w_ok Demo.silent_with_audio))
            Demo.silent_success /\
  exists rq p,
    In (EvPost Fusion rq (post_result default_config Demo.w_ok Fusion rq))
       (trace (snd (Demo.verify default_config Demo.w_ok Demo.silent_with_audio))) /\
    body rq = JsonBody (JObj p) /\
    Py.get p "policy_id" = JStr "STRICT_SILENT" /\
    exists cd,
      Py.get p "inputs" =
        JObj [ ("challenge", JObj [ ("score", JFloat 0.9); ("decision", cd) ]);
               ("face", JObj [ ("score", JFloat 0.92) ]);
               ("voice", JObj [ ("score", JNull) ]);
               ("lipsync", JObj [ ("score", JNull) ]);
               ("vsr", JObj [ ("score", JNull) ]) ].
Proof.
  split; [exact silent_run_succeeds|].
  destruct (@fusion_is_given_the_reported_scores Demo.dumps Demo.encode Demo.suffix
              Demo.strftime Demo.sha256 default_config Demo.w_ok Demo.silent_with_audio
              Demo.silent_success silent_run_succeeds)
    as (rq & p & cs & cd & fs & vs & ls & ss & Hin & Hb & Hbd & Hi & _ & Hpol).
  exists rq, p. split; [exact Hin|]. split; [exact Hb|]. split; [exact Hpol|].
  exists cd. rewrite Hi.
  assert (E : JObj [ ("voice_score", JNull); ("face_score", JFloat 0.92);
                     ("lipsync_score", JNull); ("challenge_score", JFloat 0.9);
                     ("vsr_score", JNull) ] =
              JObj [ ("voice_score", vs); ("face_score", fs); ("lipsync_score", ls);
                     ("challenge_score", cs); ("vsr_score", ss) ]) by exact Hbd.
  injection E as <- <- <- <- <-. reflexivity.
Defined.

(** ** From a valid request to the first call *)

Lemma valid_request_is_stored_then_challenged_witness :
  _policy_to_mode (policy_id Demo.silent_with_audio) = inr "SILENT" /\
  exists pre rq evs,
    trace (snd (Demo.verify default_config Demo.w_ok Demo.silent_with_audio)) =
    (pre ++ EvPost Challenge rq (post_result default_config Demo.w_ok Challenge rq)
         :: evs)%list /\
    In (EvMkdir "./sessions/SES-0123456789ABCDEF/raw") pre /\
    url rq = "http://127.0.0.1:5012/api/challenge/validate".
Proof.
  split; [reflexivity|].
  destruct (@valid_request_is_stored_then_challenged Demo.dumps Demo.encode Demo.suffix
              Demo.strftime Demo.sha256 default_config Demo.w_ok Demo.silent_with_audio
              "SILENT" eq_refl)
    as (pre & rq & evs & ext & T & _ & Hm & _ & _ & _ & Hu & _).
  { discriminate. }
  { discriminate. }
  { vm_compute. discriminate. }
  { discriminate. }
  exists pre, rq, evs. split; [exact T|]. split; [exact Hm|exact Hu].
Defined.

(** No module can be reached. *)
Lemma unreachable_challenge_fails_after_storing_witness :
  (forall rq i, (i < attempts default_config)%nat ->
     exists e, net Demo.w_down Challenge rq i = Fail e) /\
  fst (Demo.verify default_config Demo.w_down Demo.silent_with_audio) =
  Failed (RuntimeError
            "HTTP_POST_MULTIPART_FAILED: http://127.0.0.1:5012/api/challenge/validate :: ConnectError").
Proof.
  assert (Hdown : forall rq i, (i < attempts default_config)%nat ->
                               exists e, net Demo.w_down Challenge rq i = Fail e).
  { intros rq i _. eexists. reflexivity. }
  split; [exact Hdown|].
  destruct (@unreachable_challenge_fails_after_storing Demo.dumps Demo.encode Demo.suffix
              Demo.strftime Demo.sha256 default_config Demo.w_down Demo.silent_with_audio
              "SILENT" eq_refl)
    as (e & pre & rq & ext & He & Hout & _).
  { discriminate. }
  { discriminate. }
  { vm_compute. discriminate. }
  { discriminate. }
  { exact Hdown. }
  injection He as <-. exact Hout.
Defined.
